(** * Strawberry-Disease-Prediction: the FastAPI backend, embedded in Rocq

    A shallow embedding of [backend.py] (the request handlers
    [predict_health], [detect_image], [detect_video], [get_video] and the
    nested generator [file_iterator]) together with the small part of the
    Python runtime they lean on: POSIX path handling ([os.path.join],
    [os.path.exists], [os.path.basename]), a filesystem keyed by canonical
    absolute paths, exceptions, and JSON-shaped response bodies.

    Conventions.
    - A Python exception is a value of [exn]; a call that may raise returns
      a [result].  [try: ... except Exception as e: return {"error": ...}]
      is the final [match] of each handler.
    - A Python [float] is modelled by the rational number it denotes
      (type [Q]); rounding of arithmetic is not modelled.
    - The model weights ([models/best.pt], [Decision_Tree.pkl],
      [scaler.pkl]) are not part of the sources: the calls into them are
      parameters of the handlers. *)

From Stdlib Require Import ZArith QArith Lqa List String Ascii Lia.
From stdpp Require Import base gmap strings list pretty.
From Equations Require Import Equations.

Local Open Scope list_scope.
Local Open Scope string_scope.

(** ** Bytes, exceptions, results *)

Abbreviation bytes := (list Byte.byte).

(** A raised exception: its class name and [str(e)]. *)
Record exn := Exn { exn_class : string; exn_str : string }.

Inductive result (A : Type) : Type :=
| Ok (a : A)
| Raise (e : exn).
Arguments Ok {A} a.
Arguments Raise {A} e.

#[global] Instance result_ret : MRet result := λ A a, Ok a.
#[global] Instance result_bind : MBind result := λ A B k r,
  match r with
  | Ok a => k a
  | Raise e => Raise e
  end.

(** ** JSON bodies and responses *)

#[warnings="-register-all"]
Inductive json :=
| JStr (s : string)
| JInt (z : Z)
| JFloat (q : Q)
| JList (l : list json)
| JObj (fields : list (string * json)).

(** The body every [except Exception as e] branch returns. *)
Definition error_body (prefix : string) (e : exn) : json :=
  JObj [("error", JStr (prefix ++ exn_str e))].

Definition is_error_body (j : json) : Prop :=
  ∃ msg, j = JObj [("error", JStr msg)].

(** ** POSIX paths *)

Definition is_sep (c : ascii) : bool := bool_decide (c = "/"%char).

(** [s.split("/")]: the components between separators, empty ones kept. *)
Fixpoint split_sep (s : string) : list string :=
  match s with
  | EmptyString => [EmptyString]
  | String c s' =>
      if is_sep c then EmptyString :: split_sep s'
      else match split_sep s' with
           | w :: ws => String c w :: ws
           | [] => [String c EmptyString]
           end
  end.

Definition startswith_sep (s : string) : bool :=
  match s with
  | String c _ => is_sep c
  | EmptyString => false
  end.

Fixpoint endswith_sep (s : string) : bool :=
  match s with
  | EmptyString => false
  | String c EmptyString => is_sep c
  | String _ s' => endswith_sep s'
  end.

(** [posixpath.join(a, b)]. *)
Definition os_path_join (a b : string) : string :=
  if startswith_sep b then b
  else if bool_decide (a = EmptyString) || endswith_sep a then a ++ b
  else a ++ "/" ++ b.

(** [posixpath.basename(p)]: what follows the last separator. *)
Definition os_path_basename (p : string) : string :=
  List.last (split_sep p) EmptyString.

(** [os.getcwd()] for a working directory given by its components. *)
Fixpoint render (dir : list string) : string :=
  match dir with
  | [] => EmptyString
  | c :: cs => "/" ++ c ++ render cs
  end.

Definition os_getcwd (cwd : list string) : string :=
  match cwd with
  | [] => "/"
  | _ => render cwd
  end.

(** ** The filesystem

    A filesystem maps the canonical absolute path of every existing entry
    (its components from the root, none of them empty, ["."] or [".."]) to the
    entry; the root itself is always a directory.  Symbolic links are not
    modelled. *)

Inductive node :=
| File (data : bytes)
| Dir.

Abbreviation fs := (gmap (list string) node).

Definition is_dir (σ : fs) (p : list string) : bool :=
  match p with
  | [] => true
  | _ => match σ !! p with
         | Some Dir => true
         | _ => false
         end
  end.

Definition entry_exists (σ : fs) (p : list string) : bool :=
  match p with
  | [] => true
  | _ => bool_decide (is_Some (σ !! p))
  end.

(** Path resolution as the kernel does it: component by component, where
    every component is looked up in a directory, [".."] climbs to the
    parent (the root is its own parent), an empty one and ["."] stay. *)
Fixpoint walk (σ : fs) (cur : list string) (comps : list string)
  : option (list string) :=
  match comps with
  | [] => Some cur
  | c :: cs =>
      if is_dir σ cur then
        if bool_decide (c = EmptyString) || bool_decide (c = ".") then walk σ cur cs
        else if bool_decide (c = "..") then walk σ (removelast cur) cs
        else if entry_exists σ (cur ++ [c])%list then walk σ (cur ++ [c])%list cs
        else None
      else None
  end.

(** The canonical location a path string names, if it exists. *)
Definition resolve (σ : fs) (cwd : list string) (path : string)
  : option (list string) :=
  if bool_decide (path = EmptyString) then None
  else walk σ (if startswith_sep path then [] else cwd) (split_sep path).

Definition os_path_exists (σ : fs) (cwd : list string) (path : string) : bool :=
  bool_decide (is_Some (resolve σ cwd path)).

Definition quote (s : string) : string := "'" ++ s ++ "'".

Definition FileNotFoundError (path : string) : exn :=
  Exn "FileNotFoundError" ("[Errno 2] No such file or directory: " ++ quote path).
Definition IsADirectoryError (path : string) : exn :=
  Exn "IsADirectoryError" ("[Errno 21] Is a directory: " ++ quote path).
Definition NotADirectoryError (path : string) : exn :=
  Exn "NotADirectoryError" ("[Errno 20] Not a directory: " ++ quote path).
Definition FileExistsError (path : string) : exn :=
  Exn "FileExistsError" ("[Errno 17] File exists: " ++ quote path).

(** [open(path, "rb")] followed by reading: the content of a regular file. *)
Definition open_rb (σ : fs) (cwd : list string) (path : string) : result bytes :=
  match resolve σ cwd path with
  | None => Raise (FileNotFoundError path)
  | Some p =>
      match σ !! p with
      | Some (File data) => Ok data
      | _ => Raise (IsADirectoryError path)
      end
  end.

(** ** [file_iterator]: the generator inside [get_video]

<<
    def file_iterator(file_path, chunk_size=8192):
        with open(file_path, 'rb') as f:
            while True:
                chunk = f.read(chunk_size)
                if not chunk:
                    break
                yield chunk
>>
*)

(** What [f.read(size)] raises for a size below -1. *)
Definition ValueError_read_length : exn :=
  Exn "ValueError" "read length must be non-negative or -1".

(** [f.read(size)] on the unread rest of a regular file: the bytes read
    and the rest left.  Size -1 reads to the end; a size below -1
    raises. *)
Definition f_read (size : Z) (rest : bytes) : result (bytes * bytes) :=
  if (size <? -1)%Z then Raise ValueError_read_length
  else if (size <? 0)%Z then Ok (rest, [])
  else Ok (take (Z.to_nat size) rest, drop (Z.to_nat size) rest).

Definition inspect {A} (a : A) : {b | a = b} := exist _ a eq_refl.

(** The [while True] loop: the chunks yielded until [read] returns no
    byte, or the exception that [read] raised. *)
Equations? read_loop (chunk_size : Z) (rest : bytes) : result (list bytes)
  by wf (length rest) lt :=
  read_loop chunk_size rest with inspect (f_read chunk_size rest) := {
    | exist _ (Raise e) _ := Raise e;
    | exist _ (Ok ([], _)) _ := Ok [];
    | exist _ (Ok (b :: chunk, rest')) Hread :=
        chunks ← read_loop chunk_size rest';
        Ok ((b :: chunk) :: chunks) }.
Proof.
  clear read_loop. unfold f_read in Hread.
  destruct (chunk_size <? -1)%Z; [discriminate|].
  destruct (chunk_size <? 0)%Z.
  - injection Hread as H1 H2. subst. simpl. lia.
  - injection Hread as H1 H2. subst. rewrite length_drop.
    destruct rest, (Z.to_nat chunk_size); simpl in *; try discriminate; lia.
Qed.

Definition default_chunk_size : Z := 8192.

(** A generator object: calling [file_iterator(path)] only builds it; the
    body, starting with [open], runs when the object is iterated. *)
Record generator := Generator { gen_file_path : string; gen_chunk_size : Z }.

Definition file_iterator (file_path : string) : generator :=
  Generator file_path default_chunk_size.

(** Iterating a generator to exhaustion, as [list(g)] does: the chunks
    yielded, or the exception that ended the iteration. *)
Definition consume (σ : fs) (cwd : list string) (g : generator)
  : result (list bytes) :=
  data ← open_rb σ cwd (gen_file_path g);
  read_loop (gen_chunk_size g) data.

(** ** Responses

    A handler returns either a dict, which the framework serialises as a
    JSON body, or a [StreamingResponse] around a generator that the
    framework iterates after the handler has returned. *)

Inductive response :=
| Body (j : json)
| StreamingResponse (content : generator) (media_type : string)
                    (headers : list (string * string)).

(** ** Python indexing and reductions that may raise *)

Definition IndexError : exn :=
  Exn "IndexError" "list index out of range".
Definition KeyError (k : Z) : exn :=
  Exn "KeyError" (pretty k).
Definition ValueError_empty_max : exn :=
  Exn "ValueError"
      "zero-size array to reduction operation maximum which has no identity".

(** [xs[0]] *)
Definition index0 {A} (xs : list A) : result A :=
  match xs with
  | x :: _ => Ok x
  | [] => Raise IndexError
  end.

(** [d[k]] on a dict with integer keys *)
Definition getitem (d : gmap Z string) (k : Z) : result string :=
  match d !! k with
  | Some v => Ok v
  | None => Raise (KeyError k)
  end.

Definition Qmax (a b : Q) : Q := if Qle_bool a b then b else a.

(** [arr.max()] *)
Definition array_max (xs : list Q) : result Q :=
  match xs with
  | [] => Raise ValueError_empty_max
  | x :: rest => Ok (fold_left Qmax rest x)
  end.

(** [int(x)] on a float: truncation towards zero. *)
Definition int_of_float (q : Q) : Z := (Qnum q ÷ Zpos (Qden q))%Z.

(** ** [f"{x:.2f}"]: two decimals, ties to even *)

Definition round_half_even (q : Q) : Z :=
  let n := Qnum q in
  let d := Zpos (Qden q) in
  let f := (n / d)%Z in
  let r2 := (2 * (n mod d))%Z in
  if (r2 <? d)%Z then f
  else if (d <? r2)%Z then (f + 1)%Z
  else if Z.even f then f else (f + 1)%Z.

Definition two_digits (z : Z) : string :=
  if (z <? 10)%Z then "0" ++ pretty z else pretty z.

Definition format_2f (q : Q) : string :=
  let a := Z.abs (round_half_even (q * 100)) in
  (if (Qnum q <? 0)%Z then "-" else EmptyString)
    ++ pretty (a / 100)%Z ++ "." ++ two_digits (a mod 100)%Z.

(** ** [predict_health]

<<
    label_map = {0: "Healthy", 1: "Moderate Stress", 2: "High Stress"}

    @app.post("/predict/health")
    async def predict_health(data: SensorData):
        try:
            input_data = np.array([[ data.Plant_ID, ..., data.Electrochemical_Signal ]])
            input_scaled = scaler.transform(input_data)
            pred = dt_model.predict(input_scaled)[0]
            confidence = dt_model.predict_proba(input_scaled)[0].max() * 100
            health_status = label_map.get(int(pred), "Unknown")
            return { "plant_health_status": health_status,
                     "confidence": f"{confidence:.2f}%",
                     "prediction_code": int(pred) }
        except Exception as e:
            return {"error": f"Prediction failed: {str(e)}"}
>>
*)

Record SensorData := {
  Plant_ID : Z;
  Soil_Moisture : Q;
  Ambient_Temperature : Q;
  Soil_Temperature : Q;
  Humidity : Q;
  Light_Intensity : Q;
  Soil_pH : Q;
  Nitrogen_Level : Q;
  Phosphorus_Level : Q;
  Potassium_Level : Q;
  Chlorophyll_Content : Q;
  Electrochemical_Signal : Q
}.

(** The objects loaded from [models/scaler.pkl] and
    [models/Decision_Tree.pkl]: their methods, as the handler calls them. *)
Record tabular_model := {
  scaler_transform : list (list Q) → result (list (list Q));
  dt_predict : list (list Q) → result (list Z);
  dt_predict_proba : list (list Q) → result (list (list Q))
}.

Definition label_map : gmap Z string :=
  list_to_map [(0%Z, "Healthy"); (1%Z, "Moderate Stress"); (2%Z, "High Stress")].


Definition input_row (data : SensorData) : list Q :=
  [ inject_Z (Plant_ID data); Soil_Moisture data; Ambient_Temperature data;
    Soil_Temperature data; Humidity data; Light_Intensity data;
    Soil_pH data; Nitrogen_Level data; Phosphorus_Level data;
    Potassium_Level data; Chlorophyll_Content data;
    Electrochemical_Signal data ].

Definition health_body (pred : Z) (confidence : Q) : json :=
  let health_status := default "Unknown" (label_map !! pred) in
  JObj [ ("plant_health_status", JStr health_status);
         ("confidence", JStr (format_2f confidence ++ "%"));
         ("prediction_code", JInt pred) ].

Definition predict_health (m : tabular_model) (data : SensorData) : response :=
  match
    let input_data := [input_row data] in
    input_scaled ← scaler_transform m input_data;
    preds ← dt_predict m input_scaled;
    pred ← index0 preds;
    probas ← dt_predict_proba m input_scaled;
    proba ← index0 probas;
    top ← array_max proba;
    let confidence := (top * 100)%Q in
    Ok (health_body pred confidence)
  with
  | Ok body => Body body
  | Raise e => Body (error_body "Prediction failed: " e)
  end.

(** ** [detect_image]

<<
    @app.post("/detect/image")
    async def detect_image(file: UploadFile = File(...)):
        try:
            contents = await file.read()
            image = Image.open(io.BytesIO(contents))
            results = yolo_model(image)
            detections = []
            for r in results:
                boxes = r.boxes
                if boxes is not None:
                    for box in boxes:
                        detections.append({
                            "class": r.names[int(box.cls)],
                            "confidence": float(box.conf),
                            "bbox": box.xyxy.tolist()[0]
                        })
            return {"detections": detections, "total_detections": len(detections)}
        except Exception as e:
            return {"error": f"Image detection failed: {str(e)}"}
>>
*)

(** A multipart upload as the handler sees it. *)
Record UploadFile := {
  filename : string;
  content_type : string;
  file : bytes
}.

(** One detected box of a result: [box.cls], [box.conf] and [box.xyxy],
    a tensor of shape (n, 4) whose rows are corner coordinates
    [x1, y1, x2, y2]. *)
Record Box := {
  cls : Q;
  conf : Q;
  xyxy : list (Q * Q * Q * Q)
}.

(** [row.tolist()] *)
Definition tolist (row : Q * Q * Q * Q) : list Q :=
  let '(x1, y1, x2, y2) := row in [x1; y1; x2; y2].

(** One element of what the detection model returns. *)
Record Results := {
  boxes : option (list Box);
  names : gmap Z string
}.

Definition detection_record (r : Results) (box : Box) : result json :=
  class ← getitem (names r) (int_of_float (cls box));
  bbox ← index0 (tolist <$> xyxy box);
  Ok (JObj [ ("class", JStr class);
             ("confidence", JFloat (conf box));
             ("bbox", JList (JFloat <$> bbox)) ]).

(** [for box in boxes: detections.append(...)] *)
Fixpoint for_boxes (r : Results) (bs : list Box) (detections : list json)
  : result (list json) :=
  match bs with
  | [] => Ok detections
  | box :: bs' =>
      d ← detection_record r box;
      for_boxes r bs' (detections ++ [d])%list
  end.

(** [for r in results: ...] *)
Fixpoint for_results (results : list Results) (detections : list json)
  : result (list json) :=
  match results with
  | [] => Ok detections
  | r :: results' =>
      detections' ← match boxes r with
                    | Some bs => for_boxes r bs detections
                    | None => Ok detections
                    end;
      for_results results' detections'
  end.

Definition detections_body (detections : list json) : json :=
  JObj [ ("detections", JList detections);
         ("total_detections", JInt (Z.of_nat (length detections))) ].

(** The object loaded from [models/best.pt] and the image decoder:
    [Image.open(io.BytesIO(contents))], [yolo_model(image)], and
    [yolo_model.predict(source=..., save=True, project=..., name=...,
    exist_ok=True)], which works on the filesystem and returns
    [len(results)]. *)
Record vision_model := {
  image : Type;
  Image_open : bytes → result image;
  yolo_call : image → result (list Results);
  yolo_predict : list string → string → string → string → fs → result nat * fs
}.

Definition detect_image (y : vision_model) (upload : UploadFile) : response :=
  match
    let contents := file upload in
    img ← Image_open y contents;
    results ← yolo_call y img;
    detections ← for_results results [];
    Ok (detections_body detections)
  with
  | Ok body => Body body
  | Raise e => Body (error_body "Image detection failed: " e)
  end.

(** ** Filesystem actions

    An action may change the filesystem and may raise; what it changed
    before raising stays changed. *)

Definition io (A : Type) : Type := fs → result A * fs.

#[global] Instance io_ret : MRet io := λ A a σ, (Ok a, σ).
#[global] Instance io_bind : MBind io := λ A B k m σ,
  match m σ with
  | (Ok a, σ') => k a σ'
  | (Raise e, σ') => (Raise e, σ')
  end.

Definition stays (c : string) : bool :=
  bool_decide (c = EmptyString) || bool_decide (c = ".").

(** [os.makedirs(path, exist_ok=True)], from directory [cur] on. *)
Fixpoint makedirs_from (path : string) (cur : list string)
    (comps : list string) : io unit :=
  λ σ,
  match comps with
  | [] => (Ok (), σ)
  | c :: cs =>
      if is_dir σ cur then
        if stays c then makedirs_from path cur cs σ
        else if bool_decide (c = "..") then
          makedirs_from path (removelast cur) cs σ
        else
          match σ !! (cur ++ [c])%list with
          | Some Dir => makedirs_from path (cur ++ [c])%list cs σ
          | Some (File _) =>
              (Raise (match cs with
                      | [] => FileExistsError path
                      | _ => NotADirectoryError path
                      end), σ)
          | None => makedirs_from path (cur ++ [c])%list cs (<[(cur ++ [c])%list := Dir]> σ)
          end
      else (Raise (FileNotFoundError path), σ)
  end.

Definition os_makedirs_exist_ok (cwd : list string) (path : string) : io unit :=
  if bool_decide (path = EmptyString) then λ σ, (Raise (FileNotFoundError path), σ)
  else makedirs_from path (if startswith_sep path then [] else cwd)
                     (split_sep path).

(** Where a file named by [path] is, or would be created: the parent must
    be an existing directory and the last component a proper name. *)
Definition locate_new (σ : fs) (cwd : list string) (path : string)
  : option (list string) :=
  let comps := split_sep path in
  let name := List.last comps EmptyString in
  if stays name || bool_decide (name = "..") then None
  else
    match walk σ (if startswith_sep path then [] else cwd) (removelast comps) with
    | Some parent => if is_dir σ parent then Some (parent ++ [name])%list else None
    | None => None
    end.

(** [with open(path, "wb") as f: shutil.copyfileobj(src, f)] *)
Definition write_file (cwd : list string) (path : string) (data : bytes)
  : io unit :=
  λ σ,
  match locate_new σ cwd path with
  | None => (Raise (FileNotFoundError path), σ)
  | Some p =>
      match σ !! p with
      | Some Dir => (Raise (IsADirectoryError path), σ)
      | _ => (Ok (), <[p := File data]> σ)
      end
  end.

(** [os.remove(path)] *)
Definition os_remove (cwd : list string) (path : string) : io unit :=
  λ σ,
  match resolve σ cwd path with
  | None => (Raise (FileNotFoundError path), σ)
  | Some p =>
      match σ !! p with
      | Some (File _) => (Ok (), delete p σ)
      | _ => (Raise (IsADirectoryError path), σ)
      end
  end.

(** [shutil.rmtree(path, ignore_errors=True)]: the directory and all that
    is below it; nothing happens if [path] is not a directory. *)
Definition shutil_rmtree_ignore_errors (cwd : list string) (path : string)
  : io unit :=
  λ σ,
  match resolve σ cwd path with
  | Some p =>
      if is_dir σ p
      then (Ok (), filter (λ kv, ¬ p `prefix_of` kv.1) σ)
      else (Ok (), σ)
  | None => (Ok (), σ)
  end.

(** ** [uuid.uuid4()] and [str]

    A UUID is its 128-bit integer; [str] prints it as 32 lower-case
    hexadecimal digits in groups of 8-4-4-4-12. *)

Definition hex_alphabet : list ascii :=
  ["0"; "1"; "2"; "3"; "4"; "5"; "6"; "7";
   "8"; "9"; "a"; "b"; "c"; "d"; "e"; "f"]%char.

Definition hex_digit (n : N) : ascii :=
  nth (N.to_nat (n mod 16)) hex_alphabet "0"%char.

(** ['%0{width}x' % n], most significant digit first. *)
Fixpoint hex_pad (width : nat) (n : N) (acc : string) : string :=
  match width with
  | O => acc
  | S w => hex_pad w (n / 16)%N (String (hex_digit n) acc)
  end.

Definition uuid_str (u : N) : string :=
  let hex := hex_pad 32 u EmptyString in
  substring 0 8 hex ++ "-" ++ substring 8 4 hex ++ "-" ++
  substring 12 4 hex ++ "-" ++ substring 16 4 hex ++ "-" ++
  substring 20 12 hex.

(** [s[:k]] and [s[:-k]] *)
Definition str_take (k : nat) (s : string) : string := substring 0 k s.
Definition str_drop_last (k : nat) (s : string) : string :=
  substring 0 (String.length s - k) s.

(** ** [detect_video]

<<
    @app.post("/detect/video")
    async def detect_video(file: UploadFile = File(...)):
        try:
            temp_dir = "temp_video"
            os.makedirs(temp_dir, exist_ok=True)
            unique_id = str(uuid.uuid4())[:8]
            input_filename = f"input_{unique_id}.mp4"
            temp_video_path = os.path.join(temp_dir, input_filename)
            with open(temp_video_path, "wb") as f:
                shutil.copyfileobj(file.file, f)
            results = yolo_model.predict(source=temp_video_path, save=True,
                project="runs/detect", name=f"predict_{unique_id}", exist_ok=True)
            output_video_path = f"runs/detect/predict_{unique_id}/{input_filename[:-4]}.avi"
            os.remove(temp_video_path)
            shutil.rmtree(temp_dir, ignore_errors=True)
            return { "message": "Video processed successfully",
                     "output_video_path": output_video_path,
                     "total_frames": len(results) }
        except Exception as e:
            return {"error": f"Video detection failed: {str(e)}"}
>>
*)

Definition temp_dir : string := "temp_video".

Definition unique_id (uuid4 : N) : string := str_take 8 (uuid_str uuid4).

Definition input_filename (uuid4 : N) : string :=
  "input_" ++ unique_id uuid4 ++ ".mp4".

Definition temp_video_path (uuid4 : N) : string :=
  os_path_join temp_dir (input_filename uuid4).

Definition predict_name (uuid4 : N) : string := "predict_" ++ unique_id uuid4.

Definition output_video_path (uuid4 : N) : string :=
  "runs/detect/predict_" ++ unique_id uuid4 ++ "/"
    ++ str_drop_last 4 (input_filename uuid4) ++ ".avi".

Definition video_body (uuid4 : N) (total_frames : nat) : json :=
  JObj [ ("message", JStr "Video processed successfully");
         ("output_video_path", JStr (output_video_path uuid4));
         ("total_frames", JInt (Z.of_nat total_frames)) ].

(** The [try] block; [uuid4] is the value [uuid.uuid4()] returns. *)
Definition detect_video_try (y : vision_model) (cwd : list string)
    (uuid4 : N) (upload : UploadFile) : io json :=
  os_makedirs_exist_ok cwd temp_dir;;
  write_file cwd (temp_video_path uuid4) (file upload);;
  total_frames ← yolo_predict y cwd (temp_video_path uuid4) "runs/detect"
                              (predict_name uuid4);
  os_remove cwd (temp_video_path uuid4);;
  shutil_rmtree_ignore_errors cwd temp_dir;;
  mret (video_body uuid4 total_frames).

Definition detect_video (y : vision_model) (cwd : list string)
    (uuid4 : N) (upload : UploadFile) (σ : fs) : response * fs :=
  match detect_video_try y cwd uuid4 upload σ with
  | (Ok body, σ') => (Body body, σ')
  | (Raise e, σ') => (Body (error_body "Video detection failed: " e), σ')
  end.

(** ** [File(...)]: a required upload

    Both media handlers declare [file: UploadFile = File(...)].  The
    parameter is required: for a request in which the framework finds no
    file part of that name it answers with status 422 and does not call
    the handler. *)

Inductive answer :=
| Unprocessable
| Handled (r : response).

Definition post_detect_image (y : vision_model) (part : option UploadFile)
  : answer :=
  match part with
  | None => Unprocessable
  | Some upload => Handled (detect_image y upload)
  end.

Definition post_detect_video (y : vision_model) (cwd : list string)
    (uuid4 : N) (part : option UploadFile) (σ : fs) : answer * fs :=
  match part with
  | None => (Unprocessable, σ)
  | Some upload =>
      let '(r, σ') := detect_video y cwd uuid4 upload σ in (Handled r, σ')
  end.

(** ** [get_video]

<<
    @app.get("/video/{video_path:path}")
    async def get_video(video_path: str):
        try:
            full_path = os.path.join(os.getcwd(), video_path)
            if not os.path.exists(full_path):
                return {"error": f"Video not found: {full_path}"}
            def file_iterator(file_path, chunk_size=8192): ...
            mime_type, _ = mimetypes.guess_type(full_path)
            if mime_type is None:
                mime_type = 'video/avi'
            return StreamingResponse(
                file_iterator(full_path), media_type=mime_type,
                headers={"Content-Disposition":
                         f"attachment; filename={os.path.basename(full_path)}"})
        except Exception as e:
            return {"error": f"Failed to serve video: {str(e)}"}
>>
*)

(** [os.getcwd()] raises when the working directory is gone. *)
Definition os_getcwd_checked (σ : fs) (cwd : list string) : result string :=
  if is_dir σ cwd then Ok (os_getcwd cwd)
  else Raise (FileNotFoundError EmptyString).

(** [guess_type] stands for [mimetypes.guess_type(...)[0]]. *)
Definition get_video (guess_type : string → option string) (cwd : list string)
    (video_path : string) (σ : fs) : response :=
  match
    here ← os_getcwd_checked σ cwd;
    let full_path := os_path_join here video_path in
    if negb (os_path_exists σ cwd full_path) then
      Ok (Body (JObj [("error", JStr ("Video not found: " ++ full_path))]))
    else
      let mime_type := default "video/avi" (guess_type full_path) in
      Ok (StreamingResponse
            (file_iterator full_path) mime_type
            [("Content-Disposition",
              "attachment; filename=" ++ os_path_basename full_path)])
  with
  | Ok r => r
  | Raise e => Body (error_body "Failed to serve video: " e)
  end.

(** ** Requests in flight

    The statements of [detect_video] one after the other, as steps of a
    request that shares the filesystem with other requests.  Each step is
    one statement of the handler; a raised exception ends the request with
    the [except] branch's body. *)

Inductive stage :=
| AtMakedirs
| AtWrite
| AtPredict
| AtRemove (total_frames : nat)
| AtRmtree (total_frames : nat)
| Returned (r : response).

Record request := Request {
  req_uuid4 : N;
  req_upload : UploadFile;
  req_stage : stage
}.

Definition received (uuid4 : N) (upload : UploadFile) : request :=
  Request uuid4 upload AtMakedirs.

Definition advance {A} (rq : request) (out : result A * fs)
    (next : A → stage) : request * fs :=
  match out with
  | (Ok a, σ') => (Request (req_uuid4 rq) (req_upload rq) (next a), σ')
  | (Raise e, σ') =>
      (Request (req_uuid4 rq) (req_upload rq)
               (Returned (Body (error_body "Video detection failed: " e))), σ')
  end.

Definition request_step (y : vision_model) (cwd : list string)
    (rq : request) (σ : fs) : request * fs :=
  let u := req_uuid4 rq in
  match req_stage rq with
  | AtMakedirs =>
      advance rq (os_makedirs_exist_ok cwd temp_dir σ) (λ _, AtWrite)
  | AtWrite =>
      advance rq (write_file cwd (temp_video_path u) (file (req_upload rq)) σ)
              (λ _, AtPredict)
  | AtPredict =>
      advance rq (yolo_predict y cwd (temp_video_path u) "runs/detect"
                               (predict_name u) σ)
              AtRemove
  | AtRemove n =>
      advance rq (os_remove cwd (temp_video_path u) σ) (λ _, AtRmtree n)
  | AtRmtree n =>
      advance rq (shutil_rmtree_ignore_errors cwd temp_dir σ)
              (λ _, Returned (Body (video_body u n)))
  | Returned r => (rq, σ)
  end.

(** A schedule names, step by step, which request moves next. *)
Fixpoint run_schedule (y : vision_model) (cwd : list string)
    (schedule : list nat) (rqs : list request) (σ : fs)
  : list request * fs :=
  match schedule with
  | [] => (rqs, σ)
  | i :: schedule' =>
      match rqs !! i with
      | Some rq =>
          let '(rq', σ') := request_step y cwd rq σ in
          run_schedule y cwd schedule' (<[i := rq']> rqs) σ'
      | None => run_schedule y cwd schedule' rqs σ
      end
  end.

(** The canonical location of a request's scratch file and of its output
    directory, below the working directory. *)
Definition scratch_key (cwd : list string) (uuid4 : N) : list string :=
  (cwd ++ [temp_dir; input_filename uuid4])%list.

Definition output_dir_key (cwd : list string) (uuid4 : N) : list string :=
  (cwd ++ ["runs"; "detect"; predict_name uuid4])%list.

(** ** Stand-ins for the model files

    The weights are not in the repository.  Concrete runs below use these
    small stand-ins, which follow the call contracts: a "video" decodes
    iff its first byte is zero (as the length prefix of an MP4 box), the
    annotated copy goes to [<project>/<name>/<stem>.avi], and a still
    image decodes iff it is not empty. *)

Definition sample_names : gmap Z string :=
  list_to_map [(0%Z, "angular_leafspot"); (1%Z, "gray_mold")].

Definition sample_box : Box :=
  {| cls := 1; conf := 9 # 10; xyxy := [(10, 20, 110, 220)]%Q |}.

Definition sample_predict (cwd : list string) (source project name : string)
  : io nat :=
  λ σ,
  match open_rb σ cwd source with
  | Raise e => (Raise e, σ)
  | Ok (Byte.x00 :: data) =>
      let out_dir := project ++ "/" ++ name in
      let out := out_dir ++ "/"
                   ++ str_drop_last 4 (os_path_basename source) ++ ".avi" in
      (os_makedirs_exist_ok cwd out_dir;;
       write_file cwd out (Byte.x00 :: data);;
       mret (length data)) σ
  | Ok _ =>
      (Raise (Exn "ConnectionError" ("Failed to read images from " ++ source)), σ)
  end.

(** An image of [n + 1] bytes shows [n] boxes. *)
Definition sample_vision : vision_model :=
  {| image := bytes;
     Image_open := λ contents,
       match contents with
       | [] => Raise (Exn "UnidentifiedImageError" "cannot identify image file")
       | _ => Ok contents
       end;
     yolo_call := λ img,
       Ok [ {| boxes := Some (replicate (length img - 1) sample_box);
               names := sample_names |} ];
     yolo_predict := sample_predict |}.

(** A classifier that answers class [code] with probability one. *)
Definition constant_model (code : Z) : tabular_model :=
  {| scaler_transform := λ rows, Ok rows;
     dt_predict := λ rows, Ok (replicate (length rows) code);
     dt_predict_proba := λ rows, Ok (replicate (length rows) [0; 0; 1]%Q) |}.


Definition sample_reading : SensorData :=
  {| Plant_ID := 1; Soil_Moisture := 25; Ambient_Temperature := 24;
     Soil_Temperature := 20; Humidity := 55; Light_Intensity := 600;
     Soil_pH := 13 # 2; Nitrogen_Level := 30; Phosphorus_Level := 30;
     Potassium_Level := 30; Chlorophyll_Content := 35;
     Electrochemical_Signal := 1 |}.

Definition sample_guess_type (path : string) : option string :=
  if bool_decide (str_drop_last 4 path ++ ".avi" = path) then Some "video/x-msvideo"
  else if bool_decide (str_drop_last 4 path ++ ".mp4" = path) then Some "video/mp4"
  else None.

(** The server's working directory [/srv/app], holding [models/]; an
    unrelated file [/etc/passwd] outside it. *)
Definition app_dir : list string := ["srv"; "app"].

Definition passwd : bytes := [Byte.x72; Byte.x6f; Byte.x6f; Byte.x74].

Definition disk0 : fs :=
  list_to_map [ (["srv"], Dir); (["srv"; "app"], Dir);
                (["srv"; "app"; "models"], Dir);
                (["srv"; "app"; "models"; "best.pt"], File [Byte.x01]);
                (["etc"], Dir); (["etc"; "passwd"], File passwd) ].

Definition clip_a : UploadFile :=
  {| filename := "a.mp4"; content_type := "video/mp4";
     file := [Byte.x00; Byte.x0a; Byte.x0b] |}.
Definition clip_b : UploadFile :=
  {| filename := "b.mp4"; content_type := "video/mp4";
     file := [Byte.x00; Byte.x0c] |}.
Definition corrupt_clip : UploadFile :=
  {| filename := "broken.mp4"; content_type := "video/mp4";
     file := [Byte.xff; Byte.xff] |}.
Definition notes_txt : UploadFile :=
  {| filename := "notes.txt"; content_type := "text/plain";
     file := [Byte.x68; Byte.x69] |}.

Definition uuid_a : N := 0x1b9d6bcd_bbfd_4b2d_9b5d_ab8dfbbd4bed.
Definition uuid_b : N := 0x9c5b94b1_35ad_49bb_b118_8e8fc24abf80.

Definition blank_image : UploadFile :=
  {| filename := "leaf.png"; content_type := "image/png"; file := [Byte.x89] |}.
Definition two_leaves : UploadFile :=
  {| filename := "leaf.png"; content_type := "image/png";
     file := [Byte.x89; Byte.x50] |}.

(** The disk after [clip_a] has been processed. *)
Definition disk_after_clip_a : fs :=
  (detect_video sample_vision app_dir uuid_a clip_a disk0).2.

(** ** The dashboard ([app.py])

    The Streamlit script that calls the API.  A run of a page is a
    sequence of Streamlit calls on the screen, together with what the page
    does to the disk of the machine it runs on; a [with] block shows as
    its opening call, the calls inside it and [st_end].  An exception that
    no [except] catches ends the run. *)

Inductive st_call :=
| st_spinner (text : string)
| st_expander (label : string)
| st_column (name : string)
| st_end
| st_markdown (body : string)
| st_subheader (body : string)
| st_success (body : string)
| st_warning (body : string)
| st_error (body : string)
| st_info (body : string)
| st_write (body : string)
| st_metric (label : string) (value : json)
| st_json (body : json)
| st_video (data : bytes)
| st_columns (spec : json)
| st_progress (value : Z)
| progress_bar_progress (value : Z)
| progress_bar_empty
| st_download_button (label : string) (data : bytes) (file_name mime : string).

(** What [requests.get] and [requests.post] return: [response.status_code],
    [response.content], [response.text] and the outcome of
    [response.json()]. *)
Record http_response := {
  status_code : Z;
  content : bytes;
  text : string;
  json_body : result json
}.

Definition page (A : Type) : Type :=
  list st_call * fs → result A * (list st_call * fs).

#[global] Instance page_ret : MRet page := λ A a s, (Ok a, s).
#[global] Instance page_bind : MBind page := λ A B k m s,
  match m s with
  | (Ok a, s') => k a s'
  | (Raise e, s') => (Raise e, s')
  end.

Definition show (c : st_call) : page unit :=
  λ s, (Ok (), (s.1 ++ [c], s.2)%list).

Definition raise_of {A} (r : result A) : page A := λ s, (r, s).

Definition on_disk {A} (m : io A) : page A :=
  λ s, let '(r, σ') := m s.2 in (r, (s.1, σ')).

(** [with opening: body]: the block is left, whether [body] raises or not. *)
Definition within {A} (opening : st_call) (body : page A) : page A :=
  λ s,
  let '(r, s') := body (s.1 ++ [opening], s.2)%list in
  (r, (s'.1 ++ [st_end], s'.2)%list).

(** [try: body except Exception as e: handler] *)
Definition try_except {A} (body : page A) (handler : exn → page A) : page A :=
  λ s,
  match body s with
  | (Raise e, s') => handler e s'
  | done => done
  end.

Definition TypeError (msg : string) : exn := Exn "TypeError" msg.

(** [needle in s] on strings. *)
Fixpoint str_startswith (p s : string) : bool :=
  match p, s with
  | EmptyString, _ => true
  | String a p', String b s' => bool_decide (a = b) && str_startswith p' s'
  | String _ _, EmptyString => false
  end.

Fixpoint str_contains (needle s : string) : bool :=
  str_startswith needle s ||
  match s with
  | EmptyString => false
  | String _ s' => str_contains needle s'
  end.

(** [key in x] for a string [key]: among the keys of a dict, the elements
    of a list, the substrings of a string. *)
Definition py_in (key : string) (x : json) : result bool :=
  match x with
  | JObj fields => Ok (bool_decide (key ∈ fields.*1))
  | JList l =>
      Ok (existsb (λ y, match y with
                        | JStr s => bool_decide (s = key)
                        | _ => false
                        end) l)
  | JStr s => Ok (str_contains key s)
  | JInt _ => Raise (TypeError "argument of type 'int' is not iterable")
  | JFloat _ => Raise (TypeError "argument of type 'float' is not iterable")
  end.

Fixpoint dict_get (key : string) (fields : list (string * json)) : option json :=
  match fields with
  | [] => None
  | (k, v) :: rest =>
      match dict_get key rest with
      | Some later => Some later
      | None => if bool_decide (k = key) then Some v else None
      end
  end.

(** [x[key]] for a string [key]; [str(KeyError(key))] is the quoted key. *)
Definition py_getitem (x : json) (key : string) : result json :=
  match x with
  | JObj fields =>
      match dict_get key fields with
      | Some v => Ok v
      | None => Raise (Exn "KeyError" (quote key))
      end
  | JList _ =>
      Raise (TypeError "list indices must be integers or slices, not str")
  | JStr _ => Raise (TypeError "string indices must be integers, not 'str'")
  | JInt _ => Raise (TypeError "'int' object is not subscriptable")
  | JFloat _ => Raise (TypeError "'float' object is not subscriptable")
  end.

(** [x > 0] *)
Definition py_gt_0 (x : json) : result bool :=
  match x with
  | JInt z => Ok (0 <? z)%Z
  | JFloat q => Ok (negb (Qle_bool q 0))
  | JStr _ =>
      Raise (TypeError "'>' not supported between instances of 'str' and 'int'")
  | JList _ =>
      Raise (TypeError "'>' not supported between instances of 'list' and 'int'")
  | JObj _ =>
      Raise (TypeError "'>' not supported between instances of 'dict' and 'int'")
  end.

(** The elements [for ... in x] goes through. *)
Definition py_iter (x : json) : result (list json) :=
  match x with
  | JList l => Ok l
  | JObj fields => Ok (JStr <$> fields.*1)
  | JStr s => Ok ((λ c, JStr (String c EmptyString)) <$> list_ascii_of_string s)
  | JInt _ => Raise (TypeError "'int' object is not iterable")
  | JFloat _ => Raise (TypeError "'float' object is not iterable")
  end.

(** [f"{x}"]: a string as it is, an integer in decimal; [repr] stands for
    Python's text of floats, lists and dicts. *)
Definition py_format (repr : json → string) (x : json) : string :=
  match x with
  | JStr s => s
  | JInt z => pretty z
  | _ => repr x
  end.

(** [f"{x:.1%}"]: a number as a percentage with one decimal. *)
Definition format_pct1 (x : json) : result string :=
  let pct (q : Q) :=
    let a := Z.abs (round_half_even (q * 1000)) in
    (if (Qnum q <? 0)%Z then "-" else EmptyString)
      ++ pretty (a / 10)%Z ++ "." ++ pretty (a mod 10)%Z ++ "%" in
  match x with
  | JFloat q => Ok (pct q)
  | JInt z => Ok (pct (inject_Z z))
  | JStr _ =>
      Raise (Exn "ValueError" "Unknown format code '%' for object of type 'str'")
  | JList _ =>
      Raise (TypeError "unsupported format string passed to list.__format__")
  | JObj _ =>
      Raise (TypeError "unsupported format string passed to dict.__format__")
  end.

Definition API_URL : string := "http://localhost:8502".

(** *** Sensor prediction

<<
    if st.button("🚀 **PREDICT PLANT HEALTH**", type="primary"):
        with st.spinner("Analyzing sensor data..."):
            payload = { "Plant_ID": 1, "Soil_Moisture": soil_moisture, ... }
            try:
                response = requests.post(f"{API_URL}/predict/health", json=payload, timeout=10)
                result = response.json()
                st.markdown("### Prediction Results")
                col_a, col_b = st.columns([3,1])
                with col_a:
                    status = result['plant_health_status']
                    if "Healthy" in status: st.success(f"🟢 **{status}**")
                    elif "Moderate" in status: st.warning(f"🟡 **{status}**")
                    else: st.error(f"🔴 **{status}**")
                with col_b:
                    st.metric("Confidence", result['confidence'])
                with st.expander("📝 Detailed JSON Response"):
                    st.json(result)
            except Exception as e:
                st.error(f"🚨 **Error:** {str(e)}")
>>
*)

(** The values of the eleven sliders. *)
Record sliders := {
  soil_moisture : Q; temp : Q; humidity : Q; light : Q; ph : Q;
  soil_temp : Q; nitrogen : Q; phosphorus : Q; potassium : Q;
  chlorophyll : Q; signal : Q
}.

Definition payload (s : sliders) : SensorData :=
  {| Plant_ID := 1; Soil_Moisture := soil_moisture s;
     Ambient_Temperature := temp s; Soil_Temperature := soil_temp s;
     Humidity := humidity s; Light_Intensity := light s; Soil_pH := ph s;
     Nitrogen_Level := nitrogen s; Phosphorus_Level := phosphorus s;
     Potassium_Level := potassium s; Chlorophyll_Content := chlorophyll s;
     Electrochemical_Signal := signal s |}.

(** [post url data] stands for [requests.post(url, json=data, timeout=10)]. *)
Definition sensor_prediction (repr : json → string)
    (post : string → SensorData → result http_response) (s : sliders)
  : page unit :=
  within (st_spinner "Analyzing sensor data...")
    (try_except
       (response ← raise_of (post (API_URL ++ "/predict/health") (payload s));
        result ← raise_of (json_body response);
        show (st_markdown "### Prediction Results");;
        show (st_columns (JList [JInt 3; JInt 1]));;
        within (st_column "col_a")
          (status ← raise_of (py_getitem result "plant_health_status");
           raise_of (py_in "Healthy" status) ≫= λ healthy : bool,
           if healthy
           then show (st_success ("🟢 **" ++ py_format repr status ++ "**"))
           else
             raise_of (py_in "Moderate" status) ≫= λ moderate : bool,
             if moderate
             then show (st_warning ("🟡 **" ++ py_format repr status ++ "**"))
             else show (st_error ("🔴 **" ++ py_format repr status ++ "**")));;
        within (st_column "col_b")
          (confidence ← raise_of (py_getitem result "confidence");
           show (st_metric "Confidence" confidence));;
        within (st_expander "📝 Detailed JSON Response")
          (show (st_json result)))
       (λ e, show (st_error ("🚨 **Error:** " ++ exn_str e)))).

(** *** Image detection

<<
    if st.button("🔍 **DETECT PLANTS**", type="primary"):
        with st.spinner("Detecting objects in image..."):
            files = {"file": uploaded_file.getvalue()}
            try:
                response = requests.post(f"{API_URL}/detect/image", files=files, timeout=30)
                result = response.json()
                if "detections" in result and result["total_detections"] > 0:
                    st.success(f"✅ **Found {result['total_detections']} detection(s)**")
                    for i, detection in enumerate(result["detections"], 1):
                        with st.expander(f"🌿 **Detection {i}: {detection['class']}**"):
                            st.metric("Confidence", f"{detection['confidence']:.1%}")
                            st.write(f"**Bounding Box:** {detection['bbox']}")
                else:
                    st.info("🌱 **No plants detected**")
            except Exception as e:
                st.error(f"🚨 **Error:** {str(e)}")
>>
*)

(** [for i, detection in enumerate(..., i): ...] *)
Fixpoint show_detections (repr : json → string) (i : Z) (items : list json)
  : page unit :=
  match items with
  | [] => mret ()
  | detection :: rest =>
      class ← raise_of (py_getitem detection "class");
      within (st_expander ("🌿 **Detection " ++ pretty i ++ ": "
                             ++ py_format repr class ++ "**"))
        (confidence ← raise_of (py_getitem detection "confidence");
         percent ← raise_of (format_pct1 confidence);
         show (st_metric "Confidence" (JStr percent));;
         bbox ← raise_of (py_getitem detection "bbox");
         show (st_write ("**Bounding Box:** " ++ py_format repr bbox)));;
      show_detections repr (i + 1) rest
  end.

(** [post url data] stands for [requests.post(url, files={"file": data},
    timeout=...)]. *)
Definition image_detection (repr : json → string)
    (post : string → bytes → result http_response) (uploaded_file : bytes)
  : page unit :=
  within (st_spinner "Detecting objects in image...")
    (try_except
       (response ← raise_of (post (API_URL ++ "/detect/image") uploaded_file);
        result ← raise_of (json_body response);
        raise_of (py_in "detections" result) ≫= λ listed : bool,
        (if listed
         then total ← raise_of (py_getitem result "total_detections");
              raise_of (py_gt_0 total)
         else mret false) ≫= λ found : bool,
        if found then
          total ← raise_of (py_getitem result "total_detections");
          show (st_success ("✅ **Found " ++ py_format repr total
                              ++ " detection(s)**"));;
          detections ← raise_of (py_getitem result "detections");
          items ← raise_of (py_iter detections);
          show_detections repr 1 items
        else show (st_info "🌱 **No plants detected**"))
       (λ e, show (st_error ("🚨 **Error:** " ++ exn_str e)))).

(** *** Video detection

<<
    if st.button("🔍 **PROCESS VIDEO**", type="primary"):
        with st.spinner("🔍 **Processing Video...** (This may take 1-3 minutes)"):
            progress_bar = st.progress(0)
            progress_bar.progress(10)
            temp_video_path = "temp_input.mp4"
            with open(temp_video_path, "wb") as f:
                f.write(original_video_bytes)
            progress_bar.progress(40)
            with open(temp_video_path, "rb") as f:
                files = {"file": f}
                response = requests.post(f"{API_URL}/detect/video", files=files, timeout=180)
            progress_bar.progress(70)
            result = response.json()
            if "error" in result:
                st.error(f"🚨 **API Error:** {result['error']}")
            else:
                st.success("✅ **Video Processed Successfully!**")
                progress_bar.progress(85)
                video_path = result['output_video_path']
                video_response = requests.get(f"{API_URL}/video/{video_path}", stream=True, timeout=30)
                if video_response.status_code == 200:
                    progress_bar.progress(100)
                    processed_video_bytes = video_response.content
                    st.subheader("🎞️ **Annotated Video**")
                    st.video(processed_video_bytes)
                    st.subheader("📊 **Processing Summary**")
                    col_a, col_b = st.columns(2)
                    with col_a:
                        st.metric("Total Frames", result['total_frames'])
                    with col_b:
                        st.metric("Status", "Completed")
                    st.download_button(label="📥 **Download Annotated Video**",
                        data=processed_video_bytes, file_name="annotated_video.avi",
                        mime="video/avi")
                else:
                    st.error(f"🚨 **Failed to fetch video:** {video_response.text}")
            if os.path.exists(temp_video_path):
                os.remove(temp_video_path)
            progress_bar.empty()
>>
*)

(** [with open(path, "rb") as f: body]: [f] is read by [body]. *)
Definition within_file {A} (cwd : list string) (path : string)
    (body : bytes → page A) : page A :=
  f ← on_disk (λ σ, (open_rb σ cwd path, σ));
  body f.

Definition temp_input : string := "temp_input.mp4".

(** The annotated video on the screen. *)
Definition show_annotated (result : json) (video_response : http_response)
  : page unit :=
  show (progress_bar_progress 100);;
  let processed_video_bytes := content video_response in
  show (st_subheader "🎞️ **Annotated Video**");;
  show (st_video processed_video_bytes);;
  show (st_subheader "📊 **Processing Summary**");;
  show (st_columns (JInt 2));;
  within (st_column "col_a")
    (total_frames ← raise_of (py_getitem result "total_frames");
     show (st_metric "Total Frames" total_frames));;
  within (st_column "col_b")
    (show (st_metric "Status" (JStr "Completed")));;
  show (st_download_button "📥 **Download Annotated Video**"
          processed_video_bytes "annotated_video.avi" "video/avi").

(** [post url data] stands for [requests.post(url, files={"file": f},
    timeout=180)] with [f] a file holding [data], [get url] for
    [requests.get(url, stream=True, timeout=30)]; [cwd] is the directory the
    dashboard runs in.  [API_URL] names the machine the dashboard runs on,
    so what the API does to the disk while it answers a request is done to
    the disk the page works on: a request is an action on that disk. *)
Definition video_detection_on (repr : json → string)
    (post : string → bytes → io http_response)
    (get : string → io http_response)
    (cwd : list string) (original_video_bytes : bytes) : page unit :=
  within (st_spinner "🔍 **Processing Video...** (This may take 1-3 minutes)")
    (show (st_progress 0);;
     show (progress_bar_progress 10);;
     let temp_video_path := temp_input in
     on_disk (write_file cwd temp_video_path original_video_bytes);;
     show (progress_bar_progress 40);;
     response ← within_file cwd temp_video_path
                  (λ f, on_disk (post (API_URL ++ "/detect/video") f));
     show (progress_bar_progress 70);;
     result ← raise_of (json_body response);
     raise_of (py_in "error" result) ≫= λ failed : bool,
     (if failed then
        error ← raise_of (py_getitem result "error");
        show (st_error ("🚨 **API Error:** " ++ py_format repr error))
      else
        show (st_success "✅ **Video Processed Successfully!**");;
        show (progress_bar_progress 85);;
        video_path ← raise_of (py_getitem result "output_video_path");
        video_response ← on_disk (get (API_URL ++ "/video/"
                                         ++ py_format repr video_path));
        if bool_decide (status_code video_response = 200%Z)
        then show_annotated result video_response
        else show (st_error ("🚨 **Failed to fetch video:** "
                               ++ text video_response)));;
     on_disk (λ σ, (Ok (os_path_exists σ cwd temp_video_path), σ))
       ≫= λ present : bool,
     (if present then on_disk (os_remove cwd temp_video_path) else mret ());;
     show progress_bar_empty).

(** The page with requests that leave the page's disk alone, answered as
    [post] and [get] say. *)
Definition video_detection (repr : json → string)
    (post : string → bytes → result http_response)
    (get : string → result http_response)
    (cwd : list string) (original_video_bytes : bytes) : page unit :=
  video_detection_on repr (λ url data σ, (post url data, σ))
                     (λ url σ, (get url, σ)) cwd original_video_bytes.

(** ** Vocabulary of the statements *)

(** A string without a separator. *)
Fixpoint no_sep (s : string) : bool :=
  match s with
  | EmptyString => true
  | String c s' => negb (is_sep c) && no_sep s'
  end.

(** A directory entry's name: not empty, not ["."] or [".."], no ["/"]. *)
Definition proper_name (c : string) : bool :=
  no_sep c && negb (stays c) && negb (bool_decide (c = "..")).

(** The extensions the dashboard ([app.py]) lets a user pick for a video
    ([type=["mp4", "avi", "mov"]]). *)
Definition video_types : list string := ["mp4"; "avi"; "mov"].

(** The text after the last dot of a file name. *)
Fixpoint extension_from (s : string) (acc : option string) : option string :=
  match s with
  | EmptyString => acc
  | String c s' =>
      if bool_decide (c = "."%char) then extension_from s' (Some EmptyString)
      else extension_from s' ((λ e, e ++ String c EmptyString) <$> acc)
  end.

Definition extension (name : string) : option string := extension_from name None.

Definition supported_video (upload : UploadFile) : Prop :=
  ∃ e, extension (filename upload) = Some e ∧ e ∈ video_types.


(** A detection record: exactly the fields [class], [confidence] and
    [bbox], the last with four coordinates. *)
Definition detection_shaped (d : json) : Prop :=
  ∃ class confidence x1 y1 x2 y2,
    d = JObj [ ("class", JStr class);
               ("confidence", JFloat confidence);
               ("bbox", JList [JFloat x1; JFloat y1; JFloat x2; JFloat y2]) ].

(** A result of the detection model that shows no box. *)
Definition no_boxes (r : Results) : Prop :=
  boxes r = None ∨ boxes r = Some [].

(** The filesystem once [temp_video/] exists, and once a request's upload
    has been written into it. *)
Definition with_temp_dir (cwd : list string) (σ : fs) : fs :=
  match σ !! (cwd ++ [temp_dir])%list with
  | None => <[(cwd ++ [temp_dir])%list := Dir]> σ
  | Some _ => σ
  end.

Definition materialized (cwd : list string) (uuid4 : N) (data : bytes)
    (σ : fs) : fs :=
  <[scratch_key cwd uuid4 := File data]> (with_temp_dir cwd σ).

(** Nothing in the way of the scratch file: the working directory is
    there, [temp_video] is not a regular file and the scratch file's name
    is not taken by a directory. *)
Definition store_ready (σ : fs) (cwd : list string) (uuid4 : N) : Prop :=
  is_dir σ cwd = true ∧
  (∀ data, σ !! (cwd ++ [temp_dir])%list ≠ Some (File data)) ∧
  σ !! scratch_key cwd uuid4 ≠ Some Dir.

(** The canonical location of a request's annotated video. *)
Definition output_filename (uuid4 : N) : string :=
  "input_" ++ unique_id uuid4 ++ ".avi".

Definition output_file_key (cwd : list string) (uuid4 : N) : list string :=
  (cwd ++ ["runs"; "detect"; predict_name uuid4; output_filename uuid4])%list.

(** What the model's call does to the disk that [detect_video] hands it. *)
Definition predict_outcome (y : vision_model) (cwd : list string) (uuid4 : N)
    (upload : UploadFile) (σ : fs) : result nat * fs :=
  yolo_predict y cwd (temp_video_path uuid4) "runs/detect" (predict_name uuid4)
               (materialized cwd uuid4 (file upload) σ).

(** [path] names a regular file. *)
Definition is_file (σ : fs) (cwd : list string) (path : string) : Prop :=
  ∃ data, open_rb σ cwd path = Ok data.

(** The model left the working directory, [temp_video/] and the scratch
    file where they were. *)
Definition scratch_kept (cwd : list string) (uuid4 : N) (σ : fs) : Prop :=
  is_dir σ cwd = true ∧
  σ !! (cwd ++ [temp_dir])%list = Some Dir ∧
  ∃ data, σ !! scratch_key cwd uuid4 = Some (File data).

(** A disk on which a regular file is in the place of [temp_video/]. *)
Definition disk_blocked : fs :=
  <[ ["srv"; "app"; "temp_video"] := File [Byte.x2a] ]> disk0.

(** Every box the model shows, result by result, in the model's order. *)
Definition all_boxes (results : list Results) : list (Results * Box) :=
  r ← results; box ← default [] (boxes r); [(r, box)].

(** Scaler and classifier answer, with class code [pred] and largest
    class probability [top]. *)
Definition model_answers (m : tabular_model) (data : SensorData)
    (pred : Z) (top : Q) : Prop :=
  ∃ scaled preds proba probas,
    scaler_transform m [input_row data] = Ok scaled ∧
    dt_predict m scaled = Ok (pred :: preds) ∧
    dt_predict_proba m scaled = Ok (proba :: probas) ∧
    array_max proba = Ok top.

(** A model that shows one box of a class its [names] do not list, after
    a good one. *)
Definition stray_box : Box :=
  {| cls := 7; conf := 1 # 2; xyxy := [(0, 0, 1, 1)]%Q |}.

Definition stray_vision : vision_model :=
  {| image := bytes;
     Image_open := λ contents, Ok contents;
     yolo_call := λ img,
       Ok [ {| boxes := Some [sample_box; stray_box]; names := sample_names |} ];
     yolo_predict := sample_predict |}.

(** A model that uses up its source: it deletes the file and reports one
    frame. *)
Definition consuming_vision : vision_model :=
  {| image := bytes;
     Image_open := λ contents, Ok contents;
     yolo_call := λ img, Ok [];
     yolo_predict := λ cwd source project name,
       os_remove cwd source;; mret 1%nat |}.

(** The banner the sensor page is to show for a class code. *)
Definition health_banner (pred : Z) : st_call :=
  if bool_decide (pred = 0%Z) then st_success "🟢 **Healthy**"
  else if bool_decide (pred = 1%Z) then st_warning "🟡 **Moderate Stress**"
  else if bool_decide (pred = 2%Z) then st_error "🔴 **High Stress**"
  else st_error "🔴 **Unknown**".

Definition is_expander (c : st_call) : bool :=
  match c with st_expander _ => true | _ => false end.

Definition is_st_error (c : st_call) : bool :=
  match c with st_error _ => true | _ => false end.

(** A response with status 200 and the JSON body [j]. *)
Definition json_response (j : json) : http_response :=
  {| status_code := 200; content := []; text := EmptyString;
     json_body := Ok j |}.

Definition sample_sliders : sliders :=
  {| soil_moisture := 25; temp := 24; humidity := 55; light := 600;
     ph := 13 # 2; soil_temp := 20; nitrogen := 30; phosphorus := 30;
     potassium := 30; chlorophyll := 35; signal := 1 |}.

Definition sample_repr (x : json) : string := "[...]".

(** A page action that leaves the entry [k] of the disk as it is, and one
    after which, if it raises nothing, the disk satisfies [Q]. *)
Definition keeps {A : Type} (k : list string) (m : page A) : Prop :=
  ∀ s, (m s).2.2 !! k = s.2 !! k.

Definition ends_with {A : Type} (Q : fs → Prop) (m : page A) : Prop :=
  ∀ s, match m s with
       | (Ok _, s') => Q s'.2
       | (Raise _, _) => True
       end.

(** A stand-in for the API served from [/home], the dashboard's own
    directory: [POST /detect/video] leaves the annotated video where
    [detect_video] says it is, and [GET /video/] reads it there. *)
Definition local_post (url : string) (data : bytes) : io http_response :=
  λ σ, (Ok {| status_code := 200; content := []; text := EmptyString;
              json_body := Ok (video_body uuid_a 2) |},
        <[ ["home"; "runs"; "detect"; "predict_1b9d6bcd"; "input_1b9d6bcd.avi"]
             := File data ]>
          (<[ ["home"; "runs"; "detect"; "predict_1b9d6bcd"] := Dir ]>
             (<[ ["home"; "runs"; "detect"] := Dir ]>
                (<[ ["home"; "runs"] := Dir ]> σ)))).

Definition local_get (url : string) : io http_response :=
  λ σ, (match σ !! ["home"; "runs"; "detect"; "predict_1b9d6bcd";
                    "input_1b9d6bcd.avi"] with
        | Some (File data) =>
            Ok {| status_code := 200; content := data; text := EmptyString;
                  json_body := Raise (Exn "JSONDecodeError" "no JSON") |}
        | _ => Raise (Exn "ConnectionError" "refused")
        end, σ).

(** The disk of the machine the dashboard runs on, in [/home]. *)
Definition home_disk : fs := list_to_map [(["home"], Dir)].

(** * Properties *)

(** ** Reading a file in chunks *)

Lemma read_loop_step size rest :
  read_loop size rest =
  match f_read size rest with
  | Raise e => Raise e
  | Ok ([], _) => Ok []
  | Ok (chunk, rest') => chunks ← read_loop size rest'; Ok (chunk :: chunks)
  end.
Proof.
  funelim (read_loop size rest);
    match goal with E : f_read _ _ = _ |- _ => rewrite E end; reflexivity.
Qed.

(** With a positive size the loop yields the next [size] bytes until none
    are left. *)
Lemma read_loop_pos size rest :
  (0 < size)%Z →
  read_loop size rest =
  match rest with
  | [] => Ok []
  | _ => chunks ← read_loop size (drop (Z.to_nat size) rest);
         Ok (take (Z.to_nat size) rest :: chunks)
  end.
Proof.
  intros Hpos. rewrite read_loop_step. unfold f_read.
  destruct (Z.ltb_spec size (-1)) as [|_]; [lia|].
  destruct (Z.ltb_spec size 0) as [|_]; [lia|].
  destruct rest as [|b rest]; [by rewrite take_nil|].
  destruct (Z.to_nat size) as [|n] eqn:Hn; [lia|]. reflexivity.
Qed.

(** Induction along the iterations of the loop. *)
Lemma read_loop_ind_pos (P : bytes → list bytes → Prop) size :
  (0 < size)%Z →
  P [] [] →
  (∀ rest chunks,
     rest ≠ [] →
     read_loop size (drop (Z.to_nat size) rest) = Ok chunks →
     P (drop (Z.to_nat size) rest) chunks →
     P rest (take (Z.to_nat size) rest :: chunks)) →
  ∀ rest, ∃ chunks, read_loop size rest = Ok chunks ∧ P rest chunks.
Proof.
  intros Hpos Hnil Hcons rest.
  remember (length rest) as n eqn:Hn. revert rest Hn.
  induction n as [n IH] using lt_wf_ind. intros rest ->.
  rewrite read_loop_pos by done.
  destruct rest as [|b rest]; [by exists []|].
  destruct (IH (length (drop (Z.to_nat size) (b :: rest)))
               ltac:(rewrite length_drop; simpl; lia) _ eq_refl)
    as (chunks & Hrun & HP).
  rewrite Hrun. eexists. split; [reflexivity|]. by apply Hcons.
Qed.

(** With a positive size the loop ends without an exception. *)
Lemma read_loop_returns size rest :
  (0 < size)%Z → ∃ chunks, read_loop size rest = Ok chunks.
Proof.
  intros Hpos.
  destruct (read_loop_ind_pos (λ _ _, True) size Hpos I (λ _ _ _ _ _, I) rest)
    as (chunks & Hrun & _).
  by exists chunks.
Qed.

Lemma read_loop_concat size rest chunks :
  (0 < size)%Z → read_loop size rest = Ok chunks → concat chunks = rest.
Proof.
  intros Hpos Hrun.
  destruct (read_loop_ind_pos (λ rest chunks, concat chunks = rest) size Hpos)
    with (rest := rest) as (chunks' & Hrun' & HP); [done| |congruence].
  intros r cs _ _ IH. simpl. by rewrite IH, take_drop.
Qed.

Lemma read_loop_bounded size rest chunks :
  (0 < size)%Z →
  read_loop size rest = Ok chunks →
  Forall (λ chunk : bytes, 0 < length chunk ≤ Z.to_nat size) chunks.
Proof.
  intros Hpos Hrun.
  destruct (read_loop_ind_pos
           (λ _ chunks, Forall (λ chunk : bytes, 0 < length chunk ≤ Z.to_nat size) chunks)
           size Hpos)
    with (rest := rest) as (chunks' & Hrun' & HP); [constructor| |congruence].
  intros r cs Hr _ IH. constructor; [|done].
  rewrite length_take. destruct r; [done|]. simpl. lia.
Qed.

(** Every chunk but the last has exactly [size] bytes. *)
Lemma read_loop_fixed_size size rest chunks i chunk :
  (0 < size)%Z →
  read_loop size rest = Ok chunks →
  chunks !! i = Some chunk →
  S i < length chunks →
  length chunk = Z.to_nat size.
Proof.
  intros Hpos Hrun. revert i.
  destruct (read_loop_ind_pos
           (λ _ chunks, ∀ i, chunks !! i = Some chunk → S i < length chunks →
                             length chunk = Z.to_nat size) size Hpos)
    with (rest := rest) as (chunks' & Hrun' & HP);
    [done| |rewrite Hrun in Hrun'; by injection Hrun' as <-].
  intros r cs Hr Hcs IH [|i] Hi Hlen; simpl in *.
  - injection Hi as <-. rewrite length_take.
    destruct (decide (Z.to_nat size ≤ length r)%nat) as [|Hshort]; [lia|].
    rewrite drop_ge, read_loop_pos in Hcs by (done || lia).
    injection Hcs as <-. simpl in Hlen. lia.
  - apply (IH i); [done|lia].
Qed.

(** The number of chunks: the size of the file divided by the chunk size,
    rounded up. *)
Lemma read_loop_count size rest chunks :
  (0 < size)%Z →
  read_loop size rest = Ok chunks →
  length chunks = (length rest + Z.to_nat size - 1) `div` Z.to_nat size.
Proof.
  intros Hpos Hrun.
  destruct (read_loop_ind_pos
           (λ rest chunks,
              length chunks = (length rest + Z.to_nat size - 1) `div` Z.to_nat size)
           size Hpos)
    with (rest := rest) as (chunks' & Hrun' & HP); [| |congruence].
  - simpl. symmetry. apply Nat.div_small. lia.
  - intros r cs Hr _ IH. simpl. rewrite IH, length_drop.
    assert (0 < length r) by (destruct r; [done|simpl; lia]).
    destruct (decide (Z.to_nat size ≤ length r)%nat) as [Hle|Hgt].
    + replace (length r + Z.to_nat size - 1)
        with ((length r - Z.to_nat size + Z.to_nat size - 1) + 1 * Z.to_nat size) by lia.
      rewrite Nat.div_add by lia. lia.
    + replace (length r - Z.to_nat size) with 0 by lia.
      rewrite (Nat.div_small (0 + _ - 1)) by lia.
      apply (Nat.div_unique _ _ 1 (length r - 1)); lia.
Qed.

(** ** Paths *)

Lemma split_sep_nonempty s : split_sep s ≠ [].
Proof.
  destruct s as [|c s]; simpl; [done|].
  destruct (is_sep c); [done|]. by destruct (split_sep s).
Qed.

Lemma split_sep_app s1 s2 :
  split_sep (s1 ++ "/" ++ s2) = (split_sep s1 ++ split_sep s2)%list.
Proof.
  induction s1 as [|c s1 IH]; simpl; [done|].
  rewrite IH. destruct (is_sep c); [done|].
  pose proof (split_sep_nonempty s1). by destruct (split_sep s1).
Qed.

Lemma split_sep_no_sep s : no_sep s = true → split_sep s = [s].
Proof.
  induction s as [|c s IH]; simpl; [done|].
  intros [Hc Hs]%andb_true_iff. apply negb_true_iff in Hc.
  by rewrite Hc, IH.
Qed.

Lemma no_sep_app s1 s2 : no_sep (s1 ++ s2) = no_sep s1 && no_sep s2.
Proof.
  induction s1 as [|c s1 IH]; simpl; [done|]. by rewrite IH, andb_assoc.
Qed.

Lemma append_cons c (s t : string) : String c s ++ t = String c (s ++ t).
Proof. reflexivity. Qed.

Lemma append_empty_l (t : string) : EmptyString ++ t = t.
Proof. reflexivity. Qed.

Lemma append_empty_r (s : string) : s ++ EmptyString = s.
Proof. induction s as [|c s IH]; [done|]. by rewrite append_cons, IH. Qed.

Lemma proper_name_no_sep c : proper_name c = true → no_sep c = true.
Proof. unfold proper_name. by intros [[? _]%andb_true_iff _]%andb_true_iff. Qed.

Lemma proper_name_nonempty c : proper_name c = true → c ≠ EmptyString.
Proof. intros H ->. done. Qed.

(** [split] undoes [render]: the components of the printed working
    directory, after the empty one in front of the leading separator. *)
Lemma split_sep_name_render c cs :
  Forall (λ c, proper_name c = true) (c :: cs) →
  split_sep (c ++ render cs) = c :: cs.
Proof.
  revert c. induction cs as [|c' cs IH]; intros c Hall; simpl.
  - rewrite append_empty_r. apply split_sep_no_sep, proper_name_no_sep.
    by inversion Hall.
  - change (String "/" (c' ++ render cs)) with ("/" ++ (c' ++ render cs)).
    rewrite split_sep_app, IH by (by inversion Hall).
    rewrite split_sep_no_sep; [done|].
    apply proper_name_no_sep. by inversion Hall.
Qed.

Lemma split_sep_render cwd :
  Forall (λ c, proper_name c = true) cwd →
  split_sep (render cwd) = EmptyString :: cwd.
Proof.
  destruct cwd as [|c cs]; [done|]. intros Hall.
  change (render (c :: cs)) with (String "/" (c ++ render cs)).
  change (split_sep (String "/" (c ++ render cs)))
    with (EmptyString :: split_sep (c ++ render cs)).
  by rewrite split_sep_name_render.
Qed.

Lemma endswith_sep_app a b : b ≠ EmptyString → endswith_sep (a ++ b) = endswith_sep b.
Proof.
  intros Hb. induction a as [|c a IH]; simpl; [done|].
  destruct (a ++ b) eqn:E; [|done].
  destruct a, b; simpl in E; done.
Qed.

Lemma endswith_sep_no_sep s : no_sep s = true → endswith_sep s = false.
Proof.
  induction s as [|c s IH]; simpl; [done|].
  intros [Hc Hs]%andb_true_iff. apply negb_true_iff in Hc.
  destruct s; [done|]. by apply IH.
Qed.

Lemma endswith_sep_render cwd :
  Forall (λ c, proper_name c = true) cwd → endswith_sep (render cwd) = false.
Proof.
  induction cwd as [|c cs IH]; [done|]. intros Hall.
  inversion Hall as [|?? Hc Hcs]; subst.
  change (render (c :: cs)) with ("/" ++ (c ++ render cs)).
  pose proof (proper_name_nonempty _ Hc).
  rewrite endswith_sep_app by (by destruct c).
  destruct cs as [|c' cs].
  - simpl. rewrite append_empty_r. by apply endswith_sep_no_sep, proper_name_no_sep.
  - rewrite endswith_sep_app by done. by apply IH.
Qed.

(** The joined path under a working directory, split in components. *)
Lemma split_sep_join_cwd cwd video_path :
  Forall (λ c, proper_name c = true) cwd →
  startswith_sep video_path = false →
  split_sep (os_path_join (os_getcwd cwd) video_path)
  = (EmptyString :: cwd ++ split_sep video_path)%list.
Proof.
  intros Hall Hrel. unfold os_path_join. rewrite Hrel.
  destruct cwd as [|c cs]; [done|].
  cbn [os_getcwd]. rewrite endswith_sep_render by done.
  replace (bool_decide (render (c :: cs) = EmptyString)) with false by done.
  cbn [orb]. by rewrite split_sep_app, split_sep_render.
Qed.

Example os_path_join_relative :
  os_path_join "/srv/app" "runs/detect/predict_1b9d6bcd/input_1b9d6bcd.avi"
  = "/srv/app/runs/detect/predict_1b9d6bcd/input_1b9d6bcd.avi".
Proof. reflexivity. Qed.

Example os_path_join_absolute :
  os_path_join "/srv/app" "/etc/passwd" = "/etc/passwd".
Proof. reflexivity. Qed.

Example os_path_join_root : os_path_join "/" "etc" = "/etc".
Proof. reflexivity. Qed.

Example os_path_basename_output :
  os_path_basename "/srv/app/runs/detect/predict_1b9d6bcd/input_1b9d6bcd.avi"
  = "input_1b9d6bcd.avi".
Proof. reflexivity. Qed.

(** ** Path resolution *)

Lemma walk_app σ cur a b :
  walk σ cur (a ++ b) = walk σ cur a ≫= λ mid, walk σ mid b.
Proof.
  revert cur. induction a as [|c a IH]; intros cur; simpl; [done|].
  destruct (is_dir σ cur); [|done].
  destruct (bool_decide (c = EmptyString) || bool_decide (c = ".")); [apply IH|].
  destruct (bool_decide (c = "..")); [apply IH|].
  destruct (entry_exists σ (cur ++ [c])); [apply IH|done].
Qed.

Lemma proper_name_spec c :
  proper_name c = true → c ≠ EmptyString ∧ c ≠ "." ∧ c ≠ "..".
Proof. intros H. repeat split; by intros ->. Qed.

(** Walking down proper names only descends. *)
Lemma walk_proper σ cur cs p :
  Forall (λ c, proper_name c = true) cs →
  walk σ cur cs = Some p → p = (cur ++ cs)%list.
Proof.
  intros Hall. revert cur.
  induction Hall as [|c cs Hc _ IH]; intros cur; simpl.
  - intros [= <-]. by rewrite app_nil_r.
  - destruct (proper_name_spec _ Hc) as (H1 & H2 & H3).
    rewrite !bool_decide_eq_false_2 by done. simpl.
    destruct (is_dir σ cur); [|done].
    destruct (entry_exists σ (cur ++ [c])); [|done].
    intros ->%IH. by rewrite <-app_assoc.
Qed.

(** Without [".."] a walk never leaves the directory it is in. *)
Lemma walk_under σ root cur comps p :
  ".." ∉ comps →
  root `prefix_of` cur →
  walk σ cur comps = Some p →
  root `prefix_of` p.
Proof.
  revert cur. induction comps as [|c comps IH]; intros cur Hno Hpre; simpl.
  - by intros [= <-].
  - apply not_elem_of_cons in Hno as [Hc Hno].
    destruct (is_dir σ cur); [|done].
    destruct (bool_decide (c = EmptyString) || bool_decide (c = ".")); [by apply IH|].
    rewrite bool_decide_eq_false_2 by done.
    destruct (entry_exists σ (cur ++ [c])); [|done].
    apply IH; [done|]. by apply prefix_app_r.
Qed.

Lemma startswith_sep_join_cwd cwd video_path :
  startswith_sep video_path = false →
  startswith_sep (os_path_join (os_getcwd cwd) video_path) = true.
Proof.
  intros Hrel. unfold os_path_join. rewrite Hrel.
  destruct cwd as [|c cs]; [done|].
  cbn [os_getcwd]. by destruct (_ || _).
Qed.

(** A relative path without [".."], joined to the working directory,
    names a location below the working directory. *)
Lemma resolve_join_under σ cwd video_path p :
  Forall (λ c, proper_name c = true) cwd →
  startswith_sep video_path = false →
  ".." ∉ split_sep video_path →
  resolve σ cwd (os_path_join (os_getcwd cwd) video_path) = Some p →
  cwd `prefix_of` p.
Proof.
  intros Hcwd Hrel Hno. unfold resolve.
  destruct (bool_decide _); [done|].
  rewrite startswith_sep_join_cwd, split_sep_join_cwd by done.
  change (walk σ [] (EmptyString :: cwd ++ split_sep video_path))
    with (walk σ [] (cwd ++ split_sep video_path)).
  rewrite walk_app.
  destruct (walk σ [] cwd) as [mid|] eqn:Hmid; [|done]. simpl.
  apply walk_proper in Hmid as ->; [|done].
  by apply walk_under.
Qed.

Lemma get_video_found guess cwd video_path σ p :
  is_dir σ cwd = true →
  resolve σ cwd (os_path_join (os_getcwd cwd) video_path) = Some p →
  ∃ mime_type headers,
    get_video guess cwd video_path σ
    = StreamingResponse
        (file_iterator (os_path_join (os_getcwd cwd) video_path))
        mime_type headers.
Proof.
  intros Hdir Hres. unfold get_video, os_getcwd_checked, os_path_exists.
  rewrite Hdir. simpl. rewrite Hres.
  rewrite bool_decide_eq_true_2 by eauto. simpl. eauto.
Qed.

Lemma get_video_not_found guess cwd video_path σ :
  is_dir σ cwd = true →
  resolve σ cwd (os_path_join (os_getcwd cwd) video_path) = None →
  get_video guess cwd video_path σ
  = Body (JObj [("error",
                 JStr ("Video not found: "
                         ++ os_path_join (os_getcwd cwd) video_path))]).
Proof.
  intros Hdir Hres. unfold get_video, os_getcwd_checked, os_path_exists.
  rewrite Hdir. simpl. rewrite Hres.
  rewrite bool_decide_eq_false_2; [done|]. by intros [? ?].
Qed.

(** C1, as the code has it: [get_video] serves whatever exists at
    [os.path.join(os.getcwd(), video_path)], with no check of where that
    is and no error of its own for an escaping path; the location served is
    below the working directory when [video_path] is relative and has no
    [".."] segment. *)
Theorem get_video_resolution guess cwd video_path σ p :
  Forall (λ c, proper_name c = true) cwd →
  is_dir σ cwd = true →
  resolve σ cwd (os_path_join (os_getcwd cwd) video_path) = Some p →
  (∃ mime_type headers,
     get_video guess cwd video_path σ
     = StreamingResponse
         (file_iterator (os_path_join (os_getcwd cwd) video_path))
         mime_type headers) ∧
  (startswith_sep video_path = false →
   ".." ∉ split_sep video_path →
   cwd `prefix_of` p).
Proof.
  intros Hcwd Hdir Hres. split.
  - by eapply get_video_found.
  - intros Hrel Hno. by eapply resolve_join_under.
Qed.

Lemma get_video_resolution_witness :
  Forall (λ c, proper_name c = true) app_dir ∧
  is_dir disk0 app_dir = true ∧
  resolve disk0 app_dir (os_path_join (os_getcwd app_dir) "models/best.pt")
    = Some ["srv"; "app"; "models"; "best.pt"] ∧
  (∃ mime_type headers,
     get_video sample_guess_type app_dir "models/best.pt" disk0
     = StreamingResponse (file_iterator "/srv/app/models/best.pt")
                         mime_type headers) ∧
  app_dir `prefix_of` ["srv"; "app"; "models"; "best.pt"].
Proof.
  assert (H1 : Forall (λ c, proper_name c = true) app_dir)
    by (repeat constructor).
  assert (H2 : is_dir disk0 app_dir = true) by reflexivity.
  assert (H3 : resolve disk0 app_dir
                 (os_path_join (os_getcwd app_dir) "models/best.pt")
               = Some ["srv"; "app"; "models"; "best.pt"])
    by (vm_compute; reflexivity).
  destruct (get_video_resolution sample_guess_type app_dir "models/best.pt"
              disk0 _ H1 H2 H3) as [Hserved Hunder].
  split; [exact H1|]. split; [exact H2|]. split; [exact H3|].
  split; [exact Hserved|].
  apply Hunder; [reflexivity|].
  apply (bool_decide_unpack _). vm_compute. exact I.
Defined.

(** An absolute path replaces the working directory altogether. *)
Example get_video_absolute_path :
  get_video sample_guess_type app_dir "/etc/passwd" disk0
  = StreamingResponse (file_iterator "/etc/passwd") "video/avi"
      [("Content-Disposition", "attachment; filename=passwd")].
Proof. vm_compute. reflexivity. Qed.

(** C1, as stated, fails: a path with traversal segments is resolved,
    returned and opened although it lies outside the working directory. *)
Lemma get_video_escapes :
  ".." ∈ split_sep "../../etc/passwd" ∧
  get_video sample_guess_type app_dir "../../etc/passwd" disk0
  = StreamingResponse (file_iterator "/srv/app/../../etc/passwd") "video/avi"
      [("Content-Disposition", "attachment; filename=passwd")] ∧
  resolve disk0 app_dir "/srv/app/../../etc/passwd" = Some ["etc"; "passwd"] ∧
  ¬ app_dir `prefix_of` ["etc"; "passwd"] ∧
  consume disk0 app_dir (file_iterator "/srv/app/../../etc/passwd")
  = Ok [passwd].
Proof.
  split; [|split; [|split; [|split]]].
  - apply (bool_decide_unpack _). vm_compute. exact I.
  - vm_compute. reflexivity.
  - vm_compute. reflexivity.
  - apply (bool_decide_unpack _). vm_compute. exact I.
  - vm_compute. reflexivity.
Qed.

(** ** Streaming an output file *)

Lemma consume_file σ cwd path p data :
  resolve σ cwd path = Some p →
  σ !! p = Some (File data) →
  consume σ cwd (file_iterator path) = read_loop default_chunk_size data.
Proof.
  intros Hres Hfile. unfold consume, open_rb. simpl. by rewrite Hres, Hfile.
Qed.

Example read_loop_small :
  read_loop 2 [Byte.x01; Byte.x02; Byte.x03; Byte.x04; Byte.x05]
  = Ok [[Byte.x01; Byte.x02]; [Byte.x03; Byte.x04]; [Byte.x05]].
Proof. reflexivity. Qed.

Example read_loop_20000_bytes :
  match read_loop default_chunk_size (replicate (Z.to_nat 20000) Byte.x2a) with
  | Ok chunks => Some ((λ chunk : bytes, Z.of_nat (length chunk)) <$> chunks)
  | Raise _ => None
  end = Some [8192; 8192; 3616]%Z.
Proof. vm_compute. reflexivity. Qed.

(** C4: the chunks that [GET /video] streams for a file of [N] bytes are
    not empty and hold at most 8192 bytes each, all but the last hold
    exactly 8192, there are [N / 8192] of them (rounded up), and put
    together they are the file, byte for byte. *)
Theorem get_video_stream_roundtrip guess cwd video_path σ p data :
  is_dir σ cwd = true →
  resolve σ cwd (os_path_join (os_getcwd cwd) video_path) = Some p →
  σ !! p = Some (File data) →
  ∃ mime_type headers chunks,
    get_video guess cwd video_path σ
    = StreamingResponse
        (file_iterator (os_path_join (os_getcwd cwd) video_path))
        mime_type headers ∧
    consume σ cwd (file_iterator (os_path_join (os_getcwd cwd) video_path))
    = Ok chunks ∧
    concat chunks = data ∧
    Forall (λ chunk : bytes, (0 < Z.of_nat (length chunk) ≤ 8192)%Z) chunks ∧
    (∀ i chunk, chunks !! i = Some chunk → (S i < length chunks)%nat →
                Z.of_nat (length chunk) = 8192%Z) ∧
    Z.of_nat (length chunks) = ((Z.of_nat (length data) + 8191) `div` 8192)%Z.
Proof.
  intros Hdir Hres Hfile.
  destruct (get_video_found guess _ _ _ _ Hdir Hres) as (mime & hdrs & Hget).
  assert (Hpos : (0 < default_chunk_size)%Z) by done.
  destruct (read_loop_returns _ data Hpos) as [chunks Hrun].
  exists mime, hdrs, chunks.
  assert (Hsize : Z.of_nat (Z.to_nat default_chunk_size) = 8192%Z)
    by (by rewrite Z2Nat.id).
  split; [done|]. split; [by erewrite consume_file|].
  split; [by eapply read_loop_concat|].
  split; [|split].
  - eapply Forall_impl; [apply (read_loop_bounded _ _ _ Hpos Hrun)|].
    intros chunk ?. simpl in *. lia.
  - intros i chunk Hi Hlen.
    rewrite (read_loop_fixed_size _ _ _ _ _ Hpos Hrun Hi Hlen). exact Hsize.
  - rewrite (read_loop_count _ _ _ Hpos Hrun).
    rewrite Nat2Z.inj_div, Nat2Z.inj_sub, Nat2Z.inj_add, Hsize by lia.
    f_equal. lia.
Qed.

Lemma get_video_stream_roundtrip_witness :
  is_dir disk_after_clip_a app_dir = true ∧
  resolve disk_after_clip_a app_dir
    (os_path_join (os_getcwd app_dir) (output_video_path uuid_a))
  = Some ["srv"; "app"; "runs"; "detect"; "predict_1b9d6bcd";
          "input_1b9d6bcd.avi"] ∧
  disk_after_clip_a
    !! ["srv"; "app"; "runs"; "detect"; "predict_1b9d6bcd"; "input_1b9d6bcd.avi"]
  = Some (File (file clip_a)) ∧
  ∃ chunks,
    consume disk_after_clip_a app_dir
      (file_iterator (os_path_join (os_getcwd app_dir) (output_video_path uuid_a)))
    = Ok chunks ∧
    concat chunks = file clip_a ∧
    Z.of_nat (length chunks) = 1%Z.
Proof.
  assert (H1 : is_dir disk_after_clip_a app_dir = true)
    by (vm_compute; reflexivity).
  assert (H2 : resolve disk_after_clip_a app_dir
                 (os_path_join (os_getcwd app_dir) (output_video_path uuid_a))
               = Some ["srv"; "app"; "runs"; "detect"; "predict_1b9d6bcd";
                       "input_1b9d6bcd.avi"])
    by (vm_compute; reflexivity).
  assert (H3 : disk_after_clip_a
                 !! ["srv"; "app"; "runs"; "detect"; "predict_1b9d6bcd";
                     "input_1b9d6bcd.avi"]
               = Some (File (file clip_a)))
    by (vm_compute; reflexivity).
  split; [exact H1|]. split; [exact H2|]. split; [exact H3|].
  destruct (get_video_stream_roundtrip sample_guess_type app_dir
              (output_video_path uuid_a) disk_after_clip_a _ _ H1 H2 H3)
    as (mime & hdrs & chunks & _ & Hconsume & Hconcat & _ & _ & Hcount).
  exists chunks. split; [exact Hconsume|]. split; [exact Hconcat|].
  rewrite Hcount. vm_compute. reflexivity.
Defined.

(** ** Image detection *)

Lemma detection_record_shaped r box d :
  detection_record r box = Ok d → detection_shaped d.
Proof.
  unfold detection_record, getitem.
  destruct (names r !! _) as [class|]; [|done]. simpl.
  destruct (xyxy box) as [|[[[x1 y1] x2] y2] rows]; [done|]. simpl.
  intros [= <-]. by exists class, (conf box), x1, y1, x2, y2.
Qed.

Lemma for_boxes_shaped r bs acc ds :
  Forall detection_shaped acc →
  for_boxes r bs acc = Ok ds →
  Forall detection_shaped ds.
Proof.
  revert acc. induction bs as [|box bs IH]; intros acc Hacc; simpl.
  - by intros [= <-].
  - destruct (detection_record r box) as [d|] eqn:Hd; [|done]. simpl.
    apply IH. apply Forall_app. split; [done|].
    constructor; [|done]. by eapply detection_record_shaped.
Qed.

Lemma for_results_shaped rs acc ds :
  Forall detection_shaped acc →
  for_results rs acc = Ok ds →
  Forall detection_shaped ds.
Proof.
  revert acc. induction rs as [|r rs IH]; intros acc Hacc; simpl.
  - by intros [= <-].
  - destruct (boxes r) as [bs|].
    + destruct (for_boxes r bs acc) as [acc'|] eqn:Hbs; [|done]. simpl.
      apply IH. by eapply for_boxes_shaped.
    + simpl. by apply IH.
Qed.

Lemma for_results_no_boxes rs acc :
  Forall no_boxes rs → for_results rs acc = Ok acc.
Proof.
  induction 1 as [|r rs [Hr|Hr] _ IH]; simpl; [done|..]; by rewrite Hr.
Qed.

(** C6: when the model shows no box, [POST /detect/image] answers the
    success body with the empty list and the count zero. *)
Theorem detect_image_no_detections y upload img results :
  Image_open y (file upload) = Ok img →
  yolo_call y img = Ok results →
  Forall no_boxes results →
  detect_image y upload
  = Body (JObj [("detections", JList []); ("total_detections", JInt 0)]).
Proof.
  intros Himg Hres Hnone. unfold detect_image.
  rewrite Himg. simpl. rewrite Hres. simpl.
  by rewrite for_results_no_boxes.
Qed.

Lemma detect_image_no_detections_witness :
  Forall no_boxes [ {| boxes := Some []; names := sample_names |} ] ∧
  detect_image sample_vision blank_image
  = Body (JObj [("detections", JList []); ("total_detections", JInt 0)]).
Proof.
  assert (H : Forall no_boxes [ {| boxes := Some []; names := sample_names |} ])
    by (constructor; [by right|constructor]).
  split; [exact H|].
  exact (detect_image_no_detections sample_vision blank_image [Byte.x89] _
           eq_refl eq_refl H).
Defined.

(** C9: a success body of [POST /detect/image] counts its own list, and
    each element of the list has exactly the fields [class] (a string),
    [confidence] (a float) and [bbox] (four coordinates). *)
Theorem detect_image_shape y upload body :
  detect_image y upload = Body body →
  ¬ is_error_body body →
  ∃ detections,
    body = JObj [ ("detections", JList detections);
                  ("total_detections", JInt (Z.of_nat (length detections))) ] ∧
    Forall detection_shaped detections.
Proof.
  unfold detect_image. intros Hbody Hok.
  destruct (Image_open y (file upload)) as [img|e] eqn:Himg; simpl in Hbody;
    [|injection Hbody as <-; destruct Hok; by eexists].
  destruct (yolo_call y img) as [results|e] eqn:Hres; simpl in Hbody;
    [|injection Hbody as <-; destruct Hok; by eexists].
  destruct (for_results results []) as [ds|e] eqn:Hds; simpl in Hbody;
    [|injection Hbody as <-; destruct Hok; by eexists].
  injection Hbody as <-. exists ds. split; [done|].
  by eapply for_results_shaped.
Qed.

Lemma detect_image_shape_witness :
  ¬ is_error_body
      (JObj [ ("detections",
               JList [ JObj [ ("class", JStr "gray_mold");
                              ("confidence", JFloat (9 # 10));
                              ("bbox", JList [JFloat 10; JFloat 20;
                                              JFloat 110; JFloat 220]) ] ]);
              ("total_detections", JInt 1) ]) ∧
  ∃ detections,
    detect_image sample_vision
      two_leaves
    = Body (JObj [ ("detections", JList detections);
                   ("total_detections", JInt (Z.of_nat (length detections))) ]) ∧
    Forall detection_shaped detections.
Proof.
  assert (Hok : ¬ is_error_body
      (JObj [ ("detections",
               JList [ JObj [ ("class", JStr "gray_mold");
                              ("confidence", JFloat (9 # 10));
                              ("bbox", JList [JFloat 10; JFloat 20;
                                              JFloat 110; JFloat 220]) ] ]);
              ("total_detections", JInt 1) ]))
    by (intros [msg Hmsg]; discriminate Hmsg).
  split; [exact Hok|].
  destruct (detect_image_shape sample_vision two_leaves _ eq_refl Hok)
    as (ds & Hbody & Hshape).
  exists ds. split; [|exact Hshape]. by rewrite <-Hbody.
Defined.

(** ** Health prediction *)

Example format_2f_rounds :
  format_2f (12345 # 1000) = "12.34" ∧ format_2f (12355 # 1000) = "12.36" ∧
  format_2f (875 # 10) = "87.50" ∧ format_2f 100 = "100.00".
Proof. repeat split; vm_compute; reflexivity. Qed.



Lemma label_map_lookup_unknown pred :
  (pred < 0 ∨ 2 < pred)%Z → label_map !! pred = None.
Proof.
  intros Hpred. unfold label_map. simpl.
  rewrite !lookup_insert_ne by lia. apply lookup_empty.
Qed.




Lemma predict_health_answer m data scaled pred preds proba probas top :
  scaler_transform m [input_row data] = Ok scaled →
  dt_predict m scaled = Ok (pred :: preds) →
  dt_predict_proba m scaled = Ok (proba :: probas) →
  array_max proba = Ok top →
  predict_health m data = Body (health_body pred (top * 100)).
Proof.
  intros Hs Hp Hpp Hmax. unfold predict_health.
  rewrite Hs. simpl. rewrite Hp. simpl. rewrite Hpp. simpl.
  by rewrite Hmax.
Qed.

(** C10: a class code outside 0, 1, 2 still gives a success body, with
    the label ["Unknown"] and the raw code. *)
Theorem predict_health_unknown_code m data scaled pred preds proba probas :
  scaler_transform m [input_row data] = Ok scaled →
  dt_predict m scaled = Ok (pred :: preds) →
  dt_predict_proba m scaled = Ok (proba :: probas) →
  proba ≠ [] →
  (pred < 0 ∨ 2 < pred)%Z →
  ∃ confidence,
    predict_health m data
    = Body (JObj [ ("plant_health_status", JStr "Unknown");
                   ("confidence", JStr confidence);
                   ("prediction_code", JInt pred) ]) ∧
    ¬ is_error_body (JObj [ ("plant_health_status", JStr "Unknown");
                            ("confidence", JStr confidence);
                            ("prediction_code", JInt pred) ]).
Proof.
  intros Hs Hp Hpp Hne Hpred.
  destruct proba as [|x rest]; [done|].
  eexists. split.
  - erewrite predict_health_answer by (done || reflexivity).
    unfold health_body. by rewrite label_map_lookup_unknown.
  - intros [msg Hmsg]. discriminate Hmsg.
Qed.

Lemma predict_health_unknown_code_witness :
  ([0; 0; 1]%Q ≠ []) ∧ (3 < 0 ∨ 2 < 3)%Z ∧
  predict_health (constant_model 3) sample_reading
  = Body (JObj [ ("plant_health_status", JStr "Unknown");
                 ("confidence", JStr "100.00%");
                 ("prediction_code", JInt 3) ]).
Proof.
  assert (H1 : [0; 0; 1]%Q ≠ []) by discriminate.
  assert (H2 : (3 < 0 ∨ 2 < 3)%Z) by (right; reflexivity).
  split; [exact H1|]. split; [exact H2|].
  destruct (predict_health_unknown_code (constant_model 3) sample_reading
              _ 3%Z _ _ _ eq_refl eq_refl eq_refl H1 H2) as (c & Hc & _).
  rewrite Hc. vm_compute in Hc. injection Hc as <-. reflexivity.
Defined.






(** ** Request identifiers *)

Lemma hex_digit_no_sep n : is_sep (hex_digit n) = false.
Proof.
  unfold hex_digit. generalize (N.to_nat (n `mod` 16)). intros k.
  do 16 (destruct k as [|k]; [reflexivity|]). by destruct k.
Qed.

(** The identifier of a request: the eight leading hexadecimal digits of
    its UUID. *)
Lemma unique_id_digits u :
  ∃ d1 d2 d3 d4 d5 d6 d7 d8 : N,
    unique_id u
    = String (hex_digit d1) (String (hex_digit d2) (String (hex_digit d3)
       (String (hex_digit d4) (String (hex_digit d5) (String (hex_digit d6)
         (String (hex_digit d7) (String (hex_digit d8) EmptyString))))))).
Proof. do 8 eexists. reflexivity. Qed.

Lemma no_sep_unique_id u : no_sep (unique_id u) = true.
Proof.
  destruct (unique_id_digits u) as (d1&d2&d3&d4&d5&d6&d7&d8&->).
  cbn [no_sep]. by rewrite !hex_digit_no_sep.
Qed.

Lemma input_filename_proper u : proper_name (input_filename u) = true.
Proof.
  unfold proper_name, input_filename.
  rewrite !no_sep_app, no_sep_unique_id. reflexivity.
Qed.

Lemma split_sep_temp_video_path u :
  split_sep (temp_video_path u) = [temp_dir; input_filename u].
Proof.
  unfold temp_video_path, os_path_join.
  replace (startswith_sep (input_filename u)) with false by done.
  change (if bool_decide (temp_dir = EmptyString) || endswith_sep temp_dir
          then temp_dir ++ input_filename u
          else temp_dir ++ "/" ++ input_filename u)
    with (temp_dir ++ "/" ++ input_filename u).
  rewrite split_sep_app.
  by rewrite (split_sep_no_sep (input_filename u))
    by apply proper_name_no_sep, input_filename_proper.
Qed.

Example uuid_str_a : uuid_str uuid_a = "1b9d6bcd-bbfd-4b2d-9b5d-ab8dfbbd4bed".
Proof. vm_compute. reflexivity. Qed.

Example temp_video_path_a :
  temp_video_path uuid_a = "temp_video/input_1b9d6bcd.mp4".
Proof. vm_compute. reflexivity. Qed.

(** [input_filename[:-4]] is the file name without its [.mp4]. *)
Lemma input_filename_stem u :
  str_drop_last 4 (input_filename u) = "input_" ++ unique_id u.
Proof.
  unfold input_filename.
  by destruct (unique_id_digits u) as (d1&d2&d3&d4&d5&d6&d7&d8&->).
Qed.

Lemma output_video_path_spec u :
  output_video_path u
  = "runs/detect/" ++ predict_name u ++ "/input_" ++ unique_id u ++ ".avi".
Proof.
  unfold output_video_path, predict_name. rewrite input_filename_stem.
  by destruct (unique_id_digits u) as (d1&d2&d3&d4&d5&d6&d7&d8&->).
Qed.

(** The identifier keeps 32 of the 128 bits: two different UUIDs can give
    the same identifier, hence the same scratch and output paths. *)
Lemma unique_id_collision :
  (0x1b9d6bcd_bbfd_4b2d_9b5d_ab8dfbbd4bed ≠ 0x1b9d6bcd_0000_4000_8000_000000000001)%N ∧
  unique_id 0x1b9d6bcd_bbfd_4b2d_9b5d_ab8dfbbd4bed
  = unique_id 0x1b9d6bcd_0000_4000_8000_000000000001.
Proof. split; [discriminate|]. vm_compute. reflexivity. Qed.

Lemma unique_id_length u : String.length (unique_id u) = 8%nat.
Proof.
  by destruct (unique_id_digits u) as (d1&d2&d3&d4&d5&d6&d7&d8&->).
Qed.

Lemma append_inv_same_length (a b s t : string) :
  String.length a = String.length b → a ++ s = b ++ t → a = b.
Proof.
  revert b. induction a as [|c a IH]; intros [|c' b]; try done.
  rewrite !append_cons. intros [= Hlen] [= -> Heq]. f_equal. by apply IH.
Qed.

Lemma input_filename_inj u1 u2 :
  input_filename u1 = input_filename u2 → unique_id u1 = unique_id u2.
Proof.
  unfold input_filename. intros Heq%(inj (append "input_")).
  eapply append_inv_same_length; [|exact Heq].
  by rewrite !unique_id_length.
Qed.

(** Requests with different identifiers have different scratch files and
    different output directories. *)
Lemma unique_id_inj_paths cwd u1 u2 :
  unique_id u1 ≠ unique_id u2 →
  scratch_key cwd u1 ≠ scratch_key cwd u2 ∧
  output_dir_key cwd u1 ≠ output_dir_key cwd u2.
Proof.
  intros Hne. unfold scratch_key, output_dir_key.
  split; intros Heq%app_inv_head; apply Hne.
  - apply input_filename_inj, (inj Some).
    exact (f_equal (λ l : list string, l !! 1%nat) Heq).
  - apply (inj (append "predict_")), (inj Some).
    exact (f_equal (λ l : list string, l !! 2%nat) Heq).
Qed.

(** ** The scratch directory *)

Lemma is_dir_snoc (σ : fs) cur c :
  is_dir σ (cur ++ [c]) =
  match σ !! (cur ++ [c])%list with Some Dir => true | _ => false end.
Proof. by destruct cur. Qed.

Lemma entry_exists_snoc (σ : fs) cur c :
  entry_exists σ (cur ++ [c]) = bool_decide (is_Some (σ !! (cur ++ [c])%list)).
Proof. by destruct cur. Qed.

Lemma snoc_ne (cur : list string) c : cur ≠ (cur ++ [c])%list.
Proof.
  intros Heq. apply (f_equal length) in Heq. rewrite length_app in Heq.
  simpl in Heq. lia.
Qed.

Lemma is_dir_insert_snoc (σ : fs) cur c n :
  is_dir σ cur = true → is_dir (<[(cur ++ [c])%list := n]> σ) cur = true.
Proof.
  destruct cur as [|c' cur]; [done|]. unfold is_dir.
  by rewrite lookup_insert_ne by (symmetry; apply snoc_ne).
Qed.

Lemma scratch_key_snoc cwd u :
  scratch_key cwd u = ((cwd ++ [temp_dir]) ++ [input_filename u])%list.
Proof. unfold scratch_key. by rewrite <-app_assoc. Qed.

Lemma makedirs_temp_dir σ cwd :
  is_dir σ cwd = true →
  os_makedirs_exist_ok cwd temp_dir σ =
  match σ !! (cwd ++ [temp_dir])%list with
  | Some (File _) => (Raise (FileExistsError temp_dir), σ)
  | _ => (Ok (), with_temp_dir cwd σ)
  end.
Proof.
  intros Hdir. unfold os_makedirs_exist_ok, with_temp_dir.
  change (split_sep temp_dir) with [temp_dir].
  change (startswith_sep temp_dir) with false.
  change (bool_decide (temp_dir = EmptyString)) with false.
  cbn [makedirs_from]. rewrite Hdir.
  change (stays temp_dir) with false.
  change (bool_decide (temp_dir = "..")) with false. cbn iota.
  by destruct (σ !! (cwd ++ [temp_dir])%list) as [[]|].
Qed.

Lemma with_temp_dir_is_dir σ cwd :
  is_dir σ cwd = true →
  (∀ data, σ !! (cwd ++ [temp_dir])%list ≠ Some (File data)) →
  is_dir (with_temp_dir cwd σ) cwd = true ∧
  with_temp_dir cwd σ !! (cwd ++ [temp_dir])%list = Some Dir.
Proof.
  intros Hdir Hnofile. unfold with_temp_dir.
  destruct (σ !! (cwd ++ [temp_dir])%list) as [[data|]|] eqn:Htmp.
  - by destruct (Hnofile data).
  - done.
  - split; [by apply is_dir_insert_snoc|apply lookup_insert_eq].
Qed.

Lemma with_temp_dir_scratch σ cwd u :
  with_temp_dir cwd σ !! scratch_key cwd u = σ !! scratch_key cwd u.
Proof.
  unfold with_temp_dir. destruct (σ !! (cwd ++ [temp_dir])%list); [done|].
  apply lookup_insert_ne. rewrite scratch_key_snoc. apply snoc_ne.
Qed.

Lemma startswith_sep_temp_video_path u :
  startswith_sep (temp_video_path u) = false.
Proof. reflexivity. Qed.

Lemma temp_video_path_nonempty u : temp_video_path u ≠ EmptyString.
Proof. done. Qed.

Lemma walk_temp_dir σ cwd :
  is_dir σ cwd = true →
  σ !! (cwd ++ [temp_dir])%list = Some Dir →
  walk σ cwd [temp_dir] = Some (cwd ++ [temp_dir])%list.
Proof.
  intros Hdir Htmp. cbn [walk]. rewrite Hdir.
  change (bool_decide (temp_dir = EmptyString) || bool_decide (temp_dir = ".")) with false.
  change (bool_decide (temp_dir = "..")) with false. cbn iota.
  rewrite entry_exists_snoc, Htmp. by rewrite bool_decide_eq_true_2 by eauto.
Qed.

(** Writing the upload, once [temp_video/] is there. *)
Lemma write_scratch σ cwd u data :
  is_dir σ cwd = true →
  σ !! (cwd ++ [temp_dir])%list = Some Dir →
  σ !! scratch_key cwd u ≠ Some Dir →
  write_file cwd (temp_video_path u) data σ
  = (Ok (), <[scratch_key cwd u := File data]> σ).
Proof.
  intros Hdir Htmp Hfree. unfold write_file, locate_new.
  rewrite split_sep_temp_video_path, startswith_sep_temp_video_path.
  change (List.last [temp_dir; input_filename u] EmptyString) with (input_filename u).
  change (removelast [temp_dir; input_filename u]) with [temp_dir].
  pose proof (input_filename_proper u) as Hname. unfold proper_name in Hname.
  apply andb_true_iff in Hname as [[_ Hst%negb_true_iff]%andb_true_iff
                                     Hdd%negb_true_iff].
  rewrite Hst, Hdd. cbn [orb].
  rewrite walk_temp_dir, is_dir_snoc, Htmp, <-scratch_key_snoc by done.
  by destruct (σ !! scratch_key cwd u) as [[]|].
Qed.

(** Finding the scratch file again. *)
Lemma resolve_scratch σ cwd u :
  is_dir σ cwd = true →
  σ !! (cwd ++ [temp_dir])%list = Some Dir →
  resolve σ cwd (temp_video_path u) =
  if bool_decide (is_Some (σ !! scratch_key cwd u))
  then Some (scratch_key cwd u) else None.
Proof.
  intros Hdir Htmp. unfold resolve.
  rewrite bool_decide_eq_false_2 by apply temp_video_path_nonempty.
  rewrite split_sep_temp_video_path, startswith_sep_temp_video_path.
  change [temp_dir; input_filename u] with ([temp_dir] ++ [input_filename u])%list.
  rewrite walk_app, walk_temp_dir by done. cbn [mbind option_bind walk].
  rewrite is_dir_snoc, Htmp.
  destruct (proper_name_spec _ (input_filename_proper u)) as (H1 & H2 & H3).
  rewrite !bool_decide_eq_false_2 by done. cbn [orb].
  rewrite entry_exists_snoc, <-scratch_key_snoc.
  by destruct (bool_decide _).
Qed.

Lemma resolve_temp_dir σ cwd :
  is_dir σ cwd = true →
  σ !! (cwd ++ [temp_dir])%list = Some Dir →
  resolve σ cwd temp_dir = Some (cwd ++ [temp_dir])%list.
Proof. intros Hdir Htmp. by apply walk_temp_dir. Qed.

(** [shutil.rmtree("temp_video")] removes the directory with every file in
    it, whichever request wrote the file. *)
Lemma rmtree_temp_dir σ cwd :
  is_dir σ cwd = true →
  σ !! (cwd ++ [temp_dir])%list = Some Dir →
  shutil_rmtree_ignore_errors cwd temp_dir σ
  = (Ok (), filter (λ kv, ¬ (cwd ++ [temp_dir])%list `prefix_of` kv.1) σ).
Proof.
  intros Hdir Htmp. unfold shutil_rmtree_ignore_errors.
  by rewrite resolve_temp_dir, is_dir_snoc, Htmp by done.
Qed.

Lemma rmtree_temp_dir_scratch (σ : fs) cwd u :
  filter (λ kv, ¬ (cwd ++ [temp_dir])%list `prefix_of` kv.1) σ
    !! scratch_key cwd u = None.
Proof.
  apply map_lookup_filter_None. right. intros n _ Hnot. apply Hnot.
  simpl. rewrite scratch_key_snoc. by apply prefix_app_r.
Qed.

(** ** Video detection *)

Lemma store_ready_materialized σ cwd u data :
  store_ready σ cwd u →
  os_makedirs_exist_ok cwd temp_dir σ = (Ok (), with_temp_dir cwd σ) ∧
  write_file cwd (temp_video_path u) data (with_temp_dir cwd σ)
  = (Ok (), materialized cwd u data σ).
Proof.
  intros (Hdir & Hnofile & Hfree).
  destruct (with_temp_dir_is_dir _ _ Hdir Hnofile) as [Hdir' Htmp']. split.
  - rewrite makedirs_temp_dir by done.
    destruct (σ !! (cwd ++ [temp_dir])%list) as [[data'|]|] eqn:E; try done.
    by destruct (Hnofile data').
  - apply write_scratch; [done|done|]. by rewrite with_temp_dir_scratch.
Qed.

(** Up to the call of the model, the handler has created [temp_video/]
    and written the upload into it. *)
Lemma detect_video_try_materializes y cwd u upload σ :
  store_ready σ cwd u →
  detect_video_try y cwd u upload σ
  = (total_frames ← yolo_predict y cwd (temp_video_path u) "runs/detect"
                                 (predict_name u);
     os_remove cwd (temp_video_path u);;
     shutil_rmtree_ignore_errors cwd temp_dir;;
     mret (video_body u total_frames))
      (materialized cwd u (file upload) σ).
Proof.
  intros Hready.
  destruct (store_ready_materialized _ _ _ (file upload) Hready) as [Hmk Hwr].
  unfold detect_video_try.
  unfold mbind at 1, io_bind at 1. rewrite Hmk.
  unfold mbind at 1, io_bind at 1. by rewrite Hwr.
Qed.

(** When the model raises, the handler answers the error body and returns
    without having removed anything. *)
Lemma detect_video_predict_failure y cwd u upload σ e σ' :
  store_ready σ cwd u →
  yolo_predict y cwd (temp_video_path u) "runs/detect" (predict_name u)
               (materialized cwd u (file upload) σ) = (Raise e, σ') →
  detect_video y cwd u upload σ
  = (Body (error_body "Video detection failed: " e), σ').
Proof.
  intros Hready Hfail. unfold detect_video.
  rewrite detect_video_try_materializes by done.
  unfold mbind at 1, io_bind at 1. by rewrite Hfail.
Qed.

(** The leak in general: a model that raises and leaves its source alone
    leaves the scratch file behind. *)
Lemma detect_video_failure_leaks y cwd u upload σ e σ' :
  store_ready σ cwd u →
  yolo_predict y cwd (temp_video_path u) "runs/detect" (predict_name u)
               (materialized cwd u (file upload) σ) = (Raise e, σ') →
  σ' !! scratch_key cwd u = materialized cwd u (file upload) σ !! scratch_key cwd u →
  ∃ σ'', detect_video y cwd u upload σ
         = (Body (error_body "Video detection failed: " e), σ'') ∧
         σ'' !! scratch_key cwd u = Some (File (file upload)).
Proof.
  intros Hready Hfail Hkeep. exists σ'. split.
  - by eapply detect_video_predict_failure.
  - rewrite Hkeep. apply lookup_insert_eq.
Qed.

(** The handler is the request run on its own, step after step. *)
Lemma detect_video_run_alone y cwd u upload σ :
  run_schedule y cwd [0; 0; 0; 0; 0]%nat [received u upload] σ
  = ([Request u upload (Returned (detect_video y cwd u upload σ).1)],
     (detect_video y cwd u upload σ).2).
Proof.
  unfold detect_video, detect_video_try, received.
  unfold mbind, io_bind, mret, io_ret.
  cbn [run_schedule lookup list_lookup request_step req_stage req_uuid4
       req_upload advance].
  destruct (os_makedirs_exist_ok cwd temp_dir σ) as [[[]|e1] σ1];
    cbn [run_schedule lookup list_lookup request_step req_stage req_uuid4
         req_upload advance insert list_insert fst snd]; [|done].
  destruct (write_file cwd (temp_video_path u) (file upload) σ1)
    as [[[]|e2] σ2];
    cbn [run_schedule lookup list_lookup request_step req_stage req_uuid4
         req_upload advance insert list_insert fst snd]; [|done].
  destruct (yolo_predict y cwd (temp_video_path u) "runs/detect"
                         (predict_name u) σ2) as [[n|e3] σ3];
    cbn [run_schedule lookup list_lookup request_step req_stage req_uuid4
         req_upload advance insert list_insert fst snd]; [|done].
  destruct (os_remove cwd (temp_video_path u) σ3) as [[[]|e4] σ4];
    cbn [run_schedule lookup list_lookup request_step req_stage req_uuid4
         req_upload advance insert list_insert fst snd]; [|done].
  destruct (shutil_rmtree_ignore_errors cwd temp_dir σ4) as [[[]|e5] σ5];
    cbn [run_schedule lookup list_lookup request_step req_stage req_uuid4
         req_upload advance insert list_insert fst snd]; done.
Qed.

(** What the declared type and the file name of an upload change: nothing. *)
Lemma detect_video_ignores_declared_type y cwd u upload upload' σ :
  file upload' = file upload →
  detect_video y cwd u upload' σ = detect_video y cwd u upload σ.
Proof.
  intros Hsame. unfold detect_video, detect_video_try. by rewrite Hsame.
Qed.

Lemma detect_image_ignores_declared_type y upload upload' :
  file upload' = file upload →
  detect_image y upload' = detect_image y upload.
Proof. intros Hsame. unfold detect_image. by rewrite Hsame. Qed.

(** [os.remove] succeeds exactly on a regular file. *)
Lemma os_remove_cases cwd path σ :
  (is_file σ cwd path ∧ ∃ σ', os_remove cwd path σ = (Ok (), σ')) ∨
  (¬ is_file σ cwd path ∧ ∃ e, os_remove cwd path σ = (Raise e, σ)).
Proof.
  unfold is_file, os_remove, open_rb.
  destruct (resolve σ cwd path) as [p|];
    [|right; split; [by intros [? ?]|by eexists]].
  destruct (σ !! p) as [[data|]|].
  - left. split; by eexists.
  - right. split; [by intros [? ?]|by eexists].
  - right. split; [by intros [? ?]|by eexists].
Qed.

Lemma rmtree_returns cwd path σ :
  ∃ σ', shutil_rmtree_ignore_errors cwd path σ = (Ok (), σ').
Proof.
  unfold shutil_rmtree_ignore_errors.
  destruct (resolve σ cwd path) as [p|]; [|by eexists].
  destruct (is_dir σ p); by eexists.
Qed.

(** After the model returned, the answer depends on the scratch file
    alone: the success body if [os.remove] finds it, the error body with
    what [os.remove] raised if not. *)
Lemma detect_video_after_predict y cwd u upload σ n :
  store_ready σ cwd u →
  (predict_outcome y cwd u upload σ).1 = Ok n →
  (is_file (predict_outcome y cwd u upload σ).2 cwd (temp_video_path u) ∧
   (detect_video y cwd u upload σ).1 = Body (video_body u n)) ∨
  (¬ is_file (predict_outcome y cwd u upload σ).2 cwd (temp_video_path u) ∧
   ∃ e, detect_video y cwd u upload σ
        = (Body (error_body "Video detection failed: " e),
           (predict_outcome y cwd u upload σ).2)).
Proof.
  intros Hready Hok. unfold detect_video.
  rewrite detect_video_try_materializes by done.
  unfold predict_outcome in *. unfold mbind, io_bind, mret, io_ret.
  destruct (yolo_predict y cwd (temp_video_path u) "runs/detect"
              (predict_name u) (materialized cwd u (file upload) σ))
    as [r σ3]. simpl in *. subst r.
  destruct (os_remove_cases cwd (temp_video_path u) σ3)
    as [[Hfile [σ4 Hrm]]|[Hlost [e Hrm]]]; rewrite Hrm.
  - left. split; [done|].
    destruct (rmtree_returns cwd temp_dir σ4) as [σ5 Hrt]. by rewrite Hrt.
  - right. split; [done|]. by exists e.
Qed.

Lemma video_body_not_error u n : ¬ is_error_body (video_body u n).
Proof. intros [msg Hmsg]. discriminate Hmsg. Qed.

(** C7, as the code has it.  A request without a file part is answered
    by the framework with status 422 and never reaches the handlers;
    beyond that the handlers never look at the declared type or the name
    of an upload.  [detect_video] goes to the store first: when the model
    is called, [temp_video/] exists and the upload has been written to
    [temp_video/input_<id>.mp4], whatever was uploaded.  After that the
    request is answered with the error body exactly when the model raises,
    or returns without leaving a regular file at the scratch path for
    [os.remove]. *)
Theorem detect_video_writes_before_predict y cwd u upload σ :
  store_ready σ cwd u →
  (post_detect_video y cwd u None σ = (Unprocessable, σ) ∧
   post_detect_image y None = Unprocessable ∧
   post_detect_video y cwd u (Some upload) σ
   = (Handled (detect_video y cwd u upload σ).1,
      (detect_video y cwd u upload σ).2) ∧
   post_detect_image y (Some upload) = Handled (detect_image y upload)) ∧
  (∀ upload', file upload' = file upload →
     detect_video y cwd u upload' σ = detect_video y cwd u upload σ ∧
     detect_image y upload' = detect_image y upload) ∧
  run_schedule y cwd [0; 0]%nat [received u upload] σ
  = ([Request u upload AtPredict], materialized cwd u (file upload) σ) ∧
  materialized cwd u (file upload) σ !! scratch_key cwd u
  = Some (File (file upload)) ∧
  (∀ e σ',
     yolo_predict y cwd (temp_video_path u) "runs/detect" (predict_name u)
                  (materialized cwd u (file upload) σ) = (Raise e, σ') →
     detect_video y cwd u upload σ
     = (Body (error_body "Video detection failed: " e), σ')) ∧
  (∀ n,
     (predict_outcome y cwd u upload σ).1 = Ok n →
     is_file (predict_outcome y cwd u upload σ).2 cwd (temp_video_path u) →
     (detect_video y cwd u upload σ).1 = Body (video_body u n)) ∧
  (∃ body,
     (detect_video y cwd u upload σ).1 = Body body ∧
     (is_error_body body ↔
        (∃ e, (predict_outcome y cwd u upload σ).1 = Raise e) ∨
        (∃ n, (predict_outcome y cwd u upload σ).1 = Ok n ∧
              ¬ is_file (predict_outcome y cwd u upload σ).2 cwd
                        (temp_video_path u)))).
Proof.
  intros Hready. split; [|split; [|split; [|split; [|split; [|split]]]]].
  - split; [done|]. split; [done|]. split; [|done].
    unfold post_detect_video. by destruct (detect_video y cwd u upload σ).
  - intros upload' Hsame. split.
    + by apply detect_video_ignores_declared_type.
    + by apply detect_image_ignores_declared_type.
  - destruct (store_ready_materialized _ _ _ (file upload) Hready) as [Hmk Hwr].
    unfold received.
    cbn [run_schedule lookup list_lookup request_step req_stage req_uuid4
         req_upload].
    rewrite Hmk.
    cbn [run_schedule lookup list_lookup request_step req_stage req_uuid4
         req_upload advance insert list_insert].
    rewrite Hwr. reflexivity.
  - apply lookup_insert_eq.
  - intros e σ' Hfail. by eapply detect_video_predict_failure.
  - intros n Hok Hfile.
    destruct (detect_video_after_predict y cwd u upload σ n Hready Hok)
      as [[_ Hbody]|[Hlost _]]; [done|by destruct Hlost].
  - destruct (predict_outcome y cwd u upload σ) as [[n|e] σ3] eqn:Hout.
    + destruct (detect_video_after_predict y cwd u upload σ n Hready)
        as [[Hfile Hbody]|[Hlost [e Hrun]]]; [by rewrite Hout|..];
        rewrite Hout in *; cbn [fst snd] in *.
      * exists (video_body u n). split; [done|]. split.
        -- intros Herr. by destruct (video_body_not_error u n).
        -- intros [[e He]|(n' & _ & Hlost)]; [discriminate|by destruct Hlost].
      * exists (error_body "Video detection failed: " e).
        split; [by rewrite Hrun|]. split; [|by eexists].
        intros _. right. by exists n.
    + exists (error_body "Video detection failed: " e). split.
      * by rewrite (detect_video_predict_failure _ _ _ _ _ _ _ Hready Hout).
      * split; [|by eexists]. intros _. left. by exists e.
Qed.

Lemma store_ready_disk0 u : store_ready disk0 app_dir u.
Proof.
  split; [reflexivity|]. split.
  - intros data. by vm_compute.
  - rewrite scratch_key_snoc.
    assert (Hnone : ∀ name, disk0 !! ((app_dir ++ [temp_dir]) ++ [name])%list = None).
    { intros name. unfold disk0. cbn [list_to_map foldr app_dir app temp_dir].
      rewrite !lookup_insert_ne by discriminate. apply lookup_empty. }
    by rewrite Hnone.
Qed.

Lemma detect_video_writes_before_predict_witness :
  store_ready disk0 app_dir uuid_a ∧
  post_detect_video sample_vision app_dir uuid_a None disk0
  = (Unprocessable, disk0) ∧
  run_schedule sample_vision app_dir [0; 0]%nat [received uuid_a notes_txt] disk0
  = ([Request uuid_a notes_txt AtPredict],
     materialized app_dir uuid_a (file notes_txt) disk0) ∧
  materialized app_dir uuid_a (file notes_txt) disk0
    !! ["srv"; "app"; "temp_video"; "input_1b9d6bcd.mp4"]
  = Some (File (file notes_txt)).
Proof.
  assert (H : store_ready disk0 app_dir uuid_a) by apply store_ready_disk0.
  split; [exact H|].
  destruct (detect_video_writes_before_predict sample_vision app_dir uuid_a
              notes_txt disk0 H) as ((Habsent & _) & _ & Hrun & Hfile & _).
  split; [exact Habsent|]. split; [exact Hrun|]. exact Hfile.
Defined.

(** A model that returns after using up its source is answered with the
    error body all the same: [os.remove] finds no scratch file. *)
Example detect_video_source_used_up :
  (predict_outcome consuming_vision app_dir uuid_a clip_a disk0).1 = Ok 1%nat ∧
  (detect_video consuming_vision app_dir uuid_a clip_a disk0).1
  = Body (JObj [("error",
                 JStr "Video detection failed: [Errno 2] No such file or directory: 'temp_video/input_1b9d6bcd.mp4'")]).
Proof. split; vm_compute; reflexivity. Qed.

(** C7, as stated, fails: an upload that is no video by name and by
    declared type is answered with an error only after [temp_video/] was
    created and the upload was written into it. *)
Lemma detect_video_stores_unsupported_upload :
  ¬ supported_video notes_txt ∧
  content_type notes_txt = "text/plain" ∧
  (detect_video sample_vision app_dir uuid_a notes_txt disk0).1
  = Body (JObj [("error",
                 JStr "Video detection failed: Failed to read images from temp_video/input_1b9d6bcd.mp4")]) ∧
  (detect_video sample_vision app_dir uuid_a notes_txt disk0).2
    !! ["srv"; "app"; "temp_video"; "input_1b9d6bcd.mp4"]
  = Some (File (file notes_txt)) ∧
  disk0 !! ["srv"; "app"; "temp_video"] = None ∧
  disk0 !! ["srv"; "app"; "temp_video"; "input_1b9d6bcd.mp4"] = None.
Proof.
  split; [|split; [|split; [|split; [|split]]]].
  - intros (e & He & Hin). vm_compute in He. injection He as <-.
    revert Hin. apply (bool_decide_unpack _). vm_compute. exact I.
  - reflexivity.
  - vm_compute. reflexivity.
  - vm_compute. reflexivity.
  - vm_compute. reflexivity.
  - vm_compute. reflexivity.
Qed.

(** C3 fails on the code: for an upload that the model cannot decode the
    handler answers the error body and the scratch file is still on disk;
    after a successful request it is gone. *)
Theorem failed_detection_leaves_scratch :
  (detect_video sample_vision app_dir uuid_a corrupt_clip disk0).1
  = Body (JObj [("error",
                 JStr "Video detection failed: Failed to read images from temp_video/input_1b9d6bcd.mp4")]) ∧
  (detect_video sample_vision app_dir uuid_a corrupt_clip disk0).2
    !! ["srv"; "app"; "temp_video"; "input_1b9d6bcd.mp4"]
  = Some (File (file corrupt_clip)) ∧
  (detect_video sample_vision app_dir uuid_a clip_a disk0).1
  = Body (video_body uuid_a 2) ∧
  (detect_video sample_vision app_dir uuid_a clip_a disk0).2
    !! ["srv"; "app"; "temp_video"; "input_1b9d6bcd.mp4"] = None.
Proof.
  split; [|split; [|split]]; vm_compute; reflexivity.
Qed.

(** The last step of a request empties [temp_video/] of every request's
    scratch file. *)
Lemma rmtree_step_deletes_every_scratch y cwd rq n σ u' :
  req_stage rq = AtRmtree n →
  is_dir σ cwd = true →
  σ !! (cwd ++ [temp_dir])%list = Some Dir →
  (request_step y cwd rq σ).2 !! scratch_key cwd u' = None.
Proof.
  intros Hstage Hdir Htmp. unfold request_step. rewrite Hstage.
  rewrite rmtree_temp_dir by done. cbn [advance snd].
  apply rmtree_temp_dir_scratch.
Qed.

(** C2 fails on the code: two requests with different identifiers; the
    second has written its upload when the first finishes, and the first
    one's cleanup deletes the second one's scratch file, so that the second
    request, which succeeds on its own, fails. *)
Theorem cleanup_deletes_other_request_scratch :
  unique_id uuid_a ≠ unique_id uuid_b ∧
  (run_schedule sample_vision app_dir [0; 0; 1; 1; 0; 0]%nat
     [received uuid_a clip_a; received uuid_b clip_b] disk0).2
    !! scratch_key app_dir uuid_b = Some (File (file clip_b)) ∧
  (run_schedule sample_vision app_dir [0; 0; 1; 1; 0; 0; 0]%nat
     [received uuid_a clip_a; received uuid_b clip_b] disk0).2
    !! scratch_key app_dir uuid_b = None ∧
  req_stage <$>
    (run_schedule sample_vision app_dir [0; 0; 1; 1; 0; 0; 0; 1]%nat
       [received uuid_a clip_a; received uuid_b clip_b] disk0).1
  = [ Returned (Body (video_body uuid_a 2));
      Returned (Body (error_body "Video detection failed: "
                        (FileNotFoundError (temp_video_path uuid_b)))) ] ∧
  (detect_video sample_vision app_dir uuid_b clip_b disk0).1
  = Body (video_body uuid_b 1).
Proof.
  split; [|split; [|split; [|split]]]; [|vm_compute; reflexivity..].
  vm_compute. discriminate.
Qed.

(** ** Failures and the handler boundary *)

Lemma predict_health_returns_body m data :
  ∃ body, predict_health m data = Body body.
Proof. unfold predict_health. destruct (_ ≫= _); eauto. Qed.

Lemma detect_image_returns_body y upload :
  ∃ body, detect_image y upload = Body body.
Proof. unfold detect_image. destruct (_ ≫= _); eauto. Qed.

Lemma detect_video_returns_body y cwd u upload σ :
  ∃ body, (detect_video y cwd u upload σ).1 = Body body.
Proof.
  unfold detect_video. destruct (detect_video_try _ _ _ _ _) as [[]]; eauto.
Qed.

(** An exception of the scaler, the decoder or a model becomes the error
    body of the handler that called it. *)
Lemma predict_health_failure m data e :
  scaler_transform m [input_row data] = Raise e →
  predict_health m data = Body (error_body "Prediction failed: " e).
Proof. intros H. unfold predict_health. by rewrite H. Qed.

Lemma detect_image_failure y upload e :
  Image_open y (file upload) = Raise e →
  detect_image y upload = Body (error_body "Image detection failed: " e).
Proof. intros H. unfold detect_image. by rewrite H. Qed.

(** [get_video] answers a directory with a streaming response: the
    generator is built, not run, inside the [try]. *)
Lemma get_video_directory guess cwd video_path σ p :
  is_dir σ cwd = true →
  resolve σ cwd (os_path_join (os_getcwd cwd) video_path) = Some p →
  σ !! p = Some Dir →
  ∃ mime_type headers,
    get_video guess cwd video_path σ
    = StreamingResponse
        (file_iterator (os_path_join (os_getcwd cwd) video_path))
        mime_type headers ∧
    consume σ cwd (file_iterator (os_path_join (os_getcwd cwd) video_path))
    = Raise (IsADirectoryError (os_path_join (os_getcwd cwd) video_path)).
Proof.
  intros Hdir Hres Hnode.
  destruct (get_video_found guess _ _ _ _ Hdir Hres) as (mime & hdrs & Hget).
  exists mime, hdrs. split; [done|].
  unfold consume, open_rb. simpl. by rewrite Hres, Hnode.
Qed.

(** C8 fails on the code: [GET /video/models] names a directory; the
    handler returns a streaming response, no error body, and the failure to
    open it is raised when the response is iterated, after the handler's
    [try] has been left. *)
Theorem get_video_failure_escapes_handler :
  get_video sample_guess_type app_dir "models" disk0
  = StreamingResponse (file_iterator "/srv/app/models") "video/avi"
      [("Content-Disposition", "attachment; filename=models")] ∧
  consume disk0 app_dir (file_iterator "/srv/app/models")
  = Raise (IsADirectoryError "/srv/app/models").
Proof. split; vm_compute; reflexivity. Qed.

(** * Further properties *)

(** ** A successful video request *)

Lemma scratch_key_under_temp_dir cwd u :
  (cwd ++ [temp_dir])%list `prefix_of` scratch_key cwd u.
Proof. rewrite scratch_key_snoc. by apply prefix_app_r. Qed.

Lemma cwd_not_under_temp_dir (cwd : list string) :
  ¬ (cwd ++ [temp_dir])%list `prefix_of` cwd.
Proof. apply prefix_snoc_not. Qed.

Lemma is_dir_delete_scratch (σ : fs) cwd u :
  is_dir (delete (scratch_key cwd u) σ) cwd = is_dir σ cwd.
Proof.
  destruct cwd as [|c cwd]; [done|]. unfold is_dir.
  rewrite lookup_delete_ne; [done|].
  intros Heq. apply (cwd_not_under_temp_dir (c :: cwd)).
  rewrite <-Heq at 2. apply scratch_key_under_temp_dir.
Qed.

Lemma temp_dir_delete_scratch (σ : fs) cwd u :
  delete (scratch_key cwd u) σ !! (cwd ++ [temp_dir])%list
  = σ !! (cwd ++ [temp_dir])%list.
Proof.
  apply lookup_delete_ne. rewrite scratch_key_snoc.
  intros Heq. by apply (snoc_ne (cwd ++ [temp_dir]) (input_filename u)).
Qed.

(** The disk a successful request leaves: what the model left, without
    the scratch file and without [temp_video/]. *)
Lemma detect_video_success_state y cwd u upload σ n :
  store_ready σ cwd u →
  (predict_outcome y cwd u upload σ).1 = Ok n →
  scratch_kept cwd u (predict_outcome y cwd u upload σ).2 →
  detect_video y cwd u upload σ
  = (Body (video_body u n),
     filter (λ kv, ¬ (cwd ++ [temp_dir])%list `prefix_of` kv.1)
            (delete (scratch_key cwd u) (predict_outcome y cwd u upload σ).2)).
Proof.
  intros Hready Hok (Hdir & Htmp & data & Hfile).
  unfold detect_video. rewrite detect_video_try_materializes by done.
  unfold predict_outcome in *. unfold mbind, io_bind, mret, io_ret.
  destruct (yolo_predict y cwd (temp_video_path u) "runs/detect"
              (predict_name u) (materialized cwd u (file upload) σ))
    as [r σ3]. simpl in *. subst r.
  unfold os_remove. rewrite resolve_scratch by done.
  rewrite bool_decide_eq_true_2 by eauto. rewrite Hfile.
  rewrite rmtree_temp_dir; [done|..].
  - by rewrite is_dir_delete_scratch.
  - by rewrite temp_dir_delete_scratch.
Qed.

Lemma cleaned_lookup_under (σ : fs) cwd u k :
  (cwd ++ [temp_dir])%list `prefix_of` k →
  filter (λ kv, ¬ (cwd ++ [temp_dir])%list `prefix_of` kv.1)
         (delete (scratch_key cwd u) σ) !! k = None.
Proof.
  intros Hunder. apply map_lookup_filter_None. right.
  intros n _ Hnot. by apply Hnot.
Qed.

Lemma cleaned_lookup_outside (σ : fs) cwd u k :
  ¬ (cwd ++ [temp_dir])%list `prefix_of` k →
  filter (λ kv, ¬ (cwd ++ [temp_dir])%list `prefix_of` kv.1)
         (delete (scratch_key cwd u) σ) !! k = σ !! k.
Proof.
  intros Hout. apply option_eq. intros n.
  rewrite map_lookup_filter_Some, lookup_delete_Some. simpl. split.
  - by intros [[_ ?] _].
  - intros Hk. split; [|done]. split; [|done].
    intros <-. apply Hout, scratch_key_under_temp_dir.
Qed.

(** X1: when the model succeeds and has left the scratch file alone, the
    answer is the success body with the model's frame count; afterwards
    nothing is left at or below [temp_video/], and every other entry of
    the disk is as the model left it. *)
Theorem detect_video_success_cleans y cwd u upload σ n :
  store_ready σ cwd u →
  (predict_outcome y cwd u upload σ).1 = Ok n →
  scratch_kept cwd u (predict_outcome y cwd u upload σ).2 →
  (detect_video y cwd u upload σ).1 = Body (video_body u n) ∧
  (∀ k, (cwd ++ [temp_dir])%list `prefix_of` k →
        (detect_video y cwd u upload σ).2 !! k = None) ∧
  (∀ k, ¬ (cwd ++ [temp_dir])%list `prefix_of` k →
        (detect_video y cwd u upload σ).2 !! k
        = (predict_outcome y cwd u upload σ).2 !! k).
Proof.
  intros Hready Hok Hkept.
  rewrite (detect_video_success_state _ _ _ _ _ _ Hready Hok Hkept).
  split; [done|]. split.
  - intros k Hk. by apply cleaned_lookup_under.
  - intros k Hk. by apply cleaned_lookup_outside.
Qed.

Lemma sample_scratch_kept :
  scratch_kept app_dir uuid_a (predict_outcome sample_vision app_dir uuid_a clip_a disk0).2.
Proof.
  split; [vm_compute; reflexivity|]. split; [vm_compute; reflexivity|].
  exists (file clip_a). vm_compute. reflexivity.
Qed.

Lemma detect_video_success_cleans_witness :
  store_ready disk0 app_dir uuid_a ∧
  (predict_outcome sample_vision app_dir uuid_a clip_a disk0).1 = Ok 2%nat ∧
  scratch_kept app_dir uuid_a
    (predict_outcome sample_vision app_dir uuid_a clip_a disk0).2 ∧
  (detect_video sample_vision app_dir uuid_a clip_a disk0).1
  = Body (video_body uuid_a 2) ∧
  (detect_video sample_vision app_dir uuid_a clip_a disk0).2
    !! ["srv"; "app"; "temp_video"] = None.
Proof.
  assert (H1 : store_ready disk0 app_dir uuid_a) by apply store_ready_disk0.
  assert (H2 : (predict_outcome sample_vision app_dir uuid_a clip_a disk0).1
               = Ok 2%nat) by (vm_compute; reflexivity).
  assert (H3 := sample_scratch_kept).
  split; [exact H1|]. split; [exact H2|]. split; [exact H3|].
  destruct (detect_video_success_cleans sample_vision app_dir uuid_a clip_a
              disk0 2 H1 H2 H3) as (Hbody & Hgone & _).
  split; [exact Hbody|].
  apply Hgone. reflexivity.
Defined.

(** ** Fetching what a video request produced *)

Lemma predict_name_proper u : proper_name (predict_name u) = true.
Proof.
  unfold proper_name, predict_name.
  rewrite !no_sep_app, no_sep_unique_id. reflexivity.
Qed.

Lemma output_filename_proper u : proper_name (output_filename u) = true.
Proof.
  unfold proper_name, output_filename.
  rewrite !no_sep_app, no_sep_unique_id. reflexivity.
Qed.

Lemma split_sep_output_video_path u :
  split_sep (output_video_path u)
  = ["runs"; "detect"; predict_name u; output_filename u].
Proof.
  rewrite output_video_path_spec.
  change ("runs/detect/" ++ predict_name u ++ "/input_" ++ unique_id u ++ ".avi")
    with ("runs" ++ "/" ++ ("detect" ++ "/"
            ++ (predict_name u ++ "/" ++ output_filename u))).
  rewrite !split_sep_app.
  rewrite (split_sep_no_sep (predict_name u))
    by apply proper_name_no_sep, predict_name_proper.
  by rewrite (split_sep_no_sep (output_filename u))
    by apply proper_name_no_sep, output_filename_proper.
Qed.

Lemma output_components_proper u :
  Forall (λ c, proper_name c = true)
         ["runs"; "detect"; predict_name u; output_filename u].
Proof.
  repeat constructor; auto using predict_name_proper, output_filename_proper.
Qed.

Lemma startswith_sep_output_video_path u :
  startswith_sep (output_video_path u) = false.
Proof. reflexivity. Qed.

(** Resolving the joined output path is walking down from the root. *)
Lemma resolve_output_video_path σ cwd u :
  Forall (λ c, proper_name c = true) cwd →
  resolve σ cwd (os_path_join (os_getcwd cwd) (output_video_path u))
  = walk σ [] (cwd ++ ["runs"; "detect"; predict_name u; output_filename u]).
Proof.
  intros Hcwd. unfold resolve.
  rewrite startswith_sep_join_cwd by apply startswith_sep_output_video_path.
  rewrite split_sep_join_cwd, split_sep_output_video_path
    by (done || apply startswith_sep_output_video_path).
  assert (Hne : os_path_join (os_getcwd cwd) (output_video_path u) ≠ EmptyString).
  { intros Heq.
    pose proof (startswith_sep_join_cwd cwd (output_video_path u)
                  (startswith_sep_output_video_path u)) as Hs.
    by rewrite Heq in Hs. }
  by rewrite bool_decide_eq_false_2 by done.
Qed.

(** A walk down proper names looks only at the directories on its way. *)
Lemma walk_agree (σ σ' : fs) cur cs :
  Forall (λ c, proper_name c = true) cs →
  (∀ k, k `prefix_of` (cur ++ cs)%list → σ' !! k = σ !! k) →
  walk σ' cur cs = walk σ cur cs.
Proof.
  intros Hall. revert cur.
  induction Hall as [|c cs Hc _ IH]; intros cur Hsame; [done|].
  cbn [walk].
  destruct (proper_name_spec _ Hc) as (H1 & H2 & H3).
  rewrite !bool_decide_eq_false_2 by done. cbn [orb].
  assert (Hcur : is_dir σ' cur = is_dir σ cur).
  { destruct cur as [|c0 cur]; [done|]. unfold is_dir.
    rewrite Hsame; [done|]. by apply prefix_app_r. }
  assert (Hnext : entry_exists σ' (cur ++ [c]) = entry_exists σ (cur ++ [c])).
  { rewrite !entry_exists_snoc, Hsame; [done|].
    apply prefix_app, prefix_cons, prefix_nil. }
  rewrite Hcur, Hnext.
  destruct (is_dir σ cur); [|done].
  destruct (entry_exists σ (cur ++ [c])); [|done].
  apply IH. intros k Hk. apply Hsame. by rewrite cons_middle, app_assoc.
Qed.

Lemma output_not_under_temp_dir cwd u k :
  k `prefix_of` output_file_key cwd u →
  ¬ (cwd ++ [temp_dir])%list `prefix_of` k.
Proof.
  intros Hk Htmp. unfold output_file_key in Hk.
  assert (Hboth : (cwd ++ [temp_dir])%list
                    `prefix_of` (cwd ++ ["runs"; "detect"; predict_name u;
                                         output_filename u])%list)
    by (by etrans).
  apply prefix_app_inv, prefix_cons_inv_1 in Hboth. discriminate Hboth.
Qed.

(** X2: the path that [detect_video] returns names, through
    [GET /video], nothing but [runs/detect/predict_<id>/input_<id>.avi]
    below the working directory. *)
Theorem output_video_path_location cwd u σ p :
  Forall (λ c, proper_name c = true) cwd →
  resolve σ cwd (os_path_join (os_getcwd cwd) (output_video_path u)) = Some p →
  p = output_file_key cwd u ∧ cwd `prefix_of` p.
Proof.
  intros Hcwd. rewrite resolve_output_video_path by done.
  intros Hwalk%walk_proper.
  - subst p. split; [done|]. simpl. by apply prefix_app_r.
  - apply Forall_app. split; [done|apply output_components_proper].
Qed.

Lemma output_video_path_location_witness :
  Forall (λ c, proper_name c = true) app_dir ∧
  resolve disk_after_clip_a app_dir
    (os_path_join (os_getcwd app_dir) (output_video_path uuid_a))
  = Some ["srv"; "app"; "runs"; "detect"; "predict_1b9d6bcd";
          "input_1b9d6bcd.avi"] ∧
  ["srv"; "app"; "runs"; "detect"; "predict_1b9d6bcd"; "input_1b9d6bcd.avi"]
  = output_file_key app_dir uuid_a.
Proof.
  assert (H1 : Forall (λ c, proper_name c = true) app_dir)
    by (repeat constructor).
  assert (H2 : resolve disk_after_clip_a app_dir
                 (os_path_join (os_getcwd app_dir) (output_video_path uuid_a))
               = Some ["srv"; "app"; "runs"; "detect"; "predict_1b9d6bcd";
                       "input_1b9d6bcd.avi"])
    by (vm_compute; reflexivity).
  split; [exact H1|]. split; [exact H2|].
  exact (proj1 (output_video_path_location app_dir uuid_a disk_after_clip_a
                  _ H1 H2)).
Defined.

(** X3: inference and transfer compose.  When the model succeeds, has
    left the scratch file alone and has written the annotated video, the
    path in the success body, given to [GET /video] on the disk the
    request leaves, streams that video byte for byte: the cleanup does not
    touch the output. *)
Theorem detect_video_then_get_video guess y cwd u upload σ n data :
  Forall (λ c, proper_name c = true) cwd →
  store_ready σ cwd u →
  (predict_outcome y cwd u upload σ).1 = Ok n →
  scratch_kept cwd u (predict_outcome y cwd u upload σ).2 →
  resolve (predict_outcome y cwd u upload σ).2 cwd
          (os_path_join (os_getcwd cwd) (output_video_path u))
  = Some (output_file_key cwd u) →
  (predict_outcome y cwd u upload σ).2 !! output_file_key cwd u
  = Some (File data) →
  (detect_video y cwd u upload σ).1
  = Body (JObj [ ("message", JStr "Video processed successfully");
                 ("output_video_path", JStr (output_video_path u));
                 ("total_frames", JInt (Z.of_nat n)) ]) ∧
  ∃ mime_type headers chunks,
    get_video guess cwd (output_video_path u) (detect_video y cwd u upload σ).2
    = StreamingResponse
        (file_iterator (os_path_join (os_getcwd cwd) (output_video_path u)))
        mime_type headers ∧
    consume (detect_video y cwd u upload σ).2 cwd
      (file_iterator (os_path_join (os_getcwd cwd) (output_video_path u)))
    = Ok chunks ∧
    concat chunks = data.
Proof.
  intros Hcwd Hready Hok Hkept Hres Hfile.
  pose proof Hkept as (Hdir & _ & _).
  rewrite (detect_video_success_state _ _ _ _ _ _ Hready Hok Hkept).
  cbn [fst snd]. split; [done|].
  set (σ3 := (predict_outcome y cwd u upload σ).2) in *.
  set (σ' := filter _ (delete _ σ3)).
  assert (Hsame : ∀ k, k `prefix_of` output_file_key cwd u → σ' !! k = σ3 !! k).
  { intros k Hk. apply cleaned_lookup_outside.
    by eapply output_not_under_temp_dir. }
  assert (Hdir' : is_dir σ' cwd = true).
  { destruct cwd as [|c cwd]; [done|]. unfold is_dir in *.
    rewrite Hsame; [done|]. unfold output_file_key. by apply prefix_app_r. }
  assert (Hres' : resolve σ' cwd
                    (os_path_join (os_getcwd cwd) (output_video_path u))
                  = Some (output_file_key cwd u)).
  { rewrite resolve_output_video_path in Hres |- * by done.
    rewrite <-Hres. apply walk_agree.
    - apply Forall_app. split; [done|apply output_components_proper].
    - intros k Hk. by apply Hsame. }
  assert (Hfile' : σ' !! output_file_key cwd u = Some (File data))
    by (by rewrite Hsame).
  destruct (get_video_found guess _ _ _ _ Hdir' Hres') as (mime & hdrs & Hget).
  destruct (read_loop_returns default_chunk_size data) as [chunks Hrun]; [done|].
  exists mime, hdrs, chunks.
  split; [done|]. split; [by erewrite consume_file|].
  exact (read_loop_concat default_chunk_size _ _ eq_refl Hrun).
Qed.

Lemma detect_video_then_get_video_witness :
  Forall (λ c, proper_name c = true) app_dir ∧
  store_ready disk0 app_dir uuid_a ∧
  (predict_outcome sample_vision app_dir uuid_a clip_a disk0).1 = Ok 2%nat ∧
  scratch_kept app_dir uuid_a
    (predict_outcome sample_vision app_dir uuid_a clip_a disk0).2 ∧
  (predict_outcome sample_vision app_dir uuid_a clip_a disk0).2
    !! output_file_key app_dir uuid_a = Some (File (file clip_a)) ∧
  ∃ chunks,
    consume (detect_video sample_vision app_dir uuid_a clip_a disk0).2 app_dir
      (file_iterator (os_path_join (os_getcwd app_dir) (output_video_path uuid_a)))
    = Ok chunks ∧
    concat chunks = file clip_a.
Proof.
  assert (H0 : Forall (λ c, proper_name c = true) app_dir)
    by (repeat constructor).
  assert (H1 : store_ready disk0 app_dir uuid_a) by apply store_ready_disk0.
  assert (H2 : (predict_outcome sample_vision app_dir uuid_a clip_a disk0).1
               = Ok 2%nat) by (vm_compute; reflexivity).
  assert (H3 := sample_scratch_kept).
  assert (H4 : resolve (predict_outcome sample_vision app_dir uuid_a clip_a disk0).2
                 app_dir
                 (os_path_join (os_getcwd app_dir) (output_video_path uuid_a))
               = Some (output_file_key app_dir uuid_a))
    by (vm_compute; reflexivity).
  assert (H5 : (predict_outcome sample_vision app_dir uuid_a clip_a disk0).2
                 !! output_file_key app_dir uuid_a = Some (File (file clip_a)))
    by (vm_compute; reflexivity).
  split; [exact H0|]. split; [exact H1|]. split; [exact H2|].
  split; [exact H3|]. split; [exact H5|].
  destruct (detect_video_then_get_video sample_guess_type sample_vision app_dir
              uuid_a clip_a disk0 2 _ H0 H1 H2 H3 H4 H5)
    as (_ & mime & hdrs & chunks & _ & Hconsume & Hconcat).
  exists chunks. split; [exact Hconsume|exact Hconcat].
Defined.

(** ** A blocked scratch directory *)

(** X4: when a regular file is in the place of [temp_video/], the
    request is answered with the error body of [os.makedirs]'s
    [FileExistsError]; nothing is written, and the model, whichever it is,
    has no say in the answer. *)
Theorem detect_video_blocked y cwd u upload σ data :
  is_dir σ cwd = true →
  σ !! (cwd ++ [temp_dir])%list = Some (File data) →
  detect_video y cwd u upload σ
  = (Body (JObj [("error",
                  JStr "Video detection failed: [Errno 17] File exists: 'temp_video'")]),
     σ).
Proof.
  intros Hdir Hfile. unfold detect_video, detect_video_try.
  unfold mbind at 1, io_bind at 1.
  by rewrite makedirs_temp_dir, Hfile by done.
Qed.

Lemma detect_video_blocked_witness :
  is_dir disk_blocked app_dir = true ∧
  disk_blocked !! (app_dir ++ [temp_dir])%list = Some (File [Byte.x2a]) ∧
  (detect_video sample_vision app_dir uuid_a clip_a disk_blocked).1
  = Body (JObj [("error",
                 JStr "Video detection failed: [Errno 17] File exists: 'temp_video'")]).
Proof.
  assert (H1 : is_dir disk_blocked app_dir = true) by reflexivity.
  assert (H2 : disk_blocked !! (app_dir ++ [temp_dir])%list
               = Some (File [Byte.x2a])) by reflexivity.
  split; [exact H1|]. split; [exact H2|].
  by rewrite (detect_video_blocked sample_vision app_dir uuid_a clip_a
                disk_blocked _ H1 H2).
Defined.

(** ** Identifiers and the bits of a UUID *)

Lemma append_assoc (a b c : string) : (a ++ b) ++ c = a ++ (b ++ c).
Proof.
  induction a as [|x a IH]; [done|]. by rewrite !append_cons, IH.
Qed.

Lemma length_append (a b : string) :
  String.length (a ++ b) = (String.length a + String.length b)%nat.
Proof.
  induction a as [|x a IH]; [done|]. rewrite append_cons. simpl. by rewrite IH.
Qed.

Lemma substring_append (a b : string) k :
  String.length a = k → substring 0 k (a ++ b) = a.
Proof.
  intros <-. induction a as [|x a IH].
  - by destruct b.
  - rewrite append_cons. cbn [String.length substring]. by rewrite IH.
Qed.

Lemma hex_pad_acc w n acc :
  hex_pad w n acc = hex_pad w n EmptyString ++ acc.
Proof.
  revert n acc. induction w as [|w IH]; intros n acc; simpl; [done|].
  rewrite (IH _ (String _ acc)), (IH _ (String _ EmptyString)).
  by rewrite append_assoc.
Qed.

Lemma hex_pad_length w n : String.length (hex_pad w n EmptyString) = w.
Proof.
  revert n. induction w as [|w IH]; intros n; simpl; [done|].
  rewrite hex_pad_acc, length_append, IH. simpl. lia.
Qed.

(** The digits of a number: its high digits, then its low ones. *)
Lemma hex_pad_split a b n :
  hex_pad (a + b) n EmptyString
  = hex_pad b (n / 16 ^ N.of_nat a)%N EmptyString ++ hex_pad a n EmptyString.
Proof.
  revert n. induction a as [|a IH]; intros n.
  - simpl. by rewrite N.div_1_r, append_empty_r.
  - cbn [Nat.add hex_pad].
    rewrite (hex_pad_acc (a + b) (n / 16) (String (hex_digit n) EmptyString)).
    rewrite IH, (hex_pad_acc a (n / 16) (String (hex_digit n) EmptyString)).
    rewrite append_assoc.
    by rewrite N.Div0.div_div, Nat2N.inj_succ, N.pow_succ_r'.
Qed.

Lemma unique_id_high_digits u :
  unique_id u = hex_pad 8 (u / 16 ^ 24)%N EmptyString.
Proof.
  unfold unique_id, str_take, uuid_str. cbv zeta.
  change (hex_pad 32 u EmptyString) with (hex_pad (24 + 8) u EmptyString).
  rewrite hex_pad_split.
  change (N.of_nat 24) with 24%N.
  rewrite (substring_append (hex_pad 8 _ _) (hex_pad 24 u EmptyString) 8)
    by apply hex_pad_length.
  apply substring_append, hex_pad_length.
Qed.

Lemma hex_alphabet_NoDup : NoDup hex_alphabet.
Proof. apply (bool_decide_unpack _). vm_compute. exact I. Qed.

Lemma hex_digit_inj a b :
  hex_digit a = hex_digit b → (a mod 16 = b mod 16)%N.
Proof.
  unfold hex_digit. intros Heq.
  assert (Ha : (N.to_nat (a mod 16) < 16)%nat)
    by (pose proof (N.mod_upper_bound a 16); lia).
  assert (Hb : (N.to_nat (b mod 16) < 16)%nat)
    by (pose proof (N.mod_upper_bound b 16); lia).
  destruct (lookup_lt_is_Some_2 hex_alphabet (N.to_nat (a mod 16)) Ha) as [x Hx].
  destruct (lookup_lt_is_Some_2 hex_alphabet (N.to_nat (b mod 16)) Hb) as [y Hy].
  rewrite (nth_lookup_Some _ _ _ _ Hx), (nth_lookup_Some _ _ _ _ Hy) in Heq.
  subst y. apply N2Nat.inj.
  exact (NoDup_lookup _ _ _ _ hex_alphabet_NoDup Hx Hy).
Qed.

Lemma hex_pad_inj_iff w a b :
  hex_pad w a EmptyString = hex_pad w b EmptyString
  ↔ (a mod 16 ^ N.of_nat w = b mod 16 ^ N.of_nat w)%N.
Proof.
  revert a b. induction w as [|w IH]; intros a b.
  - simpl. by rewrite !N.mod_1_r.
  - cbn [hex_pad].
    rewrite (hex_pad_acc w (a / 16)), (hex_pad_acc w (b / 16)).
    rewrite Nat2N.inj_succ, N.pow_succ_r', !N.Div0.mod_mul_r.
    assert (Hra : (a mod 16 < 16)%N) by (by apply N.mod_upper_bound).
    assert (Hrb : (b mod 16 < 16)%N) by (by apply N.mod_upper_bound).
    specialize (IH (a / 16)%N (b / 16)%N).
    pose proof (hex_digit_inj a b) as Hinj.
    assert (Hdigit : (a mod 16 = b mod 16)%N → hex_digit a = hex_digit b)
      by (unfold hex_digit; by intros ->).
    revert IH Hra Hrb Hinj Hdigit.
    generalize ((a / 16) mod 16 ^ N.of_nat w)%N ((b / 16) mod 16 ^ N.of_nat w)%N.
    generalize (a mod 16)%N (b mod 16)%N.
    intros ra rb qa qb IH Hra Hrb Hinj Hdigit. split.
    + intros Heq.
      assert (Hhigh : hex_pad w (a / 16) EmptyString
                      = hex_pad w (b / 16) EmptyString).
      { eapply append_inv_same_length; [|exact Heq].
        by rewrite !hex_pad_length. }
      rewrite Hhigh in Heq. apply (inj (append _)) in Heq.
      injection Heq as Hlow%Hinj.
      apply IH in Hhigh. by rewrite Hlow, Hhigh.
    + intros Heq.
      assert (Hlow : ra = rb) by lia.
      assert (Hhigh : qa = qb) by lia.
      apply IH in Hhigh. by rewrite Hhigh, (Hdigit Hlow).
Qed.

(** X5: two requests get the same identifier exactly when their UUIDs
    agree on the bits 96 to 127, the eight leading hexadecimal digits: of
    the 128 bits only these 32 tell requests apart. *)
Theorem unique_id_eq_iff u u' :
  unique_id u = unique_id u'
  ↔ ((u / 2 ^ 96) mod 2 ^ 32 = (u' / 2 ^ 96) mod 2 ^ 32)%N.
Proof.
  rewrite !unique_id_high_digits, hex_pad_inj_iff.
  change (16 ^ N.of_nat 8)%N with (2 ^ 32)%N.
  by change (16 ^ 24)%N with (2 ^ 96)%N.
Qed.

(** X6: requests whose identifiers differ have different scratch files,
    different output files and are handed different paths back. *)
Theorem distinct_ids_distinct_paths cwd u1 u2 :
  unique_id u1 ≠ unique_id u2 →
  scratch_key cwd u1 ≠ scratch_key cwd u2 ∧
  output_file_key cwd u1 ≠ output_file_key cwd u2 ∧
  output_video_path u1 ≠ output_video_path u2.
Proof.
  intros Hne. split; [|split].
  - unfold scratch_key. intros Heq%app_inv_head. apply Hne.
    apply input_filename_inj, (inj Some).
    exact (f_equal (λ l : list string, l !! 1%nat) Heq).
  - unfold output_file_key. intros Heq%app_inv_head. apply Hne.
    apply (inj (append "predict_")), (inj Some).
    exact (f_equal (λ l : list string, l !! 2%nat) Heq).
  - intros Heq. apply Hne.
    apply (f_equal split_sep) in Heq.
    rewrite !split_sep_output_video_path in Heq.
    apply (inj (append "predict_")), (inj Some).
    exact (f_equal (λ l : list string, l !! 2%nat) Heq).
Qed.

Lemma distinct_ids_distinct_paths_witness :
  unique_id uuid_a ≠ unique_id uuid_b ∧
  output_video_path uuid_a ≠ output_video_path uuid_b.
Proof.
  assert (H : unique_id uuid_a ≠ unique_id uuid_b)
    by (vm_compute; discriminate).
  split; [exact H|].
  exact (proj2 (proj2 (distinct_ids_distinct_paths app_dir uuid_a uuid_b H))).
Defined.

(** ** Detections, box by box *)

Lemma for_boxes_spec r bs acc :
  (∀ ds, Forall2 (λ box d, detection_record r box = Ok d) bs ds →
         for_boxes r bs acc = Ok (acc ++ ds)%list) ∧
  (Exists (λ box, ∃ e, detection_record r box = Raise e) bs →
   ∃ e, for_boxes r bs acc = Raise e).
Proof.
  revert acc. induction bs as [|box bs IH]; intros acc; split.
  - intros ds Hds. inversion Hds. simpl. by rewrite app_nil_r.
  - intros Hex. inversion Hex.
  - intros ds Hds. inversion Hds as [|?? d ds' Hd Hrest]; subst. simpl.
    rewrite Hd. simpl. rewrite (proj1 (IH _) ds' Hrest).
    by rewrite <-app_assoc.
  - intros Hex. simpl.
    destruct (detection_record r box) as [d|e] eqn:Hd; [|by exists e].
    simpl. apply IH.
    inversion Hex as [?? [e He]|]; subst; [congruence|done].
Qed.

Lemma all_boxes_cons r results :
  all_boxes (r :: results)
  = (((λ box, (r, box)) <$> default [] (boxes r)) ++ all_boxes results)%list.
Proof.
  unfold all_boxes. cbn [mbind list_bind]. f_equal.
  all: induction (default [] (boxes r)) as [|box bs IH]; [done|];
    cbn [mbind list_bind fmap list_fmap app]; by rewrite IH.
Qed.

Lemma for_results_spec results acc :
  (∀ ds, Forall2 (λ rb d, detection_record rb.1 rb.2 = Ok d)
                 (all_boxes results) ds →
         for_results results acc = Ok (acc ++ ds)%list) ∧
  (Exists (λ rb, ∃ e, detection_record rb.1 rb.2 = Raise e) (all_boxes results) →
   ∃ e, for_results results acc = Raise e).
Proof.
  revert acc. induction results as [|r results IH]; intros acc; split.
  - intros ds Hds. inversion Hds. simpl. by rewrite app_nil_r.
  - intros Hex. inversion Hex.
  - intros ds. rewrite all_boxes_cons.
    intros (ds1 & ds2 & Hds1 & Hds2 & ->)%Forall2_app_inv_l.
    apply (proj1 (Forall2_fmap_l _ _ _ _)) in Hds1. cbn [for_results].
    destruct (boxes r) as [bs|]; cbn [default] in Hds1.
    + rewrite (proj1 (for_boxes_spec r bs acc) ds1 Hds1). simpl.
      rewrite (proj1 (IH _) ds2 Hds2). by rewrite <-app_assoc.
    + inversion Hds1; subst. simpl.
      by rewrite (proj1 (IH _) ds2 Hds2).
  - rewrite all_boxes_cons. intros Hex. cbn [for_results].
    destruct (boxes r) as [bs|]; cbn [default] in Hex.
    + destruct (for_boxes r bs acc) as [acc'|e] eqn:Hbs; [|by exists e].
      simpl. apply IH.
      apply Exists_app in Hex as [Hex|Hex]; [|done].
      apply (proj1 (Exists_fmap _ _ _)) in Hex.
      destruct (proj2 (for_boxes_spec r bs acc) Hex) as [e He]. congruence.
    + simpl. apply IH. apply Exists_app in Hex as [Hex|Hex]; [|done].
      inversion Hex.
Qed.

(** X7: when every box has a class that [names] lists and a row of
    coordinates, the body lists one record per box, in the model's order,
    result by result, and [total_detections] is the number of boxes. *)
Theorem detect_image_records_every_box y upload img results ds :
  Image_open y (file upload) = Ok img →
  yolo_call y img = Ok results →
  Forall2 (λ rb d, detection_record rb.1 rb.2 = Ok d) (all_boxes results) ds →
  detect_image y upload
  = Body (JObj [ ("detections", JList ds);
                 ("total_detections",
                  JInt (Z.of_nat (length (all_boxes results)))) ]).
Proof.
  intros Himg Hres Hds. unfold detect_image.
  rewrite Himg. simpl. rewrite Hres. simpl.
  rewrite (proj1 (for_results_spec results []) ds Hds). simpl.
  unfold detections_body. by rewrite (Forall2_length _ _ _ Hds).
Qed.

Lemma detect_image_records_every_box_witness :
  detect_image sample_vision two_leaves
  = Body (JObj [ ("detections",
                  JList [ JObj [ ("class", JStr "gray_mold");
                                 ("confidence", JFloat (9 # 10));
                                 ("bbox", JList [JFloat 10; JFloat 20;
                                                 JFloat 110; JFloat 220]) ] ]);
                 ("total_detections", JInt 1) ]).
Proof.
  refine (detect_image_records_every_box sample_vision two_leaves
            (file two_leaves) _ _ eq_refl eq_refl _).
  repeat constructor.
Defined.

(** X8: one box whose class [names] does not list, or that has no row
    of coordinates, turns the whole answer into the error body: the
    records appended before it are not returned. *)
Theorem detect_image_all_or_nothing y upload img results :
  Image_open y (file upload) = Ok img →
  yolo_call y img = Ok results →
  Exists (λ rb, ∃ e, detection_record rb.1 rb.2 = Raise e) (all_boxes results) →
  ∃ e, detect_image y upload = Body (error_body "Image detection failed: " e).
Proof.
  intros Himg Hres Hex. unfold detect_image.
  rewrite Himg. simpl. rewrite Hres. simpl.
  destruct (proj2 (for_results_spec results []) Hex) as [e He].
  rewrite He. by exists e.
Qed.

Lemma detect_image_all_or_nothing_witness :
  detection_record {| boxes := Some [sample_box; stray_box];
                      names := sample_names |} sample_box
  = Ok (JObj [ ("class", JStr "gray_mold"); ("confidence", JFloat (9 # 10));
               ("bbox", JList [JFloat 10; JFloat 20; JFloat 110; JFloat 220]) ]) ∧
  ∃ e, detect_image stray_vision two_leaves
       = Body (error_body "Image detection failed: " e).
Proof.
  split; [reflexivity|].
  refine (detect_image_all_or_nothing stray_vision two_leaves
            (file two_leaves) _ eq_refl eq_refl _).
  apply Exists_cons_tl, Exists_cons_hd. by exists (KeyError 7).
Defined.

(** ** [file_iterator] with another chunk size *)

Lemma read_loop_zero rest : read_loop 0 rest = Ok [].
Proof. rewrite read_loop_step. by destruct rest. Qed.

Lemma read_loop_minus_one rest :
  read_loop (-1) rest = Ok match rest with [] => [] | _ => [rest] end.
Proof.
  rewrite read_loop_step. destruct rest as [|b rest]; [done|].
  change (f_read (-1) (b :: rest)) with (Ok (b :: rest, @nil Byte.byte)).
  cbv beta iota. rewrite read_loop_step. reflexivity.
Qed.

Lemma read_loop_below_minus_one size rest :
  (size < -1)%Z → read_loop size rest = Raise ValueError_read_length.
Proof.
  intros Hneg. rewrite read_loop_step. unfold f_read.
  by destruct (Z.ltb_spec size (-1)) as [_|]; [|lia].
Qed.

(** X9: [file_iterator(path, chunk_size)] for any chunk size, on a file
    that can be opened.  A positive size gives chunks of at most that size
    that put together are the file; size 0 ends the stream at once, so
    nothing of the file is sent; size -1 sends a file that is not empty as
    one chunk; with a size below -1 the first [read] raises [ValueError]
    and nothing is sent. *)
Theorem file_iterator_any_chunk_size σ cwd path chunk_size data :
  open_rb σ cwd path = Ok data →
  ((-1 ≤ chunk_size)%Z →
     ∃ chunks,
       consume σ cwd (Generator path chunk_size) = Ok chunks ∧
       ((0 < chunk_size)%Z →
          concat chunks = data ∧
          Forall (λ chunk : bytes, (0 < Z.of_nat (length chunk) ≤ chunk_size)%Z)
                 chunks) ∧
       (chunk_size = 0%Z → chunks = []) ∧
       (chunk_size = (-1)%Z → data ≠ [] → chunks = [data])) ∧
  ((chunk_size < -1)%Z →
     consume σ cwd (Generator path chunk_size) = Raise ValueError_read_length).
Proof.
  intros Hopen.
  assert (Hconsume : consume σ cwd (Generator path chunk_size)
                     = read_loop chunk_size data)
    by (unfold consume; simpl; by rewrite Hopen).
  rewrite Hconsume. split; [|by apply read_loop_below_minus_one].
  intros Hsize.
  assert (Hcases : (0 < chunk_size ∨ chunk_size = 0 ∨ chunk_size = -1)%Z) by lia.
  destruct Hcases as [Hpos|[-> | ->]].
  - destruct (read_loop_returns _ data Hpos) as [chunks Hrun].
    exists chunks. split; [done|]. split; [|split; intros; lia].
    intros _. split; [by eapply read_loop_concat|].
    eapply Forall_impl; [by eapply read_loop_bounded|].
    intros chunk ?. simpl in *. lia.
  - exists []. split; [apply read_loop_zero|].
    split; [intros; lia|]. split; [done|discriminate].
  - eexists. split; [apply read_loop_minus_one|].
    split; [intros; lia|]. split; [discriminate|].
    intros _ Hdata. by destruct data.
Qed.

Lemma file_iterator_any_chunk_size_witness :
  open_rb disk0 app_dir "/etc/passwd" = Ok passwd ∧
  consume disk0 app_dir (Generator "/etc/passwd" 3)
  = Ok [[Byte.x72; Byte.x6f; Byte.x6f]; [Byte.x74]] ∧
  consume disk0 app_dir (Generator "/etc/passwd" 0) = Ok [] ∧
  consume disk0 app_dir (Generator "/etc/passwd" (-1)) = Ok [passwd] ∧
  consume disk0 app_dir (Generator "/etc/passwd" (-2))
  = Raise ValueError_read_length.
Proof.
  assert (H : open_rb disk0 app_dir "/etc/passwd" = Ok passwd)
    by (vm_compute; reflexivity).
  split; [exact H|]. split; [vm_compute; reflexivity|].
  destruct (file_iterator_any_chunk_size disk0 app_dir "/etc/passwd" 0 passwd H)
    as [Hzero _].
  destruct (Hzero ltac:(lia)) as (chunks & Hconsume & _ & Hnil & _).
  split; [by rewrite Hconsume, (Hnil eq_refl)|].
  destruct (file_iterator_any_chunk_size disk0 app_dir "/etc/passwd" (-1) passwd H)
    as [Hall _].
  destruct (Hall ltac:(lia)) as (chunks' & Hconsume' & _ & _ & Hone).
  split; [by rewrite Hconsume', (Hone eq_refl ltac:(discriminate))|].
  destruct (file_iterator_any_chunk_size disk0 app_dir "/etc/passwd" (-2) passwd H)
    as [_ Hraise].
  apply Hraise. lia.
Defined.

(** ** The name of the download *)

Lemma last_app_nonempty {A} (l l' : list A) d :
  l' ≠ [] → List.last (l ++ l') d = List.last l' d.
Proof.
  intros Hne. induction l as [|x l IH]; [done|].
  simpl. rewrite IH. destruct (l ++ l')%list eqn:E; [|done].
  by destruct l, l'.
Qed.

Lemma os_path_basename_join cwd video_path :
  Forall (λ c, proper_name c = true) cwd →
  os_path_basename (os_path_join (os_getcwd cwd) video_path)
  = os_path_basename video_path.
Proof.
  intros Hcwd. destruct (startswith_sep video_path) eqn:Hrel.
  - unfold os_path_join. by rewrite Hrel.
  - unfold os_path_basename. rewrite split_sep_join_cwd by done.
    rewrite (app_comm_cons cwd), last_app_nonempty; [done|].
    apply split_sep_nonempty.
Qed.

(** X10: the download is offered under the last component of the
    requested path, whatever leads to it, and with the media type
    [video/avi] unless [mimetypes] knows better. *)
Theorem get_video_attachment guess cwd video_path σ content media_type headers :
  Forall (λ c, proper_name c = true) cwd →
  get_video guess cwd video_path σ
  = StreamingResponse content media_type headers →
  headers = [("Content-Disposition",
              "attachment; filename=" ++ os_path_basename video_path)] ∧
  media_type = default "video/avi" (guess (gen_file_path content)).
Proof.
  intros Hcwd. unfold get_video, os_getcwd_checked.
  destruct (is_dir σ cwd); [|done]. simpl.
  destruct (os_path_exists σ cwd _); [|done]. simpl.
  intros [= <- <- <-]. by rewrite os_path_basename_join.
Qed.

Lemma get_video_attachment_witness :
  Forall (λ c, proper_name c = true) app_dir ∧
  get_video sample_guess_type app_dir
    "runs/detect/predict_1b9d6bcd/input_1b9d6bcd.avi" disk_after_clip_a
  = StreamingResponse
      (file_iterator "/srv/app/runs/detect/predict_1b9d6bcd/input_1b9d6bcd.avi")
      "video/x-msvideo"
      [("Content-Disposition", "attachment; filename=input_1b9d6bcd.avi")] ∧
  [("Content-Disposition", "attachment; filename=input_1b9d6bcd.avi")]
  = [("Content-Disposition",
      "attachment; filename="
        ++ os_path_basename "runs/detect/predict_1b9d6bcd/input_1b9d6bcd.avi")].
Proof.
  assert (H1 : Forall (λ c, proper_name c = true) app_dir)
    by (repeat constructor).
  assert (H2 : get_video sample_guess_type app_dir
                 "runs/detect/predict_1b9d6bcd/input_1b9d6bcd.avi"
                 disk_after_clip_a
               = StreamingResponse
                   (file_iterator
                      "/srv/app/runs/detect/predict_1b9d6bcd/input_1b9d6bcd.avi")
                   "video/x-msvideo"
                   [("Content-Disposition",
                     "attachment; filename=input_1b9d6bcd.avi")])
    by (vm_compute; reflexivity).
  split; [exact H1|]. split; [exact H2|].
  exact (proj1 (get_video_attachment _ _ _ _ _ _ _ H1 H2)).
Defined.

(** ** When a health prediction fails *)

Lemma health_body_not_error pred confidence :
  ¬ is_error_body (health_body pred confidence).
Proof. intros [msg Hmsg]. discriminate Hmsg. Qed.

(** X11: [POST /predict/health] answers the error body exactly when the
    scaler or the classifier raises, or the classifier returns no
    prediction, no probability row or an empty one; in every other case the
    answer is the success body. *)
Theorem predict_health_error_iff m data :
  (∃ body, predict_health m data = Body body ∧ is_error_body body)
  ↔ ¬ ∃ pred top, model_answers m data pred top.
Proof.
  split.
  - intros (body & Hbody & Herr) (pred & top & scaled & preds & proba & probas
                                  & Hs & Hp & Hpp & Hmax).
    rewrite (predict_health_answer _ _ _ _ _ _ _ _ Hs Hp Hpp Hmax) in Hbody.
    injection Hbody as <-. by eapply health_body_not_error.
  - intros Hno. unfold predict_health.
    destruct (scaler_transform m [input_row data]) as [scaled|e] eqn:Hs;
      simpl; [|by eexists; split; [|eexists]].
    destruct (dt_predict m scaled) as [[|pred preds]|e] eqn:Hp;
      simpl; [by eexists; split; [|eexists]| |by eexists; split; [|eexists]].
    destruct (dt_predict_proba m scaled) as [[|proba probas]|e] eqn:Hpp;
      simpl; [by eexists; split; [|eexists]| |by eexists; split; [|eexists]].
    destruct (array_max proba) as [top|e] eqn:Hmax;
      simpl; [|by eexists; split; [|eexists]].
    destruct Hno. exists pred, top, scaled, preds, proba, probas. done.
Qed.

(** * The dashboard and the API together *)

(** ** The sensor page *)

Lemma health_body_status pred confidence :
  py_getitem (health_body pred confidence) "plant_health_status"
  = Ok (JStr (default "Unknown" (label_map !! pred))).
Proof. reflexivity. Qed.

Lemma health_body_confidence pred confidence :
  py_getitem (health_body pred confidence) "confidence"
  = Ok (JStr (format_2f confidence ++ "%")).
Proof. reflexivity. Qed.

Lemma label_cases pred :
  (pred = 0%Z ∧ default "Unknown" (label_map !! pred) = "Healthy") ∨
  (pred = 1%Z ∧ default "Unknown" (label_map !! pred) = "Moderate Stress") ∨
  (pred = 2%Z ∧ default "Unknown" (label_map !! pred) = "High Stress") ∨
  ((pred < 0 ∨ 2 < pred)%Z ∧ default "Unknown" (label_map !! pred) = "Unknown").
Proof.
  destruct (decide (pred = 0%Z)) as [->|]; [by left|].
  destruct (decide (pred = 1%Z)) as [->|]; [by right; left|].
  destruct (decide (pred = 2%Z)) as [->|]; [by right; right; left|].
  right; right; right. split; [lia|].
  by rewrite label_map_lookup_unknown by lia.
Qed.

(** X12: the sensor page renders every success body of
    [POST /predict/health] without an exception: the banner is green for
    the code 0, yellow for 1 and red for 2 and for every unknown code, and
    the confidence shown is the API's text. *)
Theorem sensor_prediction_banner repr post s resp m pred top body σ :
  post (API_URL ++ "/predict/health") (payload s) = Ok resp →
  json_body resp = Ok body →
  predict_health m (payload s) = Body body →
  model_answers m (payload s) pred top →
  sensor_prediction repr post s ([], σ)
  = (Ok (),
     ([ st_spinner "Analyzing sensor data...";
        st_markdown "### Prediction Results";
        st_columns (JList [JInt 3; JInt 1]);
        st_column "col_a"; health_banner pred; st_end;
        st_column "col_b";
        st_metric "Confidence" (JStr (format_2f (top * 100) ++ "%")); st_end;
        st_expander "📝 Detailed JSON Response"; st_json body; st_end;
        st_end ], σ)).
Proof.
  intros Hpost Hjson Hbody (scaled & preds & proba & probas & Hs & Hp & Hpp & Hmax).
  rewrite (predict_health_answer _ _ _ _ _ _ _ _ Hs Hp Hpp Hmax) in Hbody.
  injection Hbody as <-.
  unfold sensor_prediction, within, try_except, mbind, page_bind, raise_of, show.
  cbn [fst snd app]. rewrite Hpost, Hjson.
  rewrite health_body_status, health_body_confidence.
  destruct (label_cases pred) as [[-> ->]|[[-> ->]|[[-> ->]|[Hout ->]]]];
    [reflexivity..|].
  unfold health_banner.
  rewrite !bool_decide_eq_false_2 by lia. reflexivity.
Qed.

Lemma sample_model_answers :
  model_answers (constant_model 1) (payload sample_sliders) 1 1.
Proof. by eexists _, _, _, _. Qed.

Lemma sensor_prediction_banner_witness :
  model_answers (constant_model 1) (payload sample_sliders) 1 1 ∧
  (sensor_prediction sample_repr
     (λ _ data, Ok (json_response (health_body 1 (1 * 100))))
     sample_sliders ([], ∅)).2.1 !! 4%nat
  = Some (st_warning "🟡 **Moderate Stress**").
Proof.
  assert (H := sample_model_answers). split; [exact H|].
  by rewrite (sensor_prediction_banner sample_repr
                (λ _ data, Ok (json_response (health_body 1 (1 * 100))))
                sample_sliders _ (constant_model 1) 1 1 _ ∅
                eq_refl eq_refl eq_refl H).
Defined.

(** X13: when [POST /predict/health] answers its error body, the
    sensor page does not show the API's message: reading
    [result['plant_health_status']] raises [KeyError], and what the user
    sees is the name of the missing key. *)
Theorem sensor_prediction_hides_api_error repr post s resp m body σ :
  post (API_URL ++ "/predict/health") (payload s) = Ok resp →
  json_body resp = Ok body →
  predict_health m (payload s) = Body body →
  is_error_body body →
  sensor_prediction repr post s ([], σ)
  = (Ok (),
     ([ st_spinner "Analyzing sensor data...";
        st_markdown "### Prediction Results";
        st_columns (JList [JInt 3; JInt 1]);
        st_column "col_a"; st_end;
        st_error "🚨 **Error:** 'plant_health_status'";
        st_end ], σ)).
Proof.
  intros Hpost Hjson _ [msg ->].
  unfold sensor_prediction, within, try_except, mbind, page_bind, raise_of, show.
  cbn [fst snd app]. by rewrite Hpost, Hjson.
Qed.

Lemma sensor_prediction_hides_api_error_witness :
  is_error_body (JObj [("error", JStr "Prediction failed: bad input")]) ∧
  (sensor_prediction sample_repr
     (λ _ data, Ok (json_response
                      (JObj [("error", JStr "Prediction failed: bad input")])))
     sample_sliders ([], ∅)).2.1 !! 5%nat
  = Some (st_error "🚨 **Error:** 'plant_health_status'").
Proof.
  assert (H : is_error_body (JObj [("error", JStr "Prediction failed: bad input")]))
    by (by eexists).
  split; [exact H|].
  by rewrite (sensor_prediction_hides_api_error sample_repr
                (λ _ data, Ok (json_response
                   (JObj [("error", JStr "Prediction failed: bad input")])))
                sample_sliders _
                {| scaler_transform := λ _, Raise (Exn "ValueError" "bad input");
                   dt_predict := λ _, Ok [];
                   dt_predict_proba := λ _, Ok [] |}
                _ ∅ eq_refl eq_refl eq_refl H).
Defined.

(** ** The image page *)

Lemma detect_image_body_cases y upload :
  ∃ body, detect_image y upload = Body body ∧
    (is_error_body body ∨
     ∃ ds, body = detections_body ds ∧ Forall detection_shaped ds).
Proof.
  unfold detect_image.
  destruct (Image_open y (file upload)) as [img|e]; simpl;
    [|eexists; split; [done|left; by eexists]].
  destruct (yolo_call y img) as [results|e]; simpl;
    [|eexists; split; [done|left; by eexists]].
  destruct (for_results results []) as [ds|e] eqn:Hds; simpl;
    [|eexists; split; [done|left; by eexists]].
  eexists. split; [done|]. right. exists ds. split; [done|].
  by eapply for_results_shaped.
Qed.

(** X14: when [POST /detect/image] answers its error body (an upload
    that is no image, a failing model), the image page shows neither an
    error nor the API's message but "No plants detected". *)
Theorem image_detection_hides_api_error repr post y upload resp body σ :
  post (API_URL ++ "/detect/image") (file upload) = Ok resp →
  json_body resp = Ok body →
  detect_image y upload = Body body →
  is_error_body body →
  image_detection repr post (file upload) ([], σ)
  = (Ok (),
     ([ st_spinner "Detecting objects in image...";
        st_info "🌱 **No plants detected**";
        st_end ], σ)).
Proof.
  intros Hpost Hjson _ [msg ->].
  unfold image_detection, within, try_except, mbind, page_bind, raise_of, show.
  cbn [fst snd app]. by rewrite Hpost, Hjson.
Qed.

Lemma image_detection_hides_api_error_witness :
  detect_image sample_vision
    {| filename := "empty.png"; content_type := "image/png"; file := [] |}
  = Body (JObj [("error",
                 JStr "Image detection failed: cannot identify image file")]) ∧
  (image_detection sample_repr
     (λ _ data, Ok (json_response
        (JObj [("error",
                JStr "Image detection failed: cannot identify image file")])))
     [] ([], ∅)).2.1
  = [ st_spinner "Detecting objects in image...";
      st_info "🌱 **No plants detected**"; st_end ].
Proof.
  split; [reflexivity|].
  by rewrite (image_detection_hides_api_error sample_repr
                (λ _ data, Ok (json_response
                   (JObj [("error",
                           JStr "Image detection failed: cannot identify image file")])))
                sample_vision
                {| filename := "empty.png"; content_type := "image/png";
                   file := [] |}
                _ _ ∅ eq_refl eq_refl eq_refl (ex_intro _ _ eq_refl)).
Defined.

Lemma show_detections_shaped repr i ds shown σ :
  Forall detection_shaped ds →
  ∃ calls,
    show_detections repr i ds (shown, σ) = (Ok (), (shown ++ calls, σ)%list) ∧
    Forall (λ c, is_st_error c = false) calls ∧
    length (filter (λ c, is_expander c = true) calls) = length ds.
Proof.
  intros Hds. revert i shown.
  induction Hds as [|d ds (class & q & x1 & y1 & x2 & y2 & ->) _ IH];
    intros i shown.
  - exists []. by rewrite app_nil_r.
  - cbn [show_detections].
    unfold within, mbind, page_bind, raise_of, show. cbn [fst snd].
    change (py_getitem (JObj _) "class") with (Ok (JStr class)).
    change (py_getitem (JObj _) "confidence") with (Ok (JFloat q)).
    change (py_getitem (JObj _) "bbox")
      with (Ok (JList [JFloat x1; JFloat y1; JFloat x2; JFloat y2])).
    cbn [format_pct1 fst snd].
    match goal with
    | |- context [show_detections repr (i + 1) ds (?sh, σ)] =>
        destruct (IH (i + 1)%Z sh) as (calls & Hrun & Hnoerr & Hcount);
        fold (@mbind page _) in Hrun
    end.
    eexists (_ :: _ :: _ :: _ :: calls).
    unfold mbind, page_bind in Hrun. rewrite Hrun.
    split; [by rewrite <-!app_assoc|]. split.
    + by repeat constructor.
    + rewrite filter_cons_True by done. simpl.
      rewrite !filter_cons_False by done. by rewrite Hcount.
Qed.

(** X15: the image page renders every success body of
    [POST /detect/image] without an exception and without an error
    message, and opens one expander per detection record. *)
Theorem image_detection_renders_success repr post y upload resp body σ :
  post (API_URL ++ "/detect/image") (file upload) = Ok resp →
  json_body resp = Ok body →
  detect_image y upload = Body body →
  ¬ is_error_body body →
  ∃ ds calls,
    body = detections_body ds ∧
    image_detection repr post (file upload) ([], σ) = (Ok (), (calls, σ)) ∧
    Forall (λ c, is_st_error c = false) calls ∧
    length (filter (λ c, is_expander c = true) calls) = length ds.
Proof.
  intros Hpost Hjson Hbody Hok.
  destruct (detect_image_body_cases y upload) as (b & Hb & [Herr|(ds & -> & Hds)]);
    rewrite Hbody in Hb; injection Hb as ->; [done|].
  exists ds.
  unfold image_detection, within, try_except, mbind, page_bind, raise_of, show.
  cbn [fst snd app]. rewrite Hpost, Hjson.
  change (py_in "detections" (detections_body ds)) with (Ok true).
  change (py_getitem (detections_body ds) "total_detections")
    with (Ok (JInt (Z.of_nat (length ds)))).
  change (py_getitem (detections_body ds) "detections") with (Ok (JList ds)).
  cbn [py_gt_0 py_iter py_format].
  destruct ds as [|d ds].
  - eexists. split; [done|]. split; [reflexivity|]. split; [|done].
    by repeat constructor.
  - replace (0 <? Z.of_nat (length (d :: ds)))%Z with true
      by (symmetry; apply Z.ltb_lt; simpl; lia).
    cbn [fst snd app].
    match goal with
    | |- context [show_detections repr 1 (d :: ds) (?sh, σ)] =>
        destruct (show_detections_shaped repr 1 (d :: ds) sh σ Hds)
          as (calls & Hrun & Hnoerr & Hcount)
    end.
    fold (@mbind page _) in Hrun. unfold mbind, page_bind in Hrun.
    rewrite Hrun. cbn [fst snd].
    exists ([ st_spinner "Detecting objects in image...";
              st_success ("✅ **Found " ++ pretty (Z.of_nat (length (d :: ds)))
                            ++ " detection(s)**") ] ++ calls ++ [st_end])%list.
    split; [done|]. split; [by rewrite <-app_assoc|]. split.
    + apply Forall_app. split; [by repeat constructor|].
      apply Forall_app. split; [done|by repeat constructor].
    + rewrite !filter_app, !length_app, Hcount.
      rewrite !filter_cons_False, filter_nil by done. simpl. lia.
Qed.

Lemma image_detection_renders_success_witness :
  ¬ is_error_body (detections_body
       [ JObj [ ("class", JStr "gray_mold"); ("confidence", JFloat (9 # 10));
                ("bbox", JList [JFloat 10; JFloat 20; JFloat 110; JFloat 220]) ] ]) ∧
  ∃ ds calls,
    image_detection sample_repr
      (λ _ data, Ok (json_response (detections_body ds)))
      (file two_leaves) ([], ∅) = (Ok (), (calls, ∅)) ∧
    length (filter (λ c, is_expander c = true) calls) = 1%nat.
Proof.
  assert (Hok : ¬ is_error_body (detections_body
       [ JObj [ ("class", JStr "gray_mold"); ("confidence", JFloat (9 # 10));
                ("bbox", JList [JFloat 10; JFloat 20; JFloat 110; JFloat 220]) ] ]))
    by (intros [msg Hmsg]; discriminate Hmsg).
  split; [exact Hok|].
  destruct (image_detection_renders_success sample_repr
              (λ _ data, Ok (json_response (detections_body
                 [ JObj [ ("class", JStr "gray_mold");
                          ("confidence", JFloat (9 # 10));
                          ("bbox", JList [JFloat 10; JFloat 20;
                                          JFloat 110; JFloat 220]) ] ])))
              sample_vision two_leaves _ _ ∅ eq_refl eq_refl eq_refl Hok)
    as (ds & calls & Hbody & Hrun & _ & Hcount).
  injection Hbody as <-.
  exists [ JObj [ ("class", JStr "gray_mold"); ("confidence", JFloat (9 # 10));
                  ("bbox", JList [JFloat 10; JFloat 20; JFloat 110; JFloat 220]) ] ],
         calls.
  split; [exact Hrun|exact Hcount].
Defined.

(** ** The video page and the dashboard's disk *)

Lemma locate_new_temp_input (σ : fs) cwd :
  locate_new σ cwd temp_input
  = if is_dir σ cwd then Some (cwd ++ [temp_input])%list else None.
Proof. reflexivity. Qed.

Lemma resolve_temp_input (σ : fs) cwd :
  resolve σ cwd temp_input
  = if is_dir σ cwd
    then if entry_exists σ (cwd ++ [temp_input])
         then Some (cwd ++ [temp_input])%list else None
    else None.
Proof. reflexivity. Qed.

Lemma write_temp_input σ cwd data :
  is_dir σ cwd = true →
  σ !! (cwd ++ [temp_input])%list ≠ Some Dir →
  write_file cwd temp_input data σ
  = (Ok (), <[(cwd ++ [temp_input])%list := File data]> σ).
Proof.
  intros Hdir Hfree. unfold write_file.
  rewrite locate_new_temp_input, Hdir.
  by destruct (σ !! (cwd ++ [temp_input])%list) as [[]|].
Qed.

(** Writing the temporary file raises and changes nothing when the
    directory is gone or the name is taken by a directory. *)
Lemma write_temp_input_fails σ cwd data :
  is_dir σ cwd = false ∨ σ !! (cwd ++ [temp_input])%list = Some Dir →
  ∃ e, write_file cwd temp_input data σ = (Raise e, σ).
Proof.
  unfold write_file. rewrite locate_new_temp_input.
  intros [->| Htaken]; [by eexists|].
  destruct (is_dir σ cwd); [|by eexists]. rewrite Htaken. by eexists.
Qed.

Lemma resolve_written_temp_input (σ : fs) cwd data :
  is_dir σ cwd = true →
  resolve (<[(cwd ++ [temp_input])%list := File data]> σ) cwd temp_input
  = Some (cwd ++ [temp_input])%list.
Proof.
  intros Hdir. rewrite resolve_temp_input, is_dir_insert_snoc by done.
  rewrite entry_exists_snoc, lookup_insert_eq.
  by rewrite bool_decide_eq_true_2 by eauto.
Qed.

Lemma open_written_temp_input (σ : fs) cwd data :
  is_dir σ cwd = true →
  open_rb (<[(cwd ++ [temp_input])%list := File data]> σ) cwd temp_input
  = Ok data.
Proof.
  intros Hdir. unfold open_rb.
  by rewrite resolve_written_temp_input, lookup_insert_eq by done.
Qed.

Lemma exists_written_temp_input (σ : fs) cwd data :
  is_dir σ cwd = true →
  os_path_exists (<[(cwd ++ [temp_input])%list := File data]> σ) cwd temp_input
  = true.
Proof.
  intros Hdir. unfold os_path_exists.
  rewrite resolve_written_temp_input by done.
  by rewrite bool_decide_eq_true_2 by eauto.
Qed.

Lemma remove_written_temp_input (σ : fs) cwd data :
  is_dir σ cwd = true →
  os_remove cwd temp_input (<[(cwd ++ [temp_input])%list := File data]> σ)
  = (Ok (), delete (cwd ++ [temp_input])%list σ).
Proof.
  intros Hdir. unfold os_remove.
  rewrite resolve_written_temp_input, lookup_insert_eq by done.
  by rewrite delete_insert_eq.
Qed.

Lemma write_temp_input_inv σ cwd data σ1 :
  write_file cwd temp_input data σ = (Ok (), σ1) →
  σ1 = <[(cwd ++ [temp_input])%list := File data]> σ.
Proof.
  unfold write_file. rewrite locate_new_temp_input.
  destruct (is_dir σ cwd); [|done].
  destruct (σ !! (cwd ++ [temp_input])%list) as [[]|]; by intros [= <-].
Qed.

Lemma remove_temp_input_inv σ cwd σ' :
  os_remove cwd temp_input σ = (Ok (), σ') →
  σ' = delete (cwd ++ [temp_input])%list σ.
Proof.
  unfold os_remove. rewrite resolve_temp_input.
  destruct (is_dir σ cwd); [|done].
  destruct (entry_exists σ (cwd ++ [temp_input])); [|done].
  destruct (σ !! (cwd ++ [temp_input])%list) as [[]|]; by intros [= <-].
Qed.

Lemma exists_deleted_temp_input (σ : fs) cwd :
  os_path_exists (delete (cwd ++ [temp_input])%list σ) cwd temp_input = false.
Proof.
  unfold os_path_exists. rewrite resolve_temp_input.
  destruct (is_dir _ cwd); [|by apply bool_decide_eq_false_2; intros [? ?]].
  rewrite entry_exists_snoc, lookup_delete_eq.
  rewrite (bool_decide_eq_false_2 (is_Some None)) by (by intros [? ?]).
  apply bool_decide_eq_false_2. by intros [? ?].
Qed.

(** What raises changes nothing on the disk, for the two file operations
    of the page. *)
Lemma write_file_raise cwd path data σ e σ' :
  write_file cwd path data σ = (Raise e, σ') → σ' = σ.
Proof.
  unfold write_file. destruct (locate_new σ cwd path) as [p|]; [|congruence].
  destruct (σ !! p) as [[]|]; congruence.
Qed.

Lemma os_remove_raise cwd path σ e σ' :
  os_remove cwd path σ = (Raise e, σ') → σ' = σ.
Proof.
  unfold os_remove. destruct (resolve σ cwd path) as [p|]; [|congruence].
  destruct (σ !! p) as [[]|]; congruence.
Qed.

(** Entries kept and final states, action by action. *)
Lemma keeps_bind {A B : Type} (k : list string) (m : page A) (f : A → page B) :
  keeps k m → (∀ a, keeps k (f a)) → keeps k (m ≫= f).
Proof.
  intros Hm Hf s. unfold mbind, page_bind.
  specialize (Hm s). destruct (m s) as [[a|e] s1]; [|done].
  rewrite <-Hm. apply Hf.
Qed.

Lemma keeps_show (k : list string) c : keeps k (show c).
Proof. by intros s. Qed.

Lemma keeps_raise_of {A : Type} (k : list string) (r : result A) : keeps k (raise_of r).
Proof. by intros s. Qed.

Lemma keeps_mret {A : Type} (k : list string) (a : A) : keeps k (mret a).
Proof. by intros s. Qed.

Lemma keeps_within {A : Type} (k : list string) c (m : page A) : keeps k m → keeps k (within c m).
Proof.
  intros Hm s. unfold within.
  specialize (Hm (s.1 ++ [c], s.2)%list).
  by destruct (m (s.1 ++ [c], s.2)%list) as [r s1].
Qed.

Lemma keeps_on_disk {A : Type} (k : list string) (m : io A) :
  (∀ σ, (m σ).2 !! k = σ !! k) → keeps k (on_disk m).
Proof.
  intros Hm s. unfold on_disk. specialize (Hm s.2).
  by destruct (m s.2) as [r σ'].
Qed.

Lemma keeps_if {A : Type} (k : list string) (b : bool) (m1 m2 : page A) :
  keeps k m1 → keeps k m2 → keeps k (if b then m1 else m2).
Proof. by destruct b. Qed.

Lemma ends_with_bind {A B : Type} (Q : fs → Prop) (m : page A) (f : A → page B) :
  (∀ a, ends_with Q (f a)) → ends_with Q (m ≫= f).
Proof.
  intros Hf s. unfold mbind, page_bind.
  destruct (m s) as [[a|e] s1]; [apply Hf|done].
Qed.

Lemma ends_with_within {A : Type} (Q : fs → Prop) c (m : page A) :
  ends_with Q m → ends_with Q (within c m).
Proof.
  intros Hm s. unfold within.
  specialize (Hm (s.1 ++ [c], s.2)%list).
  by destruct (m (s.1 ++ [c], s.2)%list) as [[a|e] s1].
Qed.

(** The page touches one entry of the disk, [temp_input.mp4]. *)
Lemma video_detection_on_keeps repr post get cwd data k :
  k ≠ (cwd ++ [temp_input])%list →
  (∀ url f τ, (post url f τ).2 !! k = τ !! k) →
  (∀ url τ, (get url τ).2 !! k = τ !! k) →
  keeps k (video_detection_on repr post get cwd data).
Proof.
  intros Hk Hpost Hget.
  assert (Hwrite : ∀ σ, (write_file cwd temp_input data σ).2 !! k = σ !! k).
  { intros σ. destruct (write_file cwd temp_input data σ) as [[[]|e] σ1] eqn:Hw.
    - apply write_temp_input_inv in Hw as ->. by apply lookup_insert_ne.
    - by apply write_file_raise in Hw as ->. }
  assert (Hremove : ∀ σ, (os_remove cwd temp_input σ).2 !! k = σ !! k).
  { intros σ. destruct (os_remove cwd temp_input σ) as [[[]|e] σ1] eqn:Hr.
    - apply remove_temp_input_inv in Hr as ->. by apply lookup_delete_ne.
    - by apply os_remove_raise in Hr as ->. }
  unfold video_detection_on, within_file, show_annotated.
  repeat first
    [ apply keeps_within | apply keeps_bind | intros ? | apply keeps_show
    | apply keeps_raise_of | apply keeps_mret | apply keeps_if
    | apply keeps_on_disk; first [exact Hwrite | exact Hremove | by intros | done] ].
Qed.

(** After the last lines of a run that raises nothing,
    [temp_input.mp4] does not exist. *)
Lemma video_detection_on_ends repr post get cwd data :
  ends_with (λ σ', os_path_exists σ' cwd temp_input = false)
            (video_detection_on repr post get cwd data).
Proof.
  unfold video_detection_on.
  apply ends_with_within.
  do 9 (apply ends_with_bind; intros ?).
  intros s. unfold mbind, page_bind, on_disk, show, mret, page_ret.
  cbn [fst snd].
  destruct (os_path_exists s.2 cwd temp_input) eqn:Hex; cbn [fst snd]; [|done].
  destruct (os_remove cwd temp_input s.2) as [[[]|e] σ4] eqn:Hrm;
    cbn [fst snd]; [|done].
  apply remove_temp_input_inv in Hrm as ->. apply exists_deleted_temp_input.
Qed.

(** How a run of the video page ends, when the temporary file can be
    written: either without an exception and with the temporary file
    removed, or with an exception and the upload still in the file. *)
Lemma video_detection_ends repr post get cwd data σ :
  is_dir σ cwd = true →
  σ !! (cwd ++ [temp_input])%list ≠ Some Dir →
  (∃ calls, video_detection repr post get cwd data ([], σ)
            = (Ok (), (calls, delete (cwd ++ [temp_input])%list σ))) ∨
  (∃ e calls, video_detection repr post get cwd data ([], σ)
              = (Raise e, (calls, <[(cwd ++ [temp_input])%list := File data]> σ))).
Proof.
  intros Hdir Hfree.
  unfold video_detection, video_detection_on, within, within_file, on_disk, show_annotated,
    mbind, page_bind, mret, page_ret, raise_of, show, within.
  cbn [fst snd app].
  rewrite write_temp_input by done. cbn [fst snd app].
  rewrite open_written_temp_input by done. cbn [fst snd app].
  assert (Hexists := exists_written_temp_input σ cwd data Hdir).
  assert (Hremove := remove_written_temp_input σ cwd data Hdir).
  destruct (post (API_URL ++ "/detect/video") data) as [response|e];
    [|right; by eexists _, _].
  cbn [fst snd app].
  destruct (json_body response) as [result|e]; [|right; by eexists _, _].
  destruct (py_in "error" result) as [[]|e]; [| |right; by eexists _, _].
  - destruct (py_getitem result "error") as [error|e];
      cbn [fst snd app]; [|right; by eexists _, _].
    rewrite Hexists; cbn [fst snd app]; rewrite Hremove. left. by eexists.
  - cbn [fst snd app].
    destruct (py_getitem result "output_video_path") as [video_path|e];
      [|right; by eexists _, _].
    destruct (get _) as [video_response|e]; [|right; by eexists _, _].
    destruct (bool_decide (status_code video_response = 200%Z)).
    + cbn [fst snd app].
      destruct (py_getitem result "total_frames") as [total_frames|e];
        cbn [fst snd app]; [|right; by eexists _, _].
      rewrite Hexists; cbn [fst snd app]; rewrite Hremove. left. by eexists.
    + cbn [fst snd app]. rewrite Hexists; cbn [fst snd app]; rewrite Hremove. left. by eexists.
Qed.

Lemma video_detection_not_ready repr post get cwd data σ :
  is_dir σ cwd = false ∨ σ !! (cwd ++ [temp_input])%list = Some Dir →
  ∃ e, (video_detection repr post get cwd data ([], σ)).1 = Raise e.
Proof.
  intros Hnot.
  destruct (write_temp_input_fails σ cwd data Hnot) as [e He].
  exists e.
  unfold video_detection, video_detection_on, within, on_disk, mbind, page_bind, show.
  cbn [fst snd app]. by rewrite He.
Qed.

(** X16: the API answers on the machine the dashboard runs on, so the
    two requests of the video page may change the disk the page works on.
    Whatever they do, after a run that ends without an exception
    [temp_input.mp4] does not exist, whether or not there was such a file
    before; and the page itself touches no other entry: an entry that the
    requests leave alone is after the run what it was before. *)
Theorem video_detection_cleans_up repr post get cwd data σ :
  (video_detection_on repr post get cwd data ([], σ)).1 = Ok () →
  os_path_exists (video_detection_on repr post get cwd data ([], σ)).2.2
                 cwd temp_input = false ∧
  ∀ k, k ≠ (cwd ++ [temp_input])%list →
       (∀ url f τ, (post url f τ).2 !! k = τ !! k) →
       (∀ url τ, (get url τ).2 !! k = τ !! k) →
       (video_detection_on repr post get cwd data ([], σ)).2.2 !! k = σ !! k.
Proof.
  intros Hok. split.
  - pose proof (video_detection_on_ends repr post get cwd data ([], σ)) as Hend.
    destruct (video_detection_on repr post get cwd data ([], σ))
      as [[[]|e] s']; [exact Hend|discriminate Hok].
  - intros k Hk Hpost Hget.
    apply (video_detection_on_keeps repr post get cwd data k Hk Hpost Hget).
Qed.

Lemma video_detection_cleans_up_witness :
  (video_detection_on sample_repr local_post local_get ["home"] (file clip_a)
     ([], home_disk)).1 = Ok () ∧
  os_path_exists
    (video_detection_on sample_repr local_post local_get ["home"] (file clip_a)
       ([], home_disk)).2.2 ["home"] temp_input = false ∧
  (video_detection_on sample_repr local_post local_get ["home"] (file clip_a)
     ([], home_disk)).2.2
    !! ["home"; "runs"; "detect"; "predict_1b9d6bcd"; "input_1b9d6bcd.avi"]
  = Some (File (file clip_a)) ∧
  (video_detection_on sample_repr local_post local_get ["home"] (file clip_a)
     ([], home_disk)).2.2 !! ["home"] = Some Dir.
Proof.
  assert (H : (video_detection_on sample_repr local_post local_get ["home"]
                 (file clip_a) ([], home_disk)).1 = Ok ())
    by (vm_compute; reflexivity).
  split; [exact H|].
  destruct (video_detection_cleans_up sample_repr local_post local_get
              ["home"] (file clip_a) home_disk H) as [Hgone Hkept].
  split; [exact Hgone|]. split; [vm_compute; reflexivity|].
  rewrite (Hkept ["home"]); [reflexivity|discriminate| |done].
  intros url f τ. unfold local_post. cbn [snd].
  by rewrite !lookup_insert_ne by discriminate.
Defined.

(** X17: nothing on the video page catches an exception.  When a
    request raises (a timeout, a refused connection), the run ends with
    that exception after the progress bar reached 40, and, as after every
    exception later in the run, [temp_input.mp4] stays on the dashboard's
    disk with the upload in it. *)
Theorem video_detection_leaves_upload repr post get cwd data σ :
  is_dir σ cwd = true →
  σ !! (cwd ++ [temp_input])%list ≠ Some Dir →
  (∀ e, (video_detection repr post get cwd data ([], σ)).1 = Raise e →
        (video_detection repr post get cwd data ([], σ)).2.2
        = <[(cwd ++ [temp_input])%list := File data]> σ) ∧
  (∀ e, post (API_URL ++ "/detect/video") data = Raise e →
        video_detection repr post get cwd data ([], σ)
        = (Raise e,
           ([ st_spinner "🔍 **Processing Video...** (This may take 1-3 minutes)";
              st_progress 0; progress_bar_progress 10;
              progress_bar_progress 40; st_end ],
            <[(cwd ++ [temp_input])%list := File data]> σ))).
Proof.
  intros Hdir Hfree. split.
  - intros e He.
    destruct (video_detection_ends repr post get cwd data σ Hdir Hfree)
      as [[calls Hrun]|(e' & calls & Hrun)]; rewrite Hrun in He |- *; done.
  - intros e Hpost.
    unfold video_detection, video_detection_on, within, within_file, on_disk,
      mbind, page_bind, raise_of, show.
    cbn [fst snd app].
    rewrite write_temp_input by done. cbn [fst snd app].
    rewrite open_written_temp_input by done. cbn [fst snd app].
    by rewrite Hpost.
Qed.

Lemma video_detection_leaves_upload_witness :
  is_dir disk0 app_dir = true ∧
  disk0 !! (app_dir ++ [temp_input])%list ≠ Some Dir ∧
  (video_detection sample_repr
     (λ _ data, Raise (Exn "ReadTimeout" "timed out"))
     (λ _, Raise (Exn "ConnectionError" "refused"))
     app_dir (file clip_a) ([], disk0)).1
  = Raise (Exn "ReadTimeout" "timed out") ∧
  (video_detection sample_repr
     (λ _ data, Raise (Exn "ReadTimeout" "timed out"))
     (λ _, Raise (Exn "ConnectionError" "refused"))
     app_dir (file clip_a) ([], disk0)).2.2
    !! ["srv"; "app"; "temp_input.mp4"] = Some (File (file clip_a)).
Proof.
  assert (H1 : is_dir disk0 app_dir = true) by reflexivity.
  assert (H2 : disk0 !! (app_dir ++ [temp_input])%list ≠ Some Dir)
    by (by vm_compute).
  split; [exact H1|]. split; [exact H2|].
  destruct (video_detection_leaves_upload sample_repr
              (λ _ data, Raise (Exn "ReadTimeout" "timed out"))
              (λ _, Raise (Exn "ConnectionError" "refused"))
              app_dir (file clip_a) disk0 H1 H2) as [_ Hrun].
  rewrite (Hrun _ eq_refl). split; [done|]. apply lookup_insert_eq.
Defined.

(** X18: when [POST /detect/video] answers its error body, the video
    page shows the API's message, asks for no video and removes
    [temp_input.mp4]. *)
Theorem video_detection_shows_api_error repr post get cwd y scwd u upload sσ
    resp body σ :
  is_dir σ cwd = true →
  σ !! (cwd ++ [temp_input])%list ≠ Some Dir →
  post (API_URL ++ "/detect/video") (file upload) = Ok resp →
  json_body resp = Ok body →
  (detect_video y scwd u upload sσ).1 = Body body →
  is_error_body body →
  ∃ msg,
    body = JObj [("error", JStr msg)] ∧
    video_detection repr post get cwd (file upload) ([], σ)
    = (Ok (),
       ([ st_spinner "🔍 **Processing Video...** (This may take 1-3 minutes)";
          st_progress 0; progress_bar_progress 10;
          progress_bar_progress 40; progress_bar_progress 70;
          st_error ("🚨 **API Error:** " ++ msg);
          progress_bar_empty; st_end ],
        delete (cwd ++ [temp_input])%list σ)).
Proof.
  intros Hdir Hfree Hpost Hjson _ [msg ->]. exists msg. split; [done|].
  unfold video_detection, video_detection_on, within, within_file, on_disk,
    mbind, page_bind, mret, page_ret, raise_of, show.
  cbn [fst snd app].
  rewrite write_temp_input by done. cbn [fst snd app].
  rewrite open_written_temp_input by done. cbn [fst snd app].
  rewrite Hpost, Hjson. cbn [fst snd app].
  change (py_in "error" (JObj [("error", JStr msg)])) with (Ok true).
  change (py_getitem (JObj [("error", JStr msg)]) "error") with (Ok (JStr msg)).
  cbn [fst snd app py_format].
  rewrite exists_written_temp_input by done. cbn [fst snd app].
  by rewrite remove_written_temp_input by done.
Qed.

Lemma video_detection_shows_api_error_witness :
  (detect_video sample_vision app_dir uuid_a corrupt_clip disk0).1
  = Body (JObj [("error",
                 JStr "Video detection failed: Failed to read images from temp_video/input_1b9d6bcd.mp4")]) ∧
  (video_detection sample_repr
     (λ _ data, Ok (json_response
        (JObj [("error",
                JStr "Video detection failed: Failed to read images from temp_video/input_1b9d6bcd.mp4")])))
     (λ _, Raise (Exn "ConnectionError" "refused"))
     ["home"] (file corrupt_clip) ([], home_disk)).2.1 !! 5%nat
  = Some (st_error "🚨 **API Error:** Video detection failed: Failed to read images from temp_video/input_1b9d6bcd.mp4").
Proof.
  assert (H : (detect_video sample_vision app_dir uuid_a corrupt_clip disk0).1
              = Body (JObj [("error",
                   JStr "Video detection failed: Failed to read images from temp_video/input_1b9d6bcd.mp4")]))
    by (vm_compute; reflexivity).
  split; [exact H|].
  destruct (video_detection_shows_api_error sample_repr
              (λ _ data, Ok (json_response
                 (JObj [("error",
                         JStr "Video detection failed: Failed to read images from temp_video/input_1b9d6bcd.mp4")])))
              (λ _, Raise (Exn "ConnectionError" "refused"))
              ["home"] sample_vision app_dir uuid_a corrupt_clip disk0 _ _
              home_disk ltac:(vm_compute; reflexivity) ltac:(by vm_compute)
              eq_refl eq_refl H (ex_intro _ _ eq_refl))
    as (msg & Hmsg & Hrun).
  injection Hmsg as <-. by rewrite Hrun.
Defined.

(** X19: for the success body of [POST /detect/video] the video page
    asks [GET /video/] for exactly the path in the body; when that is
    answered with status 200, it shows the bytes received as the annotated
    video, the frame count of the body, offers the bytes for download and
    removes [temp_input.mp4]. *)
Theorem video_detection_fetches_output repr post get cwd data u n resp
    video_response σ :
  is_dir σ cwd = true →
  σ !! (cwd ++ [temp_input])%list ≠ Some Dir →
  post (API_URL ++ "/detect/video") data = Ok resp →
  json_body resp = Ok (video_body u n) →
  get (API_URL ++ "/video/" ++ output_video_path u) = Ok video_response →
  status_code video_response = 200%Z →
  video_detection repr post get cwd data ([], σ)
  = (Ok (),
     ([ st_spinner "🔍 **Processing Video...** (This may take 1-3 minutes)";
        st_progress 0; progress_bar_progress 10;
        progress_bar_progress 40; progress_bar_progress 70;
        st_success "✅ **Video Processed Successfully!**";
        progress_bar_progress 85; progress_bar_progress 100;
        st_subheader "🎞️ **Annotated Video**";
        st_video (content video_response);
        st_subheader "📊 **Processing Summary**";
        st_columns (JInt 2);
        st_column "col_a";
        st_metric "Total Frames" (JInt (Z.of_nat n)); st_end;
        st_column "col_b"; st_metric "Status" (JStr "Completed"); st_end;
        st_download_button "📥 **Download Annotated Video**"
          (content video_response) "annotated_video.avi" "video/avi";
        progress_bar_empty; st_end ],
      delete (cwd ++ [temp_input])%list σ)).
Proof.
  intros Hdir Hfree Hpost Hjson Hget Hstatus.
  unfold video_detection, video_detection_on, show_annotated, within, within_file, on_disk,
    mbind, page_bind, mret, page_ret, raise_of, show.
  cbn [fst snd app].
  rewrite write_temp_input by done. cbn [fst snd app].
  rewrite open_written_temp_input by done. cbn [fst snd app].
  rewrite Hpost, Hjson. cbn [fst snd app].
  change (py_in "error" (video_body u n)) with (Ok false).
  change (py_getitem (video_body u n) "output_video_path")
    with (Ok (JStr (output_video_path u))).
  change (py_getitem (video_body u n) "total_frames")
    with (Ok (JInt (Z.of_nat n))).
  cbn [fst snd app py_format]. rewrite Hget.
  rewrite (bool_decide_eq_true_2 _ Hstatus). cbn [fst snd app].
  rewrite exists_written_temp_input by done. cbn [fst snd app].
  by rewrite remove_written_temp_input by done.
Qed.

Lemma video_detection_fetches_output_witness :
  (video_detection sample_repr
     (λ _ data, Ok (json_response (video_body uuid_a 2)))
     (λ url, if bool_decide
                  (url = "http://localhost:8502/video/runs/detect/predict_1b9d6bcd/input_1b9d6bcd.avi")
             then Ok {| status_code := 200; content := file clip_a;
                        text := EmptyString;
                        json_body := Raise (Exn "JSONDecodeError" "no JSON") |}
             else Raise (Exn "ConnectionError" "refused"))
     ["home"] (file clip_a) ([], home_disk)).2.1 !! 9%nat
  = Some (st_video (file clip_a)).
Proof.
  by rewrite (video_detection_fetches_output sample_repr
     (λ _ data, Ok (json_response (video_body uuid_a 2)))
     (λ url, if bool_decide
                  (url = "http://localhost:8502/video/runs/detect/predict_1b9d6bcd/input_1b9d6bcd.avi")
             then Ok {| status_code := 200; content := file clip_a;
                        text := EmptyString;
                        json_body := Raise (Exn "JSONDecodeError" "no JSON") |}
             else Raise (Exn "ConnectionError" "refused"))
     ["home"] (file clip_a) uuid_a 2 _ _ home_disk
     ltac:(vm_compute; reflexivity) ltac:(by vm_compute) eq_refl eq_refl
     ltac:(vm_compute; reflexivity) eq_refl).
Defined.
